(** * Sales dashboard: the aggregation / KPI engine

    A shallow embedding of the data service of the sales panel
    (CSV normalisation, filter engine, KPI calculator, sector pivot,
    entity and product aggregators and geo resolver) together with the
    totals of the pivot table component and the selection, trend and
    paging helpers of the application shell, and the properties of the
    specification and of the code checked on it.

    Modelling conventions
    - a JavaScript [string] is a Rocq [string]: the sequence of the bytes of
      its UTF-8 encoding. On ASCII text (dates, month keys, the gazetteer)
      bytes and UTF-16 code units coincide, so [substring], [startsWith],
      [split] and the relational operators are the JavaScript ones.
      [toUpperCase] and [normalize("NFD")] are exact on Latin-1 text;
    - a JavaScript [number] is a rational [Q]: arithmetic is exact, the
      rounding of IEEE doubles is not modelled, and [NaN] is an explicit
      [None] where the code can produce it;
    - an object used as a dictionary is a [gmap string _] when only lookups
      and the number of keys matter, and an association list in insertion
      order when the order of [Object.keys] / [Object.values] is observed;
      keys are ordinary strings (no clash with [Object.prototype]), except
      in the entity and product aggregators, where the clash is modelled;
    - a [Set] of strings is a [gset string] when only its size is read, and
      the list of its elements in the order of their first occurrence when
      it is turned into an array;
    - [Array.prototype.sort] with a comparator is a stable sort;
    - a [Date] built from year, month and day is the number of its civil day
      (see the section on calendar dates). *)

From Stdlib Require Import QArith Qabs Qround ZArith String Ascii List.
From Stdlib Require Import DecimalString DecimalNat.
From stdpp Require Import gmap strings list fin_maps sorting.

Local Open Scope string_scope.
Local Open Scope list_scope.

(** ** The data model ([types.ts]) *)

Inductive Channel := RC | WEB | VD | TV.

Definition channelText (c : Channel) : string :=
  match c with RC => "RC" | WEB => "WEB" | VD => "VD" | TV => "TV" end.

(** [operClass: 'VD' | 'DV'] *)
Inductive OperClass := OpVD | OpDV.

#[global] Instance OperClass_eq_dec : EqDecision OperClass.
Proof. solve_decision. Defined.

Record SaleRecord := mkSale {
  rowId : string;
  date : string;
  region : string;
  division : string;
  sector : string;
  salesRep : string;
  channel : Channel;
  supplier : string;
  cnpj : string;
  companyName : string;
  productCode : string;
  productDesc : string;
  amount : Q;
  quantity : Z;
  orderId : string;
  operClass : OperClass;
  paymentTerms : string;
  networkName : string;
  city : option string;
  state : option string
}.

Module FilterState.
Record t := mk {
    division : list string;
    region : list string;
    sector : list string;
    salesRep : list string;
    channel : list string;
    supplier : list string;
    startMonth : string;
    endMonth : string
}.
End FilterState.

(** ** JavaScript string helpers *)

(** The relational operators on strings: [a < b], [a > b], [a <= b],
    [a >= b]. *)
Definition strLt (a b : string) : bool := String.ltb a b.
Definition strGt (a b : string) : bool := String.ltb b a.
Definition strLe (a b : string) : bool := String.leb a b.
Definition strGe (a b : string) : bool := String.leb b a.

(** [Array.from(new Set(arr))]: the distinct elements in the order of their
    first occurrence. *)
Fixpoint arrayFromSet (arr : list string) : list string :=
  match arr with
  | [] => []
  | x :: rest => x :: List.filter (fun y => negb (String.eqb y x)) (arrayFromSet rest)
  end.

(** [arr.filter(Boolean)] on strings: the empty string is the only falsy one. *)
Definition filterBoolean (arr : list string) : list string :=
  List.filter (fun s => negb (String.eqb s "")) arr.

(** [arr.sort()] on strings: ascending in the order of [<]. *)
Definition sortStrings (arr : list string) : list string :=
  merge_sort String.le arr.

(** [arr.includes(v)] *)
Definition includes (arr : list string) (v : string) : bool :=
  existsb (String.eqb v) arr.

(** [s.substring(0, 7)] *)
Definition monthOf (s : string) : string := String.substring 0 7 s.

(** *** Characters, white space and numerals *)

Definition code (c : ascii) : nat := nat_of_ascii c.

Definition isDigit (c : ascii) : bool := (48 <=? code c)%nat && (code c <=? 57)%nat.

Definition digitVal (c : ascii) : Z := Z.of_nat (code c) - 48.

(** The value of a run of decimal digits, most significant first. *)
Definition digitsVal (ds : list ascii) : Z :=
  fold_left (fun acc c => 10 * acc + digitVal c)%Z ds 0%Z.

(** The longest prefix of characters satisfying [p], and the rest. *)
Fixpoint span (p : ascii -> bool) (s : list ascii) : list ascii * list ascii :=
  match s with
  | c :: rest =>
      if p c then let '(a, b) := span p rest in (c :: a, b) else ([], s)
  | [] => ([], [])
  end.

(** The white space characters of ECMAScript ([WhiteSpace] and
    [LineTerminator]), each as the bytes of its UTF-8 encoding: TAB, LF, VT,
    FF, CR, SP, U+00A0, U+1680, U+2000..U+200A, U+2028, U+2029, U+202F,
    U+205F, U+3000 and U+FEFF. *)
Definition whiteSpace : list (list nat) :=
  [ [9]; [10]; [11]; [12]; [13]; [32]; [194; 160]; [225; 154; 128];
    [226; 128; 128]; [226; 128; 129]; [226; 128; 130]; [226; 128; 131];
    [226; 128; 132]; [226; 128; 133]; [226; 128; 134]; [226; 128; 135];
    [226; 128; 136]; [226; 128; 137]; [226; 128; 138]; [226; 128; 168];
    [226; 128; 169]; [226; 128; 175]; [226; 129; 159]; [227; 128; 128];
    [239; 187; 191] ]%nat.

(** [Some rest] when [s] is [pat] followed by [rest]. *)
Fixpoint stripPrefix (pat : list nat) (s : list ascii) : option (list ascii) :=
  match pat, s with
  | [], _ => Some s
  | n :: pat', c :: s' => if (code c =? n)%nat then stripPrefix pat' s' else None
  | _ :: _, [] => None
  end.

(** Removes one leading occurrence of the first pattern that matches. *)
Fixpoint stripAny (pats : list (list nat)) (s : list ascii) : option (list ascii) :=
  match pats with
  | [] => None
  | pat :: more =>
      match stripPrefix pat s with
      | Some rest => Some rest
      | None => stripAny more s
      end
  end.

Fixpoint stripAll (fuel : nat) (pats : list (list nat)) (s : list ascii) : list ascii :=
  match fuel with
  | O => s
  | S fuel' =>
      match stripAny pats s with
      | Some rest => stripAll fuel' pats rest
      | None => s
      end
  end.

(** [s.trimStart()], [s.trimEnd()] and [s.trim()] on character lists. *)
Definition trimStart (s : list ascii) : list ascii :=
  stripAll (length s) whiteSpace s.

Definition trimEnd (s : list ascii) : list ascii :=
  rev (stripAll (length s) (List.map (@rev nat) whiteSpace) (rev s)).

Definition trimChars (s : list ascii) : list ascii := trimEnd (trimStart s).

Definition trim (s : string) : string :=
  string_of_list_ascii (trimChars (list_ascii_of_string s)).

(** [s.split(/[-\/]/)] and friends: the pieces between the characters that
    satisfy [sep]; never an empty array. *)
Fixpoint splitChars (sep : ascii -> bool) (s : list ascii) : list (list ascii) :=
  match s with
  | [] => [[]]
  | c :: rest =>
      if sep c then [] :: splitChars sep rest
      else match splitChars sep rest with
           | piece :: pieces => (c :: piece) :: pieces
           | [] => [[c]]
           end
  end.

Definition isDashOrSlash (c : ascii) : bool :=
  (code c =? 45)%nat || (code c =? 47)%nat.

(** [parseInt(s, 10)]: leading white space, an optional sign, then the
    longest run of decimal digits; [None] is [NaN]. *)
Definition parseInt10 (s : list ascii) : option Z :=
  let t := trimStart s in
  let '(neg, body) :=
    match t with
    | c :: rest =>
        if (code c =? 45)%nat then (true, rest)
        else if (code c =? 43)%nat then (false, rest)
        else (false, t)
    | [] => (false, t)
    end in
  match fst (span isDigit body) with
  | [] => None
  | ds => Some (if neg then - digitsVal ds else digitsVal ds)%Z
  end.

(** *** [Number(s)] on a string

    [None] stands for [NaN] and for the two infinities, which the only
    consumer (the [Date] constructor) treats alike. *)

Definition isHexDigit (c : ascii) : bool :=
  isDigit c || ((65 <=? code c)%nat && (code c <=? 70)%nat)
  || ((97 <=? code c)%nat && (code c <=? 102)%nat).

Definition hexVal (c : ascii) : Z :=
  if isDigit c then digitVal c
  else if (code c <=? 70)%nat then Z.of_nat (code c) - 55
  else Z.of_nat (code c) - 87.

(** A literal in radix [radix] after its [0x] / [0o] / [0b] prefix. *)
Definition radixLiteral (radix : Z) (ok : ascii -> bool) (ds : list ascii) : option Q :=
  match ds with
  | [] => None
  | _ => if forallb ok ds
         then Some (inject_Z (fold_left (fun acc c => radix * acc + hexVal c)%Z ds 0%Z))
         else None
  end.

Definition pow10 (e : Z) : Q := inject_Z (10 ^ e).

(** [ExponentPart]: [e] or [E], an optional sign and at least one digit,
    up to the end of the text. No exponent at all is the exponent 0. *)
Definition exponentPart (s : list ascii) : option Z :=
  match s with
  | [] => Some 0%Z
  | c :: rest =>
      if (code c =? 101)%nat || (code c =? 69)%nat then
        let '(neg, body) :=
          match rest with
          | d :: rest' =>
              if (code d =? 45)%nat then (true, rest')
              else if (code d =? 43)%nat then (false, rest')
              else (false, rest)
          | [] => (false, rest)
          end in
        match body with
        | [] => None
        | _ => if forallb isDigit body
               then Some (if neg then - digitsVal body else digitsVal body)%Z
               else None
        end
      else None
  end.

(** [StrUnsignedDecimalLiteral] without [Infinity]. *)
Definition unsignedDecimal (s : list ascii) : option Q :=
  let '(intDigits, rest) := span isDigit s in
  let '(fracDigits, rest') :=
    match rest with
    | c :: r => if (code c =? 46)%nat then span isDigit r else ([], rest)
    | [] => ([], rest)
    end in
  match intDigits ++ fracDigits with
  | [] => None
  | ds =>
      match exponentPart rest' with
      | None => None
      | Some e =>
          let mant := (inject_Z (digitsVal ds) / pow10 (Z.of_nat (length fracDigits)))%Q in
          Some (if (0 <=? e)%Z then mant * pow10 e else mant / pow10 (- e))%Q
      end
  end.

Definition jsNumber (s : string) : option Q :=
  match trimChars (list_ascii_of_string s) with
  | [] => Some 0%Q
  | c :: rest =>
      let t := c :: rest in
      let prefixed (lo up : nat) :=
        match t with
        | z :: x :: _ => (code z =? 48)%nat && ((code x =? lo)%nat || (code x =? up)%nat)
        | _ => false
        end in
      if prefixed 120%nat 88%nat then radixLiteral 16 isHexDigit (drop 2 t)
      else if prefixed 111%nat 79%nat then
        radixLiteral 8 (fun d => (48 <=? code d)%nat && (code d <=? 55)%nat) (drop 2 t)
      else if prefixed 98%nat 66%nat then
        radixLiteral 2 (fun d => (48 <=? code d)%nat && (code d <=? 49)%nat) (drop 2 t)
      else if (code c =? 45)%nat then option_map Qopp (unsignedDecimal rest)
      else if (code c =? 43)%nat then unsignedDecimal rest
      else unsignedDecimal t
  end.

(** *** Calendar dates

    [new Date(year, month, day)] is local midnight of a civil day; the code
    only ever subtracts two such values and rounds the difference to whole
    days, so a date is modelled by its day number (days since 1970-01-01),
    assuming that the two local UTC offsets differ by less than twelve
    hours. [None] is the invalid date. *)

(** Day number of the civil date [y]-[m]-[d], [m] in 1..12. *)
Definition daysFromCivil (y m d : Z) : Z :=
  let y' := if (m <=? 2)%Z then (y - 1)%Z else y in
  let era := (y' / 400)%Z in
  let yoe := (y' - era * 400)%Z in
  let mp := if (m <=? 2)%Z then (m + 9)%Z else (m - 3)%Z in
  let doy := ((153 * mp + 2) / 5 + d - 1)%Z in
  let doe := (yoe * 365 + yoe / 4 - yoe / 100 + doy)%Z in
  (era * 146097 + doe - 719468)%Z.

(** [MakeDay(year, month, date)] on integers, [month] counted from 0 and
    carried into the year when outside 0..11. *)
Definition makeDay (year month day : Z) : Z :=
  let ym := (year + month / 12)%Z in
  let mn := (month mod 12)%Z in
  (daysFromCivil ym (mn + 1) 1 + day - 1)%Z.

(** Truncation towards zero ([ToIntegerOrInfinity]). *)
Definition truncQ (q : Q) : Z := Z.quot (Qnum q) (Zpos (Qden q)).

(** [new Date(y, m, d)] with number arguments: a year in 0..99 means
    1900 + year, and the time value must lie within 100,000,000 days of
    the epoch. *)
Definition newDate (y m d : option Q) : option Z :=
  match y, m, d with
  | Some y, Some m, Some d =>
      let yi := truncQ y in
      let yr := if (0 <=? yi)%Z && (yi <=? 99)%Z then (1900 + yi)%Z else yi in
      let day := makeDay yr (truncQ m) (truncQ d) in
      if (Z.abs day <=? 100000000)%Z then Some day else None
  | _, _, _ => None
  end.

(** *** The due-date tokens of a payment-terms text *)

(** A match of [(\d{2})\/(\d{2})\/(\d{4})] at the head of [s]: the three
    captured groups, already through [parseInt(_, 10)]. *)
Definition dateTokenAt (s : list ascii) : option (Z * Z * Z) :=
  match s with
  | d1 :: d2 :: s1 :: m1 :: m2 :: s2 :: y1 :: y2 :: y3 :: y4 :: _ =>
      if forallb isDigit [d1; d2; m1; m2; y1; y2; y3; y4]
         && (code s1 =? 47)%nat && (code s2 =? 47)%nat
      then Some (digitsVal [d1; d2], digitsVal [m1; m2], digitsVal [y1; y2; y3; y4])
      else None
  | _ => None
  end.

(** All matches of the global pattern, left to right and without overlap:
    after a match the scan resumes behind its ten characters ([skip] counts
    the characters of the current match still to pass). *)
Fixpoint dateTokensFrom (skip : nat) (s : list ascii) : list (Z * Z * Z) :=
  match s with
  | [] => []
  | _ :: rest =>
      match skip with
      | S skip' => dateTokensFrom skip' rest
      | O =>
          match dateTokenAt s with
          | Some tok => tok :: dateTokensFrom 9 rest
          | None => dateTokensFrom 0 rest
          end
      end
  end.

Definition dateTokens (terms : string) : list (Z * Z * Z) :=
  dateTokensFrom 0 (list_ascii_of_string terms).

(** ** Record normalizer ([parseCSV])

    [Papa.parse] with [header: true] returns one object per data line, from
    column label to text; a row is a dictionary of strings. *)

Abbreviation Row := (gmap string string).

(** [a || b || ... || fallback] on texts that may be [undefined]: the first
    candidate that is neither [undefined] nor empty. *)
Fixpoint firstOf (candidates : list (option string)) (fallback : string) : string :=
  match candidates with
  | [] => fallback
  | Some s :: rest => if String.eqb s "" then firstOf rest fallback else s
  | None :: rest => firstOf rest fallback
  end.

(** The decimal text of an index, as in a template literal. *)
Definition indexText (index : nat) : string :=
  NilZero.string_of_uint (Nat.to_uint index).

Definition hasChar (n : nat) (s : list ascii) : bool :=
  existsb (fun c => (code c =? n)%nat) s.

(** [s.replace(/R\$/gi, '')]: every occurrence of [R$] or [r$], left to
    right. *)
Fixpoint removeCurrency (s : list ascii) : list ascii :=
  match s with
  | c :: rest =>
      match rest with
      | d :: rest' =>
          if ((code c =? 82)%nat || (code c =? 114)%nat) && (code d =? 36)%nat
          then removeCurrency rest'
          else c :: removeCurrency rest
      | [] => [c]
      end
  | [] => []
  end.

(** [s.replace(',', '.')]: the first comma only. *)
Fixpoint replaceFirstComma (s : list ascii) : list ascii :=
  match s with
  | c :: rest =>
      if (code c =? 44)%nat then "."%char :: rest else c :: replaceFirstComma rest
  | [] => []
  end.

(** [parseFloat] on a text made of digits, commas and dots only: the longest
    prefix of the shape digits, optional dot, digits; [None] is [NaN]. *)
Definition parseFloatClean (s : list ascii) : option Q :=
  let '(intDigits, rest) := span isDigit s in
  let fracDigits :=
    match rest with
    | c :: r => if (code c =? 46)%nat then fst (span isDigit r) else []
    | [] => []
    end in
  match intDigits ++ fracDigits with
  | [] => None
  | ds => Some (inject_Z (digitsVal ds) / pow10 (Z.of_nat (length fracDigits)))%Q
  end.

Definition parseAmount (val : string) : Q :=
  if String.eqb val "" then 0%Q
  else
    let str := trimChars (list_ascii_of_string val) in
    let isExplicitNegative := hasChar 45 str in
    let str := trimChars (removeCurrency str) in
    let clean :=
      List.filter (fun c => isDigit c || (code c =? 44)%nat || (code c =? 46)%nat) str in
    let clean :=
      if hasChar 44 clean && hasChar 46 clean
      then replaceFirstComma (List.filter (fun c => negb (code c =? 46)%nat) clean)
      else if hasChar 44 clean then replaceFirstComma clean
      else clean in
    match parseFloatClean clean with
    | None => 0%Q
    | Some num => if isExplicitNegative then (- Qabs num)%Q else num
    end.

(** [/^\d{4}-\d{2}-\d{2}$/] *)
Definition isIsoDate (val : string) : bool :=
  match list_ascii_of_string val with
  | [y1; y2; y3; y4; s1; m1; m2; s2; d1; d2] =>
      forallb isDigit [y1; y2; y3; y4; m1; m2; d1; d2]
      && (code s1 =? 45)%nat && (code s2 =? 45)%nat
  | _ => false
  end.

Definition parseDate (val : string) : string :=
  if String.eqb val "" then ""
  else if isIsoDate val then val
  else
    match List.map string_of_list_ascii
            (splitChars (fun c => (code c =? 47)%nat) (list_ascii_of_string val)) with
    | [p0; p1; p2] => p2 ++ "-" ++ p1 ++ "-" ++ p0
    | _ => ""
    end.

(** The body of the loop over the rows: the record of one row, or nothing
    when its normalised date is empty. *)
Definition parseRow (index : nat) (row : Row) : option SaleRecord :=
  let sector := firstOf [row !! "Setor"] "N/A" in
  let region := firstOf [row !! "Região"; row !! "Regiao"] "N/A" in
  let division := firstOf [row !! "Divisão"; row !! "Divisao"] "N/A" in
  let channelStr := firstOf [row !! "Canal"] "N/A" in
  let channel :=
    if String.eqb channelStr "RC" then RC
    else if String.eqb channelStr "WEB" then WEB
    else if String.eqb channelStr "VD" then VD
    else if String.eqb channelStr "TV" then TV
    else VD in
  let amountStr := firstOf [row !! "SOMA Valor"; row !! "Valor"; row !! "Faturamento"] "0" in
  let amount := parseAmount amountStr in
  let qtyStr := firstOf [row !! "SOMA Quantidade"; row !! "Quantidade"] "0" in
  let quantity := default 0%Z (parseInt10 (list_ascii_of_string qtyStr)) in
  let dateStr := firstOf [row !! "Data NFE"; row !! "Data"] "" in
  let date := parseDate dateStr in
  let cnpj := firstOf [row !! "CNPJ"; row !! "Cliente"] ("UNKNOWN-" ++ indexText index) in
  let companyName :=
    firstOf [row !! "Razão Social"; row !! "Razao Social"; row !! "Nome"]
      "Cliente Desconhecido" in
  let productCode :=
    firstOf [row !! "Cód. Produto"; row !! "Cod. Produto"; row !! "Produto"] "N/A" in
  let productDesc := firstOf [row !! "Descrição"; row !! "Descricao"] "Produto Desconhecido" in
  let orderId := firstOf [row !! "Num. Pedido"; row !! "Pedido"] ("UNK-" ++ indexText index) in
  let operClass :=
    if bool_decide (row !! "Classe Oper." = Some "DV")
       || bool_decide (row !! "Classe Oper" = Some "DV")
    then OpDV else OpVD in
  let paymentTerms := firstOf [row !! "Prazos"; row !! "Cond. Pagto"] "" in
  let networkName :=
    firstOf [row !! "Nome Rede A"; row !! "Nome Rede R/I"; row !! "Rede"] "Independente" in
  let supplier := firstOf [row !! "Fornecedor"] "N/A" in
  let salesRep := firstOf [row !! "Representante da venda"; row !! "Representante"] "N/A" in
  let city :=
    firstOf [row !! "Cidade"; row !! "Município"; row !! "Municipio"; row !! "City"] "" in
  let state := firstOf [row !! "UF"; row !! "Estado"; row !! "State"] "" in
  if negb (String.eqb date "") then
    Some (mkSale ("ROW-" ++ indexText index) date region division sector salesRep
            channel supplier cnpj companyName productCode productDesc amount
            quantity orderId operClass paymentTerms networkName
            (Some city) (Some state))
  else None.

(** The records pushed by [rows.forEach((row, index) => ...)], [index]
    counting from [start]. *)
Fixpoint parseRowsFrom (start : nat) (rows : list Row) : list SaleRecord :=
  match rows with
  | [] => []
  | row :: rest =>
      match parseRow start row with
      | Some record => record :: parseRowsFrom (S start) rest
      | None => parseRowsFrom (S start) rest
      end
  end.

(** [parseCSV] from the rows returned by [Papa.parse] up to, and without,
    the final [records.sort] by [new Date(date)], which reorders the
    records and neither adds nor removes any. *)
Definition parseCSV (rows : list Row) : list SaleRecord := parseRowsFrom 0 rows.

(** The raw date text of a row. *)
Definition rawDate (row : Row) : string :=
  firstOf [row !! "Data NFE"; row !! "Data"] "".

(** The specification's shape [DD/MM/YYYY]: two digits, a slash, two
    digits, a slash, four digits. *)
Definition isBrDate (val : string) : bool :=
  match list_ascii_of_string val with
  | [d1; d2; s1; m1; m2; s2; y1; y2; y3; y4] =>
      forallb isDigit [d1; d2; m1; m2; y1; y2; y3; y4]
      && (code s1 =? 47)%nat && (code s2 =? 47)%nat
  | _ => false
  end.

(** Number of slashes in a text. *)
Definition slashCount (val : string) : nat :=
  length (List.filter (fun c => (code c =? 47)%nat) (list_ascii_of_string val)).

(** A text without any slash. *)
Definition noSlash (val : string) : Prop := slashCount val = 0%nat.

(** ** Filter engine *)

(** The local [matches] of [filterData]. *)
Definition matches (recordValue : string) (filterValues : list string) : bool :=
  if (length filterValues =? 0)%nat || includes filterValues "all" then true
  else includes filterValues recordValue.

Definition filterPred (filters : FilterState.t) (record : SaleRecord) : bool :=
  let recordMonth := monthOf (date record) in
  let inDateRange :=
    strGe recordMonth (FilterState.startMonth filters)
    && strLe recordMonth (FilterState.endMonth filters) in
  let matchesDivision := matches (division record) (FilterState.division filters) in
  let matchesRegion := matches (region record) (FilterState.region filters) in
  let matchesSector := matches (sector record) (FilterState.sector filters) in
  let matchesRep := matches (salesRep record) (FilterState.salesRep filters) in
  let matchesChannel :=
    matches (channelText (channel record)) (FilterState.channel filters) in
  let matchesSupplier := matches (supplier record) (FilterState.supplier filters) in
  matchesDivision && matchesRegion && matchesSector && matchesRep
  && matchesChannel && matchesSupplier && inDateRange.

Definition filterData (data : list SaleRecord) (filters : FilterState.t)
  : list SaleRecord :=
  List.filter (filterPred filters) data.

(** *** Cascading options *)

(** The six filterable dimensions, i.e. the [key] passed to
    [getOptionsFor]. *)
Inductive Dimension :=
  DDivision | DRegion | DSector | DSalesRep | DChannel | DSupplier.

#[global] Instance Dimension_eq_dec : EqDecision Dimension.
Proof. solve_decision. Defined.

(** [r[key] as string] *)
Definition fieldOf (key : Dimension) (r : SaleRecord) : string :=
  match key with
  | DDivision => division r
  | DRegion => region r
  | DSector => sector r
  | DSalesRep => salesRep r
  | DChannel => channelText (channel r)
  | DSupplier => supplier r
  end.

(** [Partial<FilterState>]: the rest object of a destructuring, where the
    dimension that was taken out is [undefined]. *)
Module PartialFilter.
Record t := mk {
    division : option (list string);
    region : option (list string);
    sector : option (list string);
    salesRep : option (list string);
    channel : option (list string);
    supplier : option (list string)
}.
End PartialFilter.

(** [f && !f.includes('all') && f.length > 0 && !f.includes(v)] *)
Definition rejects (f : option (list string)) (v : string) : bool :=
  match f with
  | None => false
  | Some l => negb (includes l "all") && (0 <? length l)%nat && negb (includes l v)
  end.

Definition getOptionsFor (data : list SaleRecord) (currentFilters : FilterState.t)
    (key : Dimension) (filtersToApply : PartialFilter.t) : list string :=
  let subset :=
    List.filter (fun record =>
      let recordMonth := monthOf (date record) in
      if strLt recordMonth (FilterState.startMonth currentFilters)
         || strGt recordMonth (FilterState.endMonth currentFilters) then false
      else if rejects (PartialFilter.division filtersToApply) (division record) then false
      else if rejects (PartialFilter.region filtersToApply) (region record) then false
      else if rejects (PartialFilter.sector filtersToApply) (sector record) then false
      else if rejects (PartialFilter.salesRep filtersToApply) (salesRep record) then false
      else if rejects (PartialFilter.channel filtersToApply)
                (channelText (channel record)) then false
      else if rejects (PartialFilter.supplier filtersToApply) (supplier record) then false
      else true) data in
  sortStrings (filterBoolean (arrayFromSet (List.map (fieldOf key) subset))).

(** [const { D, ...filtersNoD } = currentFilters] *)
Definition restWithout (key : Dimension) (f : FilterState.t) : PartialFilter.t :=
  let keep (k : Dimension) (v : list string) :=
    if decide (k = key) then None else Some v in
  PartialFilter.mk
    (keep DDivision (FilterState.division f))
    (keep DRegion (FilterState.region f))
    (keep DSector (FilterState.sector f))
    (keep DSalesRep (FilterState.salesRep f))
    (keep DChannel (FilterState.channel f))
    (keep DSupplier (FilterState.supplier f)).

Module CascadingOptions.
Record t := mk {
    divisions : list string;
    regions : list string;
    sectors : list string;
    reps : list string;
    channels : list string;
    suppliers : list string
}.
End CascadingOptions.

Definition getCascadingOptions (data : list SaleRecord)
    (currentFilters : FilterState.t) : CascadingOptions.t :=
  let filtersNoDivision := restWithout DDivision currentFilters in
  let divisions := getOptionsFor data currentFilters DDivision filtersNoDivision in
  let filtersNoRegion := restWithout DRegion currentFilters in
  let regions := getOptionsFor data currentFilters DRegion filtersNoRegion in
  let filtersNoSector := restWithout DSector currentFilters in
  let sectors := getOptionsFor data currentFilters DSector filtersNoSector in
  let filtersNoRep := restWithout DSalesRep currentFilters in
  let reps := getOptionsFor data currentFilters DSalesRep filtersNoRep in
  let filtersNoChannel := restWithout DChannel currentFilters in
  let channels := getOptionsFor data currentFilters DChannel filtersNoChannel in
  let filtersNoSupplier := restWithout DSupplier currentFilters in
  let suppliers := getOptionsFor data currentFilters DSupplier filtersNoSupplier in
  CascadingOptions.mk divisions regions sectors reps channels suppliers.

(** The option list of one dimension in the result. *)
Definition optionsOf (key : Dimension) (o : CascadingOptions.t) : list string :=
  match key with
  | DDivision => CascadingOptions.divisions o
  | DRegion => CascadingOptions.regions o
  | DSector => CascadingOptions.sectors o
  | DSalesRep => CascadingOptions.reps o
  | DChannel => CascadingOptions.channels o
  | DSupplier => CascadingOptions.suppliers o
  end.

(** The filter state in which the accepted values of [key] are replaced by
    [values] and everything else is as given. *)
Definition withValues (key : Dimension) (values : list string)
    (f : FilterState.t) : FilterState.t :=
  let keep (k : Dimension) (v : list string) :=
    if decide (k = key) then values else v in
  FilterState.mk
    (keep DDivision (FilterState.division f))
    (keep DRegion (FilterState.region f))
    (keep DSector (FilterState.sector f))
    (keep DSalesRep (FilterState.salesRep f))
    (keep DChannel (FilterState.channel f))
    (keep DSupplier (FilterState.supplier f))
    (FilterState.startMonth f) (FilterState.endMonth f).

(** The specification's reading of "every other dimension's active filter":
    the filter state in which the accepted values of [key] are emptied, so
    that [key] is unconstrained. *)
Definition unconstrain (key : Dimension) (f : FilterState.t) : FilterState.t :=
  withValues key [] f.

(** Selecting the single value [v] for [key]. *)
Definition selectOnly (key : Dimension) (v : string) (f : FilterState.t)
  : FilterState.t :=
  withValues key [v] f.

(** The accepted values of one dimension in a filter state. *)
Definition filterOf (key : Dimension) (f : FilterState.t) : list string :=
  match key with
  | DDivision => FilterState.division f
  | DRegion => FilterState.region f
  | DSector => FilterState.sector f
  | DSalesRep => FilterState.salesRep f
  | DChannel => FilterState.channel f
  | DSupplier => FilterState.supplier f
  end.

(** The specification's words: the record lies in the date-month range and
    passes the filter of every dimension other than [key]. *)
Definition passesOthers (f : FilterState.t) (key : Dimension) (r : SaleRecord)
  : Prop :=
  strGe (monthOf (date r)) (FilterState.startMonth f) = true
  ∧ strLe (monthOf (date r)) (FilterState.endMonth f) = true
  ∧ ∀ other : Dimension, other ≠ key →
      matches (fieldOf other r) (filterOf other f) = true.

(** ** KPI calculator ([calculateStatsInternal]) *)

Module KPIStats.
Record t := mk {
    totalRevenue : Q;
    positivacao : Q;
    totalOrders : Q;
    averageTicket : Q;
    skuPerPdv : Q;
    avgInstallments : Q;
    avgTerm : Q
}.
End KPIStats.

(** [a > b] and [a >= b] on numbers. *)
Definition Qgtb (a b : Q) : bool := negb (Qle_bool a b).
Definition Qgeb (a b : Q) : bool := Qle_bool b a.

Definition ofNat (n : nat) : Q := inject_Z (Z.of_nat n).

(** *** 1. Revenue *)

Definition totalRevenue (data : list SaleRecord) : Q :=
  fold_left (fun acc curr => acc + amount curr)%Q data 0%Q.

(** *** 2. Positivacao *)

Definition clientNetRevenue (data : list SaleRecord) : gmap string Q :=
  fold_left (fun m r => <[cnpj r := (default 0 (m !! cnpj r) + amount r)%Q]> m)
            data ∅.

Definition activeClients (data : list SaleRecord) : list string :=
  List.map fst
    (List.filter (fun entry => Qgtb (snd entry) 0)
       (map_to_list (clientNetRevenue data))).

Definition positivacao (data : list SaleRecord) : nat :=
  length (activeClients data).

(** *** 3. Orders *)

Definition sales (data : list SaleRecord) : list SaleRecord :=
  List.filter (fun r => bool_decide (operClass r = OpVD)) data.

Definition returns (data : list SaleRecord) : list SaleRecord :=
  List.filter (fun r => bool_decide (operClass r = OpDV)) data.

Definition distinctOrdersVD (data : list SaleRecord) : nat :=
  size (list_to_set (List.map orderId (sales data)) : gset string).

Definition distinctOrdersDV (data : list SaleRecord) : nat :=
  size (list_to_set (List.map orderId (returns data)) : gset string).

Definition totalOrders (data : list SaleRecord) : Z :=
  Z.max 0 (Z.of_nat (distinctOrdersVD data) - Z.of_nat (distinctOrdersDV data)).

(** *** 4. Average ticket *)

Definition averageTicket (data : list SaleRecord) : Q :=
  if (0 <? totalOrders data)%Z
  then (totalRevenue data / inject_Z (totalOrders data))%Q
  else 0%Q.

(** *** 5. SKU x PDV *)

Module SkuSets.
Record t := mk { vd : gset string; dv : gset string }.
End SkuSets.

Definition clientSkuMap (data : list SaleRecord) : gmap string SkuSets.t :=
  fold_left (fun m r =>
      let m1 :=
        match m !! cnpj r with
        | None => <[cnpj r := SkuSets.mk ∅ ∅]> m
        | Some _ => m
        end in
      match operClass r with
      | OpVD =>
          alter (fun e => SkuSets.mk ({[productCode r]} ∪ SkuSets.vd e) (SkuSets.dv e))
                (cnpj r) m1
      | OpDV =>
          alter (fun e => SkuSets.mk (SkuSets.vd e) ({[productCode r]} ∪ SkuSets.dv e))
                (cnpj r) m1
      end)
    data ∅.

Definition netSkus (e : SkuSets.t) : Z :=
  let vdCount := Z.of_nat (size (SkuSets.vd e)) in
  let dvCount := Z.of_nat (size (SkuSets.dv e)) in
  Z.max 0 (vdCount - dvCount).

Definition totalNetSkus (data : list SaleRecord) : Z :=
  fold_left (fun total client =>
      match clientSkuMap data !! client with
      | Some e => (total + netSkus e)%Z
      | None => total
      end)
    (activeClients data) 0%Z.

Definition skuPerPdv (data : list SaleRecord) : Q :=
  if (0 <? positivacao data)%nat
  then (inject_Z (totalNetSkus data) / ofNat (positivacao data))%Q
  else 0%Q.

(** *** 6. Average number of instalments *)

Definition installmentCount (terms : string) : nat :=
  let dateMatches := dateTokens terms in
  if (0 <? length dateMatches)%nat then length dateMatches
  else length (List.filter (fun piece => (0 <? length (trimChars piece))%nat)
                 (splitChars isDashOrSlash (list_ascii_of_string terms))).

Definition installmentTotals (data : list SaleRecord) : Q * Q :=
  fold_left (fun '(totalWeightedInstallments, totalSalesForInstallments) r =>
      if negb (String.eqb (paymentTerms r) "") then
        let count := installmentCount (paymentTerms r) in
        if (0 <? count)%nat
        then ((totalWeightedInstallments + ofNat count * amount r)%Q,
              (totalSalesForInstallments + amount r)%Q)
        else (totalWeightedInstallments, totalSalesForInstallments)
      else (totalWeightedInstallments, totalSalesForInstallments))
    (sales data) (0%Q, 0%Q).

Definition avgInstallments (data : list SaleRecord) : Q :=
  let '(totalWeightedInstallments, totalSalesForInstallments) :=
    installmentTotals data in
  if Qgtb totalSalesForInstallments 0
  then (totalWeightedInstallments / totalSalesForInstallments)%Q
  else 0%Q.

(** *** 7. Average term *)

(** [new Date(y, m - 1, d)] for [[y, m, d] = date.split('-').map(Number)]. *)
Definition nfeDate (date : string) : option Z :=
  match List.map (fun piece => jsNumber (string_of_list_ascii piece))
          (splitChars (fun c => (code c =? 45)%nat) (list_ascii_of_string date)) with
  | y :: m :: d :: _ => newDate y (option_map (fun m => m - 1)%Q m) d
  | _ => None
  end.

(** The due date of one token and its distance in days from the invoice. *)
Definition diffDays (nfe : option Z) (tok : Z * Z * Z) : option Z :=
  let '(day, month1, year) := tok in
  let month := (month1 - 1)%Z in
  let dueDate :=
    newDate (Some (inject_Z year)) (Some (inject_Z month)) (Some (inject_Z day)) in
  match dueDate, nfe with
  | Some due, Some nfe => Some (due - nfe)%Z
  | _, _ => None
  end.

(** Sum of numbers of which some may be [NaN]. *)
Definition sumDays (ds : list (option Z)) : option Z :=
  fold_left (fun acc d =>
      match acc, d with
      | Some a, Some x => Some (a + x)%Z
      | _, _ => None
      end) ds (Some 0%Z).

(** The numeric day offsets of a terms text that lie in (0, 2000). *)
Definition validDays (terms : string) : list Z :=
  omap (fun piece =>
      match parseInt10 piece with
      | Some day => if (0 <? day)%Z && (day <? 2000)%Z then Some day else None
      | None => None
      end)
    (splitChars isDashOrSlash (list_ascii_of_string terms)).

Definition sumZ (l : list Z) : Z := fold_left Z.add l 0%Z.

(** The value computed for [avgDaysForOrder] when the order is not in the
    cache; [None] is [NaN]. *)
Definition computeOrderTerm (r : SaleRecord) : option Q :=
  let nfe := nfeDate (date r) in
  let dateMatches := dateTokens (paymentTerms r) in
  if (0 <? length dateMatches)%nat then
    match sumDays (List.map (diffDays nfe) dateMatches) with
    | Some currentOrderTotalDays =>
        Some (inject_Z currentOrderTotalDays / ofNat (length dateMatches))%Q
    | None => None
    end
  else
    let valid := validDays (paymentTerms r) in
    let validDaysCount := length valid in
    let validDaysSum := sumZ valid in
    if (0 <? validDaysCount)%nat
    then Some (inject_Z validDaysSum / ofNat validDaysCount)%Q
    else Some 0%Q.

Module TermAcc.
Record t := mk {
    totalWeightedDays : Q;
    totalSalesForTerm : Q;
    orderTermCache : gmap string (option Q)
}.
End TermAcc.

(** [avgDaysForOrder] of a row: the cached value of its order, else the
    freshly computed one. *)
Definition avgDaysForOrder (cache : gmap string (option Q)) (r : SaleRecord)
  : option Q :=
  match cache !! orderId r with
  | Some cached => cached
  | None => computeOrderTerm r
  end.

(** One round of the loop over [sales]. *)
Definition termStep (st : TermAcc.t) (r : SaleRecord) : TermAcc.t :=
  if negb (String.eqb (paymentTerms r) "") && negb (String.eqb (date r) "") then
    let days := avgDaysForOrder (TermAcc.orderTermCache st) r in
    let cache :=
      match TermAcc.orderTermCache st !! orderId r with
      | Some _ => TermAcc.orderTermCache st
      | None => <[orderId r := days]> (TermAcc.orderTermCache st)
      end in
    match days with
    | Some d =>
        if Qgeb d 0
        then TermAcc.mk (TermAcc.totalWeightedDays st + d * amount r)%Q
                        (TermAcc.totalSalesForTerm st + amount r)%Q cache
        else TermAcc.mk (TermAcc.totalWeightedDays st) (TermAcc.totalSalesForTerm st) cache
    | None =>
        TermAcc.mk (TermAcc.totalWeightedDays st) (TermAcc.totalSalesForTerm st) cache
    end
  else st.

Definition termInit : TermAcc.t := TermAcc.mk 0 0 ∅.

Definition termTotals (data : list SaleRecord) : TermAcc.t :=
  fold_left termStep (sales data) termInit.

Definition avgTerm (data : list SaleRecord) : Q :=
  let st := termTotals data in
  if Qgtb (TermAcc.totalSalesForTerm st) 0
  then (TermAcc.totalWeightedDays st / TermAcc.totalSalesForTerm st)%Q
  else 0%Q.

Definition calculateStatsInternal (data : list SaleRecord) : KPIStats.t :=
  KPIStats.mk (totalRevenue data) (ofNat (positivacao data))
    (inject_Z (totalOrders data)) (averageTicket data) (skuPerPdv data)
    (avgInstallments data) (avgTerm data).

Definition calculateKPIs (data : list SaleRecord) : KPIStats.t :=
  calculateStatsInternal data.

(** *** The specification's words for the KPI metrics *)

(** The amounts of the rows of [client], added up in row order from
    [init]. *)
Definition sumFor (client : string) (init : Q) (data : list SaleRecord) : Q :=
  fold_left (fun acc r =>
      if String.eqb (cnpj r) client then (acc + amount r)%Q else acc) data init.

(** The summed amount of a client over the list. *)
Definition clientSum (client : string) (data : list SaleRecord) : Q :=
  sumFor client 0 data.

(** The distinct client identifiers whose summed amount is strictly
    positive. *)
Definition positivated (data : list SaleRecord) : gset string :=
  list_to_set
    (List.filter (fun c => Qgtb (clientSum c data) 0) (List.map cnpj data)).

(** The order identifiers of the rows of one operation class. *)
Definition orderIdsOf (op : OperClass) (data : list SaleRecord) : list string :=
  List.map orderId (List.filter (fun r => bool_decide (operClass r = op)) data).

(** The product codes of the rows of one client and operation class. *)
Definition productCodesOf (client : string) (op : OperClass)
    (data : list SaleRecord) : list string :=
  List.map productCode
    (List.filter (fun r => String.eqb (cnpj r) client
                           && bool_decide (operClass r = op)) data).

(** Number of distinct strings in a list. *)
Definition countDistinct (l : list string) : nat := length (remove_dups l).

(** Distinct SALE product codes minus distinct RETURN product codes of one
    client, floored at 0. *)
Definition clientNetSkus (client : string) (data : list SaleRecord) : Z :=
  Z.max 0 (Z.of_nat (countDistinct (productCodesOf client OpVD data))
           - Z.of_nat (countDistinct (productCodesOf client OpDV data))).


(** ** Pivot builder ([getSectorPivotData]) and the pivot table *)

(** [keyof KPIStats] *)
Inductive KPIKey :=
  | KTotalRevenue | KPositivacao | KTotalOrders | KAverageTicket
  | KSkuPerPdv | KAvgInstallments | KAvgTerm.

(** [stats[key]] *)
Definition getKey (key : KPIKey) (stats : KPIStats.t) : Q :=
  match key with
  | KTotalRevenue => KPIStats.totalRevenue stats
  | KPositivacao => KPIStats.positivacao stats
  | KTotalOrders => KPIStats.totalOrders stats
  | KAverageTicket => KPIStats.averageTicket stats
  | KSkuPerPdv => KPIStats.skuPerPdv stats
  | KAvgInstallments => KPIStats.avgInstallments stats
  | KAvgTerm => KPIStats.avgTerm stats
  end.

(** [x || 0] on a number. *)
Definition orZero (x : Q) : Q := if Qeq_bool x 0 then 0%Q else x.

(** [arr.sort(compare)] with a comparator that returns a number: a stable
    sort, written as an insertion sort. [x] goes behind [y] only when
    [compare x y > 0]. *)
Fixpoint insertBy {A} (compare : A -> A -> Q) (x : A) (sorted : list A) : list A :=
  match sorted with
  | [] => [x]
  | y :: rest =>
      if Qgtb (compare x y) 0 then y :: insertBy compare x rest
      else x :: sorted
  end.

Fixpoint sortBy {A} (compare : A -> A -> Q) (arr : list A) : list A :=
  match arr with
  | [] => []
  | x :: rest => insertBy compare x (sortBy compare rest)
  end.

Module PivotRow.
Record t := mk {
  sector : string;
  months : gmap string KPIStats.t;
  total : KPIStats.t
}.
End PivotRow.

Module PivotData.
Record t := mk {
  rows : list PivotRow.t;
  months : list string;
  monthTotals : gmap string KPIStats.t;
  grandTotal : KPIStats.t
}.
End PivotData.

Definition closedMonths : list string := ["2025-08"; "2025-09"; "2025-10"].

(** [s.startsWith(m)] *)
Definition startsWith (s m : string) : bool := String.prefix m s.

(** [months.forEach(m => { map[m] = calculateStatsInternal(records.filter(r
    => r.date.startsWith(m))) })] from an empty object. *)
Definition statsByMonth (months : list string) (records : list SaleRecord)
  : gmap string KPIStats.t :=
  fold_left (fun acc m =>
      <[m := calculateStatsInternal
               (List.filter (fun r => startsWith (date r) m) records)]> acc)
    months ∅.

Definition calculateAverageOfMonths (monthDataMap : gmap string KPIStats.t)
  : KPIStats.t :=
  let average (key : KPIKey) : Q :=
    let sum :=
      fold_left (fun sum m =>
          match monthDataMap !! m with
          | Some stats => (sum + getKey key stats)%Q
          | None => sum
          end) closedMonths 0%Q in
    (sum / 3)%Q in
  KPIStats.mk (average KTotalRevenue) (average KPositivacao) (average KTotalOrders)
    (average KAverageTicket) (average KSkuPerPdv) (average KAvgInstallments)
    (average KAvgTerm).

Definition getSectorPivotData (data : list SaleRecord) : PivotData.t :=
  let months := sortStrings (arrayFromSet (List.map (fun r => monthOf (date r)) data)) in
  let sectors := sortStrings (arrayFromSet (List.map sector data)) in
  let monthTotals := statsByMonth months data in
  let grandTotal := calculateAverageOfMonths monthTotals in
  let rows :=
    List.map (fun sector' =>
        let sectorRecords := List.filter (fun r => String.eqb (sector r) sector') data in
        let monthStats := statsByMonth months sectorRecords in
        let rowAverage := calculateAverageOfMonths monthStats in
        PivotRow.mk sector' monthStats rowAverage) sectors in
  let rows :=
    sortBy (fun a b => (KPIStats.totalRevenue (PivotRow.total b)
                        - KPIStats.totalRevenue (PivotRow.total a))%Q) rows in
  PivotData.mk rows months monthTotals grandTotal.

(** *** [KPIPivotTable] ([App.tsx]) *)

Definition isRatioMetric (dataKey : KPIKey) : bool :=
  match dataKey with
  | KSkuPerPdv | KAverageTicket | KAvgTerm | KAvgInstallments => true
  | _ => false
  end.

(** The rows as displayed: sorted by the table's own metric, descending. *)
Definition sortedRows (data : PivotData.t) (dataKey : KPIKey) : list PivotRow.t :=
  sortBy (fun a b =>
      let valA := orZero (getKey dataKey (PivotRow.total a)) in
      let valB := orZero (getKey dataKey (PivotRow.total b)) in
      (valB - valA)%Q) (PivotData.rows data).

(** [(row.months[mKey]?.[dataKey] as number) || 0] *)
Definition cellValue (dataKey : KPIKey) (mKey : string) (row : PivotRow.t) : Q :=
  match PivotRow.months row !! mKey with
  | Some stats => orZero (getKey dataKey stats)
  | None => 0%Q
  end.

Definition sumQ (values : list Q) : Q := fold_left Qplus values 0%Q.

Definition calculateColumnTotal (data : PivotData.t) (dataKey : KPIKey)
    (mKey : string) : Q :=
  let valuesInColumn := List.map (cellValue dataKey mKey) (sortedRows data dataKey) in
  let sum := sumQ valuesInColumn in
  let count := length (sortedRows data dataKey) in
  if (count =? 0)%nat then 0%Q
  else if isRatioMetric dataKey then (sum / ofNat count)%Q else sum.


(** The specification's words for a cell of the pivot: the metric of the
    records of one sector in one month, and 0 for a month that no record of
    the collection falls in. *)
Definition sectorMonthValue (data : list SaleRecord) (dataKey : KPIKey)
    (mKey sector' : string) : Q :=
  if bool_decide (mKey ∈ List.map (fun r => monthOf (date r)) data) then
    getKey dataKey
      (calculateStatsInternal
         (List.filter (fun r => startsWith (date r) mKey)
            (List.filter (fun r => String.eqb (sector r) sector') data)))
  else 0%Q.

(** The sectors shown in the pivot: the distinct sectors of the collection. *)
Definition pivotSectors (data : list SaleRecord) : list string :=
  sortStrings (arrayFromSet (List.map sector data)).

(** ** Geo resolver *)

(** An object used as a dictionary whose key order is observed: the keys
    in insertion order; assigning to a key that is present keeps its
    place. *)
Fixpoint assocGet {V} (key : string) (obj : list (string * V)) : option V :=
  match obj with
  | [] => None
  | (k, v) :: rest => if String.eqb k key then Some v else assocGet key rest
  end.

Fixpoint assocSet {V} (key : string) (value : V) (obj : list (string * V))
  : list (string * V) :=
  match obj with
  | [] => [(key, value)]
  | (k, v) :: rest =>
      if String.eqb k key then (key, value) :: rest
      else (k, v) :: assocSet key value rest
  end.

(** [s.toUpperCase()], exact on texts whose characters lie in U+0000..U+00FF
    (ASCII and Latin-1, hence Portuguese); characters beyond are left as
    they are. On the UTF-8 bytes: [a-z] lose 32, U+00E0..U+00FE but the
    division sign move to U+00C0..U+00DE, the sharp s becomes [SS], the
    micro sign becomes U+039C and y with diaeresis becomes U+0178. *)
Fixpoint toUpperChars (s : list ascii) : list ascii :=
  match s with
  | [] => []
  | c :: rest =>
      let n := code c in
      if (97 <=? n)%nat && (n <=? 122)%nat
      then ascii_of_nat (n - 32) :: toUpperChars rest
      else
        match rest with
        | d :: rest' =>
            let k := code d in
            if (n =? 195)%nat && (160 <=? k)%nat && (k <=? 190)%nat && negb (k =? 183)%nat
            then c :: ascii_of_nat (k - 32) :: toUpperChars rest'
            else if (n =? 195)%nat && (k =? 159)%nat
            then "S"%char :: "S"%char :: toUpperChars rest'
            else if (n =? 195)%nat && (k =? 191)%nat
            then ascii_of_nat 197 :: ascii_of_nat 184 :: toUpperChars rest'
            else if (n =? 194)%nat && (k =? 181)%nat
            then ascii_of_nat 206 :: ascii_of_nat 156 :: toUpperChars rest'
            else c :: toUpperChars rest
        | [] => [c]
        end
  end.

Definition toUpperCase (s : string) : string :=
  string_of_list_ascii (toUpperChars (list_ascii_of_string s)).

(** The pairs of bytes that [toUpperChars] rewrites together. *)
Definition upperPair (n k : nat) : bool :=
  ((n =? 195)%nat && (160 <=? k)%nat && (k <=? 190)%nat && negb (k =? 183)%nat)
  || ((n =? 195)%nat && (k =? 159)%nat)
  || ((n =? 195)%nat && (k =? 191)%nat)
  || ((n =? 194)%nat && (k =? 181)%nat).

(** The base letter of the Latin-1 letter U+00C0 + [k - 128], given by the
    second byte [k] of its UTF-8 encoding; [None] when the letter has no
    canonical decomposition. *)
Definition baseLetter (k : nat) : option ascii :=
  if (128 <=? k)%nat && (k <=? 133)%nat then Some "A"%char
  else if (k =? 135)%nat then Some "C"%char
  else if (136 <=? k)%nat && (k <=? 139)%nat then Some "E"%char
  else if (140 <=? k)%nat && (k <=? 143)%nat then Some "I"%char
  else if (k =? 145)%nat then Some "N"%char
  else if (146 <=? k)%nat && (k <=? 150)%nat then Some "O"%char
  else if (153 <=? k)%nat && (k <=? 156)%nat then Some "U"%char
  else if (k =? 157)%nat then Some "Y"%char
  else if (160 <=? k)%nat && (k <=? 165)%nat then Some "a"%char
  else if (k =? 167)%nat then Some "c"%char
  else if (168 <=? k)%nat && (k <=? 171)%nat then Some "e"%char
  else if (172 <=? k)%nat && (k <=? 175)%nat then Some "i"%char
  else if (k =? 177)%nat then Some "n"%char
  else if (178 <=? k)%nat && (k <=? 182)%nat then Some "o"%char
  else if (185 <=? k)%nat && (k <=? 188)%nat then Some "u"%char
  else if (k =? 189)%nat || (k =? 191)%nat then Some "y"%char
  else None.

(** [s.normalize("NFD").replace(/[\u0300-\u036f]/g, "")], exact on texts
    whose characters lie in U+0000..U+00FF or are combining marks
    U+0300..U+036F: a decomposable Latin-1 letter (and U+0178) becomes its
    base letter, and a combining mark (bytes CC 80 .. CD AF) disappears. *)
Fixpoint stripAccents (s : list ascii) : list ascii :=
  match s with
  | [] => []
  | c :: rest =>
      match rest with
      | d :: rest' =>
          let n := code c in
          let k := code d in
          if (n =? 195)%nat then
            match baseLetter k with
            | Some base => base :: stripAccents rest'
            | None => c :: stripAccents rest
            end
          else if (n =? 197)%nat && (k =? 184)%nat then "Y"%char :: stripAccents rest'
          else if ((n =? 204)%nat && (128 <=? k)%nat && (k <=? 191)%nat)
                  || ((n =? 205)%nat && (128 <=? k)%nat && (k <=? 175)%nat)
          then stripAccents rest'
          else c :: stripAccents rest
      | [] => [c]
      end
  end.

(** A line terminator at the head of [s]: LF, CR, U+2028 or U+2029. *)
Definition atLineTerminator (s : list ascii) : bool :=
  match s with
  | c :: rest =>
      (code c =? 10)%nat || (code c =? 13)%nat
      || match rest with
         | d :: e :: _ =>
             (code c =? 226)%nat && (code d =? 128)%nat
             && ((code e =? 168)%nat || (code e =? 169)%nat)
         | _ => false
         end
  | [] => false
  end.

(** Drops the characters matched by [.*]: up to the next line terminator. *)
Fixpoint dropLine (s : list ascii) : list ascii :=
  match s with
  | [] => []
  | _ :: rest => if atLineTerminator s then s else dropLine rest
  end.

(** [s.replace(/X.*/, '')] for a character [X] of code [sep]: the first
    [X] and the rest of its line disappear. *)
Fixpoint cutFrom (sep : nat) (s : list ascii) : list ascii :=
  match s with
  | [] => []
  | c :: rest => if (code c =? sep)%nat then dropLine rest else c :: cutFrom sep rest
  end.

(** [parseFloat(s)]: leading white space, an optional sign, then the
    longest prefix that is a decimal literal, with its exponent when one
    follows; [None] is [NaN] (and the infinities). *)
Definition parseFloat (s : list ascii) : option Q :=
  let t := trimStart s in
  let '(neg, body) :=
    match t with
    | c :: rest =>
        if (code c =? 45)%nat then (true, rest)
        else if (code c =? 43)%nat then (false, rest)
        else (false, t)
    | [] => (false, t)
    end in
  let '(intDigits, rest) := span isDigit body in
  let '(fracDigits, rest') :=
    match rest with
    | c :: r => if (code c =? 46)%nat then span isDigit r else ([], rest)
    | [] => ([], rest)
    end in
  match intDigits ++ fracDigits with
  | [] => None
  | ds =>
      let e :=
        match rest' with
        | c :: r =>
            if (code c =? 101)%nat || (code c =? 69)%nat then
              let '(eneg, ebody) :=
                match r with
                | d :: r' =>
                    if (code d =? 45)%nat then (true, r')
                    else if (code d =? 43)%nat then (false, r')
                    else (false, r)
                | [] => (false, r)
                end in
              match fst (span isDigit ebody) with
              | [] => 0%Z
              | eds => if eneg then (- digitsVal eds)%Z else digitsVal eds
              end
            else 0%Z
        | [] => 0%Z
        end in
      let mant := (inject_Z (digitsVal ds) / pow10 (Z.of_nat (length fracDigits)))%Q in
      let value := if (0 <=? e)%Z then (mant * pow10 e)%Q else (mant / pow10 (- e))%Q in
      Some (if neg then - value else value)%Q
  end.

(** The embedded coordinate list [RAW_CITIES_CSV], a text of
    [STATE,CITY,LAT,LNG] rows separated by [|], given here by its rows: the
    result of [RAW_CITIES_CSV.split('|')]. *)
Definition RAW_CITIES_ROWS : list string :=
  [ "PR,ABATIA,-23.3049,-50.3133"; "PR,ADRIANOPOLIS,-24.6606,-48.9922";
    "PR,AGUDOS DO SUL,-25.9899,-49.3343"; "PR,ALMIRANTE TAMANDARE,-25.3188,-49.3037";
    "PR,ALTAMIRA DO PARANA,-24.7983,-52.7128"; "PR,ALTO PARAISO,-26.1146,-52.7469";
    "PR,ALTO PARANA,-23.1312,-52.3189"; "PR,ALTO PIQUIRI,-24.0224,-53.44";
    "PR,ALTONIA,-23.8759,-53.8958"; "PR,ALVORADA DO SUL,-22.7813,-51.2297";
    "PR,AMAPORA,-23.0943,-52.7866"; "PR,AMPERE,-25.9168,-53.4686";
    "PR,ANAHY,-24.6449,-53.1332"; "PR,ANDIRA,-23.0533,-50.2304";
    "PR,ANGULO,-23.1946,-51.9154"; "PR,ANTONINA,-25.4386,-48.7191";
    "PR,ANTONIO OLINTO,-25.9804,-50.1972"; "PR,APUCARANA,-23.55,-51.4635";
    "PR,ARAPONGAS,-23.4153,-51.4259"; "PR,ARAPOTI,-24.1548,-49.8285";
    "PR,ARAPUA,-24.3132,-51.7856"; "PR,ARARUNA,-23.9315,-52.5021";
    "PR,ARAUCARIA,-25.5859,-49.4047"; "PR,ARIRANHA DO IVAI,-24.3857,-51.5839";
    "PR,ASSAI,-23.3697,-50.8459"; "PR,ASSIS CHATEAUBRIAND,-24.4168,-53.5213";
    "PR,ASTORGA,-23.2318,-51.6668"; "PR,ATALAIA,-23.1517,-52.0551";
    "PR,BALSA NOVA,-25.5804,-49.6291"; "PR,BANDEIRANTES,-23.1078,-50.3704";
    "PR,BARBOSA FERRAZ,-24.0334,-52.004"; "PR,BARRA DO JACARE,-23.116,-50.1842";
    "PR,BARRACAO,-26.2502,-53.6324"; "PR,BELA VISTA DA CAROBA,-25.8842,-53.6725";
    "PR,BELA VISTA DO PARAISO,-22.9937,-51.1927"; "PR,BITURUNA,-26.1607,-51.5518";
    "PR,BOA ESPERANCA,-24.2467,-52.7876";
    "PR,BOA VENTURA DE SAO ROQUE,-24.8688,-51.6276";
    "PR,BOA VISTA DA APARECIDA,-25.4308,-53.4117";
    "PR,BOCAIUVA DO SUL,-25.2066,-49.1141"; "PR,BOM SUCESSO,-23.7063,-51.7671";
    "PR,BOM SUCESSO DO SUL,-26.0731,-52.8353"; "PR,BORRAZOPOLIS,-23.9366,-51.5875";
    "PR,BRAGANEY,-24.8173,-53.1218"; "PR,BRASILANDIA DO SUL,-24.1978,-53.5275";
    "PR,CAFEARA,-22.789,-51.7142"; "PR,CAFELANDIA,-24.6189,-53.3207";
    "PR,CAFEZAL DO SUL,-23.9005,-53.5124"; "PR,CALIFORNIA,-23.6566,-51.3574";
    "PR,CAMBARA,-23.0423,-50.0753"; "PR,CAMBE,-23.2766,-51.2798";
    "PR,CAMBIRA,-23.589,-51.5792"; "PR,CAMPINA DA LAGOA,-24.5893,-52.7976";
    "PR,CAMPINA DO SIMAO,-25.0802,-51.8237";
    "PR,CAMPINA GRANDE DO SUL,-25.3044,-49.0551"; "PR,CAMPO BONITO,-25.0294,-52.9939";
    "PR,CAMPO DO TENENTE,-25.98,-49.6844"; "PR,CAMPO LARGO,-25.4525,-49.529";
    "PR,CAMPO MAGRO,-25.3687,-49.4501"; "PR,CAMPO MOURAO,-24.0463,-52.378";
    "PR,CANDIDO DE ABREU,-24.5649,-51.3372"; "PR,CANDOI,-25.5758,-52.0409";
    "PR,CANTAGALO,-25.3734,-52.1198"; "PR,CAPANEMA,-25.6691,-53.8055";
    "PR,CAPITAO LEONIDAS MARQUES,-25.4816,-53.6112"; "PR,CARAMBEI,-24.9152,-50.0986";
    "PR,CARLOPOLIS,-23.4269,-49.7235"; "PR,CASCAVEL,-24.9573,-53.459";
    "PR,CASTRO,-24.7891,-50.0108"; "PR,CATANDUVAS,-25.2044,-53.1548";
    "PR,CENTENARIO DO SUL,-22.8188,-51.5973"; "PR,CERRO AZUL,-26.0891,-52.8691";
    "PR,CEU AZUL,-25.1489,-53.8415"; "PR,CHOPINZINHO,-25.8515,-52.5173";
    "PR,CIANORTE,-23.6599,-52.6054"; "PR,CIDADE GAUCHA,-23.3772,-52.9436";
    "PR,CLEVELANDIA,-26.4043,-52.3508"; "PR,COLOMBO,-25.2925,-49.2262";
    "PR,COLORADO,-22.8374,-51.9743"; "PR,CONGONHINHAS,-23.5493,-50.5569";
    "PR,CONSELHEIRO MAIRINCK,-23.623,-50.1707"; "PR,CONTENDA,-25.6788,-49.535";
    "PR,CORBELIA,-24.7971,-53.3006"; "PR,CORNELIO PROCOPIO,-23.1829,-50.6498";
    "PR,CORONEL DOMINGOS SOARES,-26.2277,-52.0356";
    "PR,CORONEL VIVIDA,-25.9767,-52.5641"; "PR,CORUMBATAI DO SUL,-24.101,-52.1177";
    "PR,CRUZ MACHADO,-26.0166,-51.343"; "PR,CRUZEIRO DO IGUACU,-25.6192,-53.1285";
    "PR,CRUZEIRO DO OESTE,-23.7799,-53.0774"; "PR,CRUZEIRO DO SUL,-22.9624,-52.1622";
    "PR,CRUZMALTINA,-24.0132,-51.4563"; "PR,CURITIBA,-25.4195,-49.2646";
    "PR,CURIUVA,-24.0362,-50.4576"; "PR,DIAMANTE DO NORTE,-22.655,-52.8617";
    "PR,DIAMANTE DO OESTE,-24.9462,-54.103"; "PR,DIAMANTE DO SUL,-25.035,-52.6768";
    "PR,DOIS VIZINHOS,-25.7407,-53.057"; "PR,DOURADINA,-23.3807,-53.2918";
    "PR,DOUTOR ULYSSES,-24.5665,-49.4219"; "PR,ENEAS MARQUES,-25.9445,-53.1659";
    "PR,ENGENHEIRO BELTRAO,-23.797,-52.2659";
    "PR,ENTRE RIOS DO OESTE,-24.7042,-54.2385"; "PR,ESPERANCA NOVA,-23.7238,-53.811";
    "PR,ESPIGAO ALTO DO IGUACU,-25.4216,-52.8348"; "PR,FAROL,-24.0958,-52.6217";
    "PR,FAXINAL,-24.0077,-51.3227"; "PR,FAZENDA RIO GRANDE,-25.6624,-49.3073";
    "PR,FENIX,-23.9135,-51.9805"; "PR,FIGUEIRA,-23.8455,-50.4031";
    "PR,FLOR DA SERRA DO SUL,-26.2523,-53.3092"; "PR,FLORAI,-23.3178,-52.3029";
    "PR,FLORESTA,-23.6031,-52.0807"; "PR,FLORESTOPOLIS,-22.8623,-51.3882";
    "PR,FLORIDA,-23.0847,-51.9546"; "PR,FORMOSA DO OESTE,-24.2951,-53.3114";
    "PR,FOZ DO IGUACU,-25.5427,-54.5827"; "PR,FOZ DO JORDAO,-25.7371,-52.1188";
    "PR,FRANCISCO ALVES,-24.0667,-53.8461"; "PR,FRANCISCO BELTRAO,-26.0817,-53.0535";
    "PR,GENERAL CARNEIRO,-26.425,-51.3172"; "PR,GODOY MOREIRA,-24.173,-51.9246";
    "PR,GOIOERE,-24.1835,-53.0248"; "PR,GOIOXIM,-25.1927,-51.9911";
    "PR,GRANDES RIOS,-24.1466,-51.5094"; "PR,GUAIRA,-24.085,-54.2573";
    "PR,GUAIRACA,-22.932,-52.6906"; "PR,GUAMIRANGA,-25.1912,-50.8021";
    "PR,GUAPIRAMA,-23.5203,-50.0407"; "PR,GUAPOREMA,-23.3402,-52.7786";
    "PR,GUARACI,-22.9694,-51.6504"; "PR,GUARANIACU,-25.0968,-52.8755";
    "PR,GUARAPUAVA,-25.3902,-51.4623"; "PR,GUARATUBA,-25.8817,-48.5752";
    "PR,HONORIO SERPA,-26.139,-52.3848"; "PR,IBAITI,-23.8478,-50.1932";
    "PR,IBEMA,-25.1193,-53.0072"; "PR,IBIPORA,-23.2659,-51.0522";
    "PR,ICARAIMA,-23.3944,-53.615"; "PR,IGUARACU,-23.1949,-51.8256";
    "PR,IGUATU,-24.7153,-53.0827"; "PR,IMBAU,-24.448,-50.7533";
    "PR,IMBITUVA,-25.2285,-50.5989"; "PR,INACIO MARTINS,-25.5704,-51.0769";
    "PR,INAJA,-22.7509,-52.1995"; "PR,IPIRANGA,-25.0238,-50.5794";
    "PR,IPORA,-24.0083,-53.706"; "PR,IRATI,-25.4697,-50.6493";
    "PR,IRETAMA,-24.4253,-52.1012"; "PR,ITAGUAJE,-22.6183,-51.9674";
    "PR,ITAIPULANDIA,-25.1366,-54.3001"; "PR,ITAMBARACA,-23.0181,-50.4097";
    "PR,ITAMBE,-23.6601,-51.9912"; "PR,ITAPEJARA DO OESTE,-25.9661,-52.8147";
    "PR,ITAPERUCU,-25.2193,-49.3454"; "PR,IVAI,-25.0067,-50.857";
    "PR,IVAIPORA,-24.2485,-51.6754"; "PR,IVATE,-23.4072,-53.3687";
    "PR,JABOTI,-23.7435,-50.0729"; "PR,JACAREZINHO,-23.1591,-49.9739";
    "PR,JAGUAPITA,-23.1104,-51.5342"; "PR,JAGUARIAIVA,-24.2439,-49.7066";
    "PR,JANDAIA DO SUL,-23.6011,-51.6448"; "PR,JANIOPOLIS,-24.1401,-52.7784";
    "PR,JAPIRA,-23.8142,-50.1422"; "PR,JAPURA,-23.4693,-52.5557";
    "PR,JARDIM ALEGRE,-24.1809,-51.6902"; "PR,JARDIM OLINDA,-22.5523,-52.0503";
    "PR,JATAIZINHO,-23.2578,-50.9777"; "PR,JESUITAS,-24.3839,-53.3849";
    "PR,JOAQUIM TAVORA,-23.4987,-49.909"; "PR,JUNDIAI DO SUL,-23.4357,-50.2496";
    "PR,JURANDA,-24.4209,-52.8413"; "PR,JUSSARA,-23.6219,-52.4693";
    "PR,KALORE,-23.8188,-51.6687"; "PR,LAPA,-25.7671,-49.7168";
    "PR,LARANJAL,-24.8862,-52.47"; "PR,LARANJEIRAS DO SUL,-25.4077,-52.4109";
    "PR,LEOPOLIS,-23.0818,-50.7511"; "PR,LIDIANOPOLIS,-24.11,-51.6506";
    "PR,LINDOESTE,-25.2596,-53.5733"; "PR,LOANDA,-22.9232,-53.1362";
    "PR,LOBATO,-23.0058,-51.9524"; "PR,LONDRINA,-23.304,-51.1691";
    "PR,LUIZIANA,-24.2853,-52.269"; "PR,LUNARDELLI,-24.0821,-51.7368";
    "PR,LUPIONOPOLIS,-22.755,-51.6601"; "PR,MALLET,-25.8806,-50.8173";
    "PR,MAMBORE,-24.317,-52.5271"; "PR,MANDAGUACU,-23.3458,-52.0944";
    "PR,MANDAGUARI,-23.5446,-51.671"; "PR,MANDIRITUBA,-25.777,-49.3282";
    "PR,MANFRINOPOLIS,-26.1441,-53.3113"; "PR,MANGUEIRINHA,-25.9421,-52.1743";
    "PR,MANOEL RIBAS,-24.5144,-51.6658"; "PR,MARECHAL CANDIDO RONDON,-24.557,-54.0571";
    "PR,MARIA HELENA,-23.6158,-53.2053"; "PR,MARIALVA,-23.4843,-51.7928";
    "PR,MARILANDIA DO SUL,-23.7425,-51.3137"; "PR,MARILENA,-22.7336,-53.0402";
    "PR,MARILUZ,-24.0089,-53.1432"; "PR,MARINGA,-23.4205,-51.9333";
    "PR,MARIOPOLIS,-26.355,-52.5532"; "PR,MARIPA,-24.42,-53.8286";
    "PR,MARMELEIRO,-26.1472,-53.0267"; "PR,MARQUINHO,-25.112,-52.2497";
    "PR,MARUMBI,-23.7058,-51.6404"; "PR,MATELANDIA,-25.2496,-53.9935";
    "PR,MATINHOS,-25.8237,-48.549"; "PR,MATO RICO,-24.6995,-52.1454";
    "PR,MAUA DA SERRA,-23.8988,-51.2277"; "PR,MEDIANEIRA,-25.2977,-54.0943";
    "PR,MERCEDES,-24.4538,-54.1618"; "PR,MISSAL,-25.0919,-54.2477";
    "PR,MOREIRA SALES,-24.0509,-53.0102"; "PR,MORRETES,-25.4744,-48.8345";
    "PR,MUNHOZ DE MELLO,-23.1477,-51.7739";
    "PR,NOSSA SENHORA DAS GRACAS,-22.9129,-51.7978";
    "PR,NOVA AMERICA DA COLINA,-23.3308,-50.7168"; "PR,NOVA AURORA,-24.5289,-53.2575";
    "PR,NOVA CANTU,-24.6723,-52.5661"; "PR,NOVA ESPERANCA,-23.182,-52.2031";
    "PR,NOVA ESPERANCA DO SUDOESTE,-25.9004,-53.2618";
    "PR,NOVA FATIMA,-23.4324,-50.5665"; "PR,NOVA LARANJEIRAS,-25.3054,-52.5447";
    "PR,NOVA LONDRINA,-22.7639,-52.9868"; "PR,NOVA OLIMPIA,-23.4703,-53.0898";
    "PR,NOVA PRATA DO IGUACU,-25.6309,-53.3469";
    "PR,NOVA SANTA BARBARA,-23.5865,-50.7598"; "PR,NOVA SANTA ROSA,-24.4693,-53.9552";
    "PR,NOVA TEBAS,-24.438,-51.9454"; "PR,NOVO ITACOLOMI,-23.7631,-51.5079";
    "PR,ORTIGUEIRA,-24.2058,-50.9185"; "PR,OURIZONA,-23.4053,-52.1964";
    "PR,PAICANDU,-23.4555,-52.046"; "PR,PALMAS,-26.4839,-51.9888";
    "PR,PALMEIRA,-25.4257,-50.007"; "PR,PALMITAL,-24.8853,-52.2029";
    "PR,PALOTINA,-24.2868,-53.8404"; "PR,PARAISO DO NORTE,-23.2824,-52.6054";
    "PR,PARANACITY,-22.9297,-52.1549"; "PR,PARANAGUA,-25.5161,-48.5225";
    "PR,PARANAPOEMA,-22.6412,-52.0905"; "PR,PARANAVAI,-23.0816,-52.4617";
    "PR,PATO BRAGADO,-24.6271,-54.2265"; "PR,PATO BRANCO,-26.2292,-52.6706";
    "PR,PAULA FREITAS,-26.2105,-50.931"; "PR,PAULO FRONTIN,-26.0466,-50.8304";
    "PR,PEABIRU,-23.914,-52.3431"; "PR,PEROBAL,-23.8949,-53.4098";
    "PR,PEROLA,-23.8039,-53.6834"; "PR,PEROLA DO OESTE,-25.759,-53.8055";
    "PR,PIEN,-26.0965,-49.4336"; "PR,PINHAIS,-25.4429,-49.1927";
    "PR,PINHALAO,-23.7982,-50.0536"; "PR,PINHAO,-25.6944,-51.6536";
    "PR,PIRAI DO SUL,-24.5306,-49.9433"; "PR,PIRAQUARA,-25.4422,-49.0624";
    "PR,PITANGA,-24.7588,-51.7596"; "PR,PITANGUEIRAS,-23.2281,-51.5873";
    "PR,PLANALTINA DO PARANA,-23.0101,-52.9162"; "PR,PLANALTO,-25.7211,-53.7642";
    "PR,PONTA GROSSA,-25.0916,-50.1668"; "PR,PONTAL DO PARANA,-25.6735,-48.5111";
    "PR,PORECATU,-22.7537,-51.3795"; "PR,PORTO AMAZONAS,-25.54,-49.8946";
    "PR,PORTO BARREIRO,-25.5477,-52.4067"; "PR,PORTO RICO,-22.7747,-53.2677";
    "PR,PORTO VITORIA,-26.1674,-51.231"; "PR,PRADO FERREIRA,-23.0357,-51.4429";
    "PR,PRANCHITA,-26.0209,-53.7397"; "PR,PRESIDENTE CASTELO BRANCO,-23.2782,-52.1536";
    "PR,PRIMEIRO DE MAIO,-22.8517,-51.0293"; "PR,PRUDENTOPOLIS,-25.2111,-50.9754";
    "PR,QUARTO CENTENARIO,-24.2775,-53.0759"; "PR,QUATIGUA,-23.5671,-49.916";
    "PR,QUATRO BARRAS,-25.3673,-49.0763"; "PR,QUATRO PONTES,-24.5752,-53.9759";
    "PR,QUEDAS DO IGUACU,-25.4492,-52.9102"; "PR,QUERENCIA DO NORTE,-23.0838,-53.483";
    "PR,QUINTA DO SOL,-23.8533,-52.1309"; "PR,QUITANDINHA,-25.8734,-49.4973";
    "PR,RAMILANDIA,-25.1195,-54.023"; "PR,RANCHO ALEGRE,-23.0676,-50.9145";
    "PR,RANCHO ALEGRE D OESTE,-24.2778,-53.075"; "PR,REALEZA,-25.7711,-53.526";
    "PR,REBOUCAS,-25.6232,-50.6877"; "PR,RENASCENCA,-26.1588,-52.9703";
    "PR,RESERVA,-24.6492,-50.8466"; "PR,RESERVA DO IGUACU,-25.8319,-52.0272";
    "PR,RIBEIRAO CLARO,-23.1941,-49.7597"; "PR,RIBEIRAO DO PINHAL,-23.4091,-50.3601";
    "PR,RIO AZUL,-25.7306,-50.7985"; "PR,RIO BOM,-23.7606,-51.4122";
    "PR,RIO BONITO DO IGUACU,-25.4874,-52.5292";
    "PR,RIO BRANCO DO IVAI,-24.3244,-51.3187"; "PR,RIO BRANCO DO SUL,-25.1892,-49.3115";
    "PR,RIO NEGRO,-26.095,-49.7982"; "PR,ROLANDIA,-23.3101,-51.3659";
    "PR,RONCADOR,-24.5958,-52.2716"; "PR,RONDON,-23.412,-52.7659";
    "PR,ROSARIO DO IVAI,-24.2682,-51.272"; "PR,SABAUDIA,-23.3155,-51.555";
    "PR,SALGADO FILHO,-26.1777,-53.3631"; "PR,SALTO DO ITARARE,-23.6074,-49.6354";
    "PR,SALTO DO LONTRA,-25.7813,-53.3135"; "PR,SANTA AMELIA,-23.2654,-50.4288";
    "PR,SANTA CECILIA DO PAVAO,-23.5201,-50.7835";
    "PR,SANTA CRUZ DE MONTE CASTELO,-22.9582,-53.2949"; "PR,SANTA FE,-23.04,-51.808";
    "PR,SANTA HELENA,-24.8585,-54.336"; "PR,SANTA ISABEL DO IVAI,-23.0025,-53.1989";
    "PR,SANTA IZABEL DO OESTE,-25.8217,-53.4801"; "PR,SANTA LUCIA,-25.4104,-53.5638";
    "PR,SANTA MARIA DO OESTE,-24.9377,-51.8696"; "PR,SANTA MARIANA,-23.1465,-50.5167";
    "PR,SANTA MONICA,-23.108,-53.1103"; "PR,SANTA TEREZA DO OESTE,-25.0543,-53.6274";
    "PR,SANTA TEREZINHA DE ITAIPU,-25.4391,-54.402";
    "PR,SANTANA DO ITARARE,-23.7587,-49.6293";
    "PR,SANTO ANTONIO DA PLATINA,-23.2959,-50.0815";
    "PR,SANTO ANTONIO DO CAIUA,-22.7351,-52.344";
    "PR,SANTO ANTONIO DO PARAISO,-23.4969,-50.6455";
    "PR,SANTO ANTONIO DO SUDOESTE,-26.0737,-53.7251";
    "PR,SANTO INACIO,-22.6957,-51.7969"; "PR,SAO CARLOS DO IVAI,-23.3158,-52.4761";
    "PR,SAO JERONIMO DA SERRA,-23.7218,-50.7475"; "PR,SAO JOAO,-25.8214,-52.7252";
    "PR,SAO JOAO DO CAIUA,-22.8535,-52.3411"; "PR,SAO JOAO DO IVAI,-23.9833,-51.8215";
    "PR,SAO JOAO DO TRIUNFO,-25.683,-50.2949"; "PR,SAO JORGE D OESTE,-25.4389,-53.5269";
    "PR,SAO JORGE DO IVAI,-23.4336,-52.2929";
    "PR,SAO JORGE DO PATROCINIO,-23.7647,-53.8823";
    "PR,SAO JOSE DA BOA VISTA,-23.9122,-49.6577";
    "PR,SAO JOSE DOS PINHAIS,-25.5313,-49.2031";
    "PR,SAO MATEUS DO SUL,-25.8677,-50.384";
    "PR,SAO MIGUEL DO IGUACU,-25.3492,-54.2405";
    "PR,SAO PEDRO DO IGUACU,-24.9373,-53.8521";
    "PR,SAO PEDRO DO IVAI,-23.8634,-51.8568";
    "PR,SAO SEBASTIAO DA AMOREIRA,-23.4656,-50.7625"; "PR,SAPOPEMA,-23.9078,-50.5801";
    "PR,SARANDI,-23.4441,-51.876"; "PR,SAUDADE DO IGUACU,-25.6917,-52.6184";
    "PR,SENGES,-24.1129,-49.4616"; "PR,SERRANOPOLIS DO IGUACU,-25.3799,-54.0518";
    "PR,SERTANEJA,-23.0361,-50.8317"; "PR,SERTANOPOLIS,-23.0571,-51.0399";
    "PR,SIQUEIRA CAMPOS,-23.6875,-49.8304"; "PR,SULINA,-25.7066,-52.7299";
    "PR,TAMARANA,-23.7204,-51.0991"; "PR,TAMBOARA,-23.2036,-52.4743";
    "PR,TAPEJARA,-23.7315,-52.8735"; "PR,TAPIRA,-23.3193,-53.0684";
    "PR,TEIXEIRA SOARES,-25.3701,-50.4571"; "PR,TELEMACO BORBA,-24.3245,-50.6176";
    "PR,TERRA BOA,-23.7683,-52.447"; "PR,TERRA RICA,-22.7111,-52.6188";
    "PR,TERRA ROXA,-24.1575,-54.0988"; "PR,TIBAGI,-24.5153,-50.4176";
    "PR,TIJUCAS DO SUL,-25.9311,-49.195"; "PR,TOLEDO,-24.7246,-53.7412";
    "PR,TOMAZINA,-23.7796,-49.9499"; "PR,TRES BARRAS DO PARANA,-25.4185,-53.1833";
    "PR,TUNAS DO PARANA,-24.9731,-49.0879"; "PR,TUNEIRAS DO OESTE,-23.8648,-52.8769";
    "PR,TUPASSI,-24.5879,-53.5105"; "PR,TURVO,-25.0437,-51.5282";
    "PR,UBIRATA,-24.5393,-52.9865"; "PR,UMUARAMA,-23.7656,-53.3201";
    "PR,UNIAO DA VITORIA,-26.2273,-51.0873"; "PR,UNIFLOR,-23.0868,-52.1573";
    "PR,URAI,-23.2,-50.7939"; "PR,VENTANIA,-24.2458,-50.2376";
    "PR,VERA CRUZ DO OESTE,-25.0577,-53.8771"; "PR,VERE,-25.8772,-52.9051";
    "PR,VIRMOND,-25.3829,-52.1987"; "PR,VITORINO,-26.2683,-52.7843";
    "PR,WENCESLAU BRAZ,-23.8742,-49.8032"; "PR,XAMBRE,-23.7364,-53.4884";
    "RS,ACEGUA,-31.8665,-54.1615"; "RS,AGUDO,-29.6447,-53.2515";
    "RS,AJURICABA,-28.2342,-53.7757"; "RS,ALECRIM,-27.6579,-54.7649";
    "RS,ALEGRETE,-29.7902,-55.7949"; "RS,ALEGRIA,-27.8345,-54.0557";
    "RS,ALPESTRE,-27.2502,-53.0341"; "RS,ALTO FELIZ,-29.3919,-51.3123";
    "RS,ALVORADA,-29.9914,-51.0809"; "RS,AMARAL FERRADOR,-30.8756,-52.2509";
    "RS,AMETISTA DO SUL,-27.3607,-53.183"; "RS,ANTA GORDA,-28.9698,-52.0102";
    "RS,ANTONIO PRADO,-28.8565,-51.2883"; "RS,ARAMBARE,-30.9092,-51.5046";
    "RS,ARARICA,-29.6168,-50.9291"; "RS,ARATIBA,-27.3978,-52.2975";
    "RS,ARROIO DO MEIO,-29.4014,-51.9557"; "RS,ARROIO DO SAL,-29.5439,-49.8895";
    "RS,ARROIO DO TIGRE,-29.3348,-53.0966"; "RS,ARROIO DOS RATOS,-30.0875,-51.7275";
    "RS,ARVOREZINHA,-28.8737,-52.1781"; "RS,AUGUSTO PESTANA,-28.5172,-53.9883";
    "RS,AUREA,-27.6936,-52.0505"; "RS,BAGE,-31.3297,-54.0999";
    "RS,BALNEARIO PINHAL,-30.2419,-50.2337"; "RS,BARAO,-29.3725,-51.4949";
    "RS,BARAO DE COTEGIPE,-27.6208,-52.3798"; "RS,BARAO DO TRIUNFO,-30.3891,-51.7384";
    "RS,BARRA DO GUARITA,-27.1927,-53.7109"; "RS,BARRA DO QUARAI,-30.2029,-57.5497";
    "RS,BARRA DO RIBEIRO,-30.2939,-51.3014"; "RS,BARRA FUNDA,-27.9205,-53.0391";
    "RS,BARROS CASSAL,-29.0947,-52.5836"; "RS,BENTO GONCALVES,-29.1662,-51.5165";
    "RS,BOA VISTA DAS MISSOES,-27.6671,-53.3102";
    "RS,BOA VISTA DO BURICA,-27.6693,-54.1082"; "RS,BOM PRINCIPIO,-29.4856,-51.3548";
    "RS,BOM RETIRO DO SUL,-29.6071,-51.9456"; "RS,BOQUEIRAO DO LEAO,-29.3046,-52.4284";
    "RS,BOSSOROCA,-28.7291,-54.9035"; "RS,BRAGA,-27.6173,-53.7405";
    "RS,BUTIA,-30.1179,-51.9601"; "RS,CACAPAVA DO SUL,-30.5144,-53.4827";
    "RS,CACEQUI,-29.8883,-54.822"; "RS,CACHOEIRA DO SUL,-30.033,-52.8928";
    "RS,CACHOEIRINHA,-29.9472,-51.1016"; "RS,CACIQUE DOBLE,-27.767,-51.6597";
    "RS,CAIBATE,-28.2905,-54.6454"; "RS,CAICARA,-27.2791,-53.4257";
    "RS,CAMAQUA,-30.8489,-51.8043"; "RS,CAMARGO,-28.588,-52.2003";
    "RS,CAMBARA DO SUL,-29.0474,-50.1465"; "RS,CAMPESTRE DA SERRA,-28.7926,-51.0941";
    "RS,CAMPINAS DO SUL,-27.7174,-52.6248"; "RS,CAMPO BOM,-29.6747,-51.0606";
    "RS,CAMPO NOVO,-27.6792,-53.8052"; "RS,CAMPOS BORGES,-28.8871,-53.0008";
    "RS,CANDELARIA,-29.6684,-52.7895"; "RS,CANDIDO GODOI,-27.9515,-54.7517";
    "RS,CANDIOTA,-31.5516,-53.6773"; "RS,CANELA,-29.356,-50.8119";
    "RS,CANGUCU,-31.396,-52.6783"; "RS,CANOAS,-29.9128,-51.1857";
    "RS,CAPAO BONITO DO SUL,-28.1254,-51.3961"; "RS,CAPAO DO LEAO,-31.7565,-52.4889";
    "RS,CAPITAO,-29.2674,-51.9853"; "RS,CARAA,-29.7869,-50.4316";
    "RS,CARLOS BARBOSA,-29.2969,-51.5028"; "RS,CATUIPE,-28.2554,-54.0132";
    "RS,CAXIAS DO SUL,-29.1629,-51.1792"; "RS,CENTENARIO,-27.7615,-51.9984";
    "RS,CERRO BRANCO,-29.657,-52.9406"; "RS,CERRO GRANDE,-27.6106,-53.1672";
    "RS,CERRO GRANDE DO SUL,-30.5905,-51.7418"; "RS,CERRO LARGO,-28.1463,-54.7428";
    "RS,CHAPADA,-28.0559,-53.0665"; "RS,CHARQUEADAS,-29.9625,-51.6289";
    "RS,CHIAPETTA,-27.923,-53.9419"; "RS,CHUI,-33.6866,-53.4594";
    "RS,CHUVISCA,-30.7504,-51.9737"; "RS,CIDREIRA,-30.1604,-50.2337";
    "RS,COLORADO,-28.5258,-52.9928"; "RS,CONDOR,-28.2075,-53.4905";
    "RS,CONSTANTINA,-27.732,-52.9938"; "RS,COQUEIRO BAIXO,-29.1802,-52.0942";
    "RS,CORONEL BARROS,-28.3921,-54.0686"; "RS,CORONEL BICACO,-27.7197,-53.7022";
    "RS,COTIPORA,-28.9891,-51.6971"; "RS,CRISSIUMAL,-27.4999,-54.0994";
    "RS,CRISTAL DO SUL,-27.452,-53.2422"; "RS,CRUZ ALTA,-28.645,-53.6048";
    "RS,CRUZEIRO DO SUL,-29.5148,-51.9928"; "RS,DOIS IRMAOS,-29.5836,-51.0898";
    "RS,DOIS IRMAOS DAS MISSOES,-27.6621,-53.5304"; "RS,DOIS LAJEADOS,-28.983,-51.8396";
    "RS,DOM FELICIANO,-30.7004,-52.1026"; "RS,DOM PEDRITO,-30.9756,-54.6694";
    "RS,DOM PEDRO DE ALCANTARA,-29.3639,-49.853";
    "RS,DOUTOR MAURICIO CARDOSO,-27.5103,-54.3577";
    "RS,ELDORADO DO SUL,-30.0847,-51.6187"; "RS,ENCANTADO,-29.2351,-51.8703";
    "RS,ENCRUZILHADA DO SUL,-30.543,-52.5204"; "RS,ENTRE IJUIS,-28.3686,-54.2686";
    "RS,EREBANGO,-27.8544,-52.3005"; "RS,ERECHIM,-27.6364,-52.2697";
    "RS,ERNESTINA,-28.4977,-52.5836"; "RS,ERVAL GRANDE,-27.3926,-52.574";
    "RS,ERVAL SECO,-27.5443,-53.5005"; "RS,ESPERANCA DO SUL,-27.3603,-53.9891";
    "RS,ESPUMOSO,-28.7286,-52.8461"; "RS,ESTACAO,-27.9135,-52.2635";
    "RS,ESTANCIA VELHA,-29.6535,-51.1843"; "RS,ESTEIO,-29.852,-51.1841";
    "RS,ESTRELA,-29.5002,-51.9495"; "RS,EUGENIO DE CASTRO,-28.5315,-54.1506";
    "RS,FARROUPILHA,-29.2227,-51.3419"; "RS,FAXINAL DO SOTURNO,-29.5788,-53.4484";
    "RS,FELIZ,-29.4527,-51.3032"; "RS,FLORES DA CUNHA,-29.0261,-51.1875";
    "RS,FREDERICO WESTPHALEN,-27.3586,-53.3958"; "RS,GARIBALDI,-29.259,-51.5352";
    "RS,GAURAMA,-27.5856,-52.0915"; "RS,GENERAL CAMARA,-29.9032,-51.7612";
    "RS,GETULIO VARGAS,-27.8911,-52.2294"; "RS,GIRUA,-28.0297,-54.3517";
    "RS,GLORINHA,-29.8798,-50.7734"; "RS,GRAMADO,-29.3734,-50.8762";
    "RS,GRAVATAI,-29.9413,-50.9869"; "RS,GUABIJU,-28.5421,-51.6948";
    "RS,GUAIBA,-30.1086,-51.3233"; "RS,GUAPORE,-28.8399,-51.8895";
    "RS,GUARANI DAS MISSOES,-28.1491,-54.5629"; "RS,HERVEIRAS,-29.4552,-52.6553";
    "RS,HORIZONTINA,-27.6282,-54.3053"; "RS,HUMAITA,-27.5691,-53.9695";
    "RS,IBIACA,-28.0566,-51.8599"; "RS,IBIRAPUITA,-28.6247,-52.5158";
    "RS,IBIRUBA,-28.6302,-53.0961"; "RS,IGREJINHA,-29.5693,-50.7919";
    "RS,IJUI,-28.388,-53.92"; "RS,ILOPOLIS,-28.9282,-52.1258";
    "RS,IMBE,-29.9753,-50.1281"; "RS,IMIGRANTE,-29.3508,-51.7748";
    "RS,INDEPENDENCIA,-27.8354,-54.1886"; "RS,IPIRANGA DO SUL,-27.9404,-52.4271";
    "RS,IRAI,-27.1951,-53.2543"; "RS,ITAQUI,-29.1311,-56.5515";
    "RS,ITATI,-29.4974,-50.1016"; "RS,ITATIBA DO SUL,-27.3846,-52.4538";
    "RS,IVOTI,-29.5995,-51.1533"; "RS,JABOTICABA,-27.6347,-53.2762";
    "RS,JACUTINGA,-27.7291,-52.5372"; "RS,JAGUARAO,-32.5604,-53.377";
    "RS,JAGUARI,-29.4936,-54.703"; "RS,JAQUIRANA,-28.8811,-50.3637";
    "RS,JOIA,-28.6435,-54.1141"; "RS,JULIO DE CASTILHOS,-29.2299,-53.6772";
    "RS,LAGOA VERMELHA,-28.2093,-51.5248"; "RS,LAGOAO,-29.2348,-52.7997";
    "RS,LAJEADO,-29.4591,-51.9644"; "RS,LAJEADO DO BUGRE,-27.6913,-53.1818";
    "RS,LAVRAS DO SUL,-30.8071,-53.8931"; "RS,LINDOLFO COLLOR,-29.5859,-51.2141";
    "RS,LINHA NOVA,-29.4679,-51.2003"; "RS,MACAMBARA,-29.1445,-56.0674";
    "RS,MACHADINHO,-27.5667,-51.6668"; "RS,MAMPITUBA,-29.2136,-49.9311";
    "RS,MANOEL VIANA,-29.5859,-55.4841"; "RS,MAQUINE,-29.6798,-50.2079";
    "RS,MARAU,-28.4498,-52.1986"; "RS,MARCELINO RAMOS,-27.4676,-51.9095";
    "RS,MARIANA PIMENTEL,-30.353,-51.5803"; "RS,MARIANO MORO,-27.3568,-52.1467";
    "RS,MARQUES DE SOUZA,-29.3311,-52.0973"; "RS,MATO LEITAO,-29.5285,-52.1278";
    "RS,MAXIMILIANO DE ALMEIDA,-27.6325,-51.802"; "RS,MINAS DO LEAO,-30.1346,-52.0423";
    "RS,MIRAGUAI,-27.497,-53.6891"; "RS,MONTENEGRO,-29.6824,-51.4679";
    "RS,MORRO REUTER,-29.5379,-51.0811"; "RS,MOSTARDAS,-31.1054,-50.9167";
    "RS,MUCUM,-29.163,-51.8714"; "RS,NAO ME TOQUE,-28.4548,-52.8182";
    "RS,NONOAI,-27.3689,-52.7756"; "RS,NOVA ALVORADA,-28.6822,-52.1631";
    "RS,NOVA BASSANO,-28.7291,-51.7072"; "RS,NOVA BOA VISTA,-27.9926,-52.9784";
    "RS,NOVA BRESCIA,-29.2182,-52.0319"; "RS,NOVA CANDELARIA,-27.6137,-54.1074";
    "RS,NOVA ESPERANCA DO SUL,-29.4066,-54.8293"; "RS,NOVA HARTZ,-29.5808,-50.9051";
    "RS,NOVA PALMA,-29.471,-53.4689"; "RS,NOVA PETROPOLIS,-29.3741,-51.1136";
    "RS,NOVA PRATA,-28.7799,-51.6113"; "RS,NOVA ROMA DO SUL,-28.9882,-51.4095";
    "RS,NOVA SANTA RITA,-29.8525,-51.2837"; "RS,NOVO BARREIRO,-27.9077,-53.1103";
    "RS,NOVO CABRAIS,-29.7338,-52.9489"; "RS,NOVO HAMBURGO,-29.6875,-51.1328";
    "RS,NOVO TIRADENTES,-27.5649,-53.1837"; "RS,OSORIO,-29.8881,-50.2667";
    "RS,PALMARES DO SUL,-30.2535,-50.5103"; "RS,PALMEIRA DAS MISSOES,-27.9007,-53.3134";
    "RS,PALMITINHO,-27.3596,-53.558"; "RS,PANAMBI,-28.2833,-53.5023";
    "RS,PANTANO GRANDE,-30.1902,-52.3729"; "RS,PARAI,-28.5964,-51.7896";
    "RS,PARAISO DO SUL,-29.6717,-53.144"; "RS,PAROBE,-29.6243,-50.8312";
    "RS,PASSO DO SOBRADO,-29.748,-52.2748"; "RS,PASSO FUNDO,-28.2576,-52.4091";
    "RS,PAVERAMA,-29.5486,-51.7339"; "RS,PEDRO OSORIO,-31.8642,-52.8184";
    "RS,PEJUCARA,-28.4283,-53.6579"; "RS,PELOTAS,-31.7649,-52.3371";
    "RS,PICADA CAFE,-29.4464,-51.1367"; "RS,PINHAL,-27.508,-53.2082";
    "RS,PINHEIRO MACHADO,-31.5794,-53.3798"; "RS,PINTO BANDEIRA,-29.0975,-51.4503";
    "RS,PIRATINI,-31.4473,-53.0973"; "RS,PLANALTO,-27.3297,-53.0575";
    "RS,POCO DAS ANTAS,-29.4481,-51.6719"; "RS,PORTAO,-29.7015,-51.2429";
    "RS,PORTO ALEGRE,-30.0318,-51.2065"; "RS,PORTO LUCENA,-27.8569,-55.01";
    "RS,PORTO MAUA,-27.5796,-54.6657"; "RS,PORTO XAVIER,-27.9082,-55.1379";
    "RS,PRESIDENTE LUCENA,-29.5175,-51.1798"; "RS,PUTINGA,-29.0045,-52.1569";
    "RS,QUARAI,-30.384,-56.4483"; "RS,QUINZE DE NOVEMBRO,-28.7466,-53.1011";
    "RS,REDENTORA,-27.664,-53.6407"; "RS,RELVADO,-29.1164,-52.0778";
    "RS,RESTINGA SECA,-29.8188,-53.3807"; "RS,RIO DOS INDIOS,-27.2973,-52.8417";
    "RS,RIO GRANDE,-32.0349,-52.1071"; "RS,RIO PARDO,-29.988,-52.3711";
    "RS,RIOZINHO,-29.639,-50.4488"; "RS,RODEIO BONITO,-27.4742,-53.1706";
    "RS,ROLANTE,-29.6462,-50.5819"; "RS,RONDA ALTA,-27.7758,-52.8056";
    "RS,ROQUE GONZALES,-28.1297,-55.0266"; "RS,ROSARIO DO SUL,-30.2515,-54.9221";
    "RS,SAGRADA FAMILIA,-27.7085,-53.1351"; "RS,SALDANHA MARINHO,-28.3941,-53.097";
    "RS,SALTO DO JACUI,-29.0951,-53.2133"; "RS,SALVADOR DAS MISSOES,-28.1233,-54.8373";
    "RS,SALVADOR DO SUL,-29.4386,-51.5077"; "RS,SANANDUVA,-27.947,-51.8079";
    "RS,SANTA BARBARA DO SUL,-28.3653,-53.251";
    "RS,SANTA CLARA DO SUL,-29.4747,-52.0843"; "RS,SANTA CRUZ DO SUL,-29.722,-52.4343";
    "RS,SANTA MARIA,-29.6868,-53.8149"; "RS,SANTA MARIA DO HERVAL,-29.4902,-50.9919";
    "RS,SANTA ROSA,-27.8702,-54.4796"; "RS,SANTA VITORIA DO PALMAR,-33.525,-53.3717";
    "RS,SANTANA DA BOA VISTA,-30.8697,-53.11";
    "RS,SANTANA DO LIVRAMENTO,-30.8773,-55.5392"; "RS,SANTIAGO,-29.1897,-54.8666";
    "RS,SANTO ANGELO,-28.3001,-54.2668";
    "RS,SANTO ANTONIO DA PATRULHA,-29.8268,-50.5175";
    "RS,SANTO ANTONIO DAS MISSOES,-28.514,-55.2251";
    "RS,SANTO ANTONIO DO PLANALTO,-28.403,-52.6992";
    "RS,SANTO AUGUSTO,-27.8526,-53.7776"; "RS,SANTO CRISTO,-27.8263,-54.662";
    "RS,SAO BORJA,-28.6578,-56.0036"; "RS,SAO FRANCISCO DE ASSIS,-29.5547,-55.1253";
    "RS,SAO FRANCISCO DE PAULA,-29.4404,-50.5828"; "RS,SAO GABRIEL,-30.3337,-54.3217";
    "RS,SAO JERONIMO,-29.9716,-51.7251"; "RS,SAO JOAO DA URTIGA,-27.8195,-51.8257";
    "RS,SAO JOAO DO POLESINE,-29.6194,-53.4439"; "RS,SAO JORGE,-28.4984,-51.7064";
    "RS,SAO JOSE DAS MISSOES,-27.7789,-53.1226";
    "RS,SAO JOSE DO HERVAL,-29.052,-52.295"; "RS,SAO JOSE DO HORTENCIO,-29.528,-51.245";
    "RS,SAO JOSE DO INHACORA,-27.7251,-54.1275";
    "RS,SAO JOSE DO NORTE,-32.0151,-52.0331"; "RS,SAO JOSE DO OURO,-27.7707,-51.5966";
    "RS,SAO LEOPOLDO,-29.7545,-51.1498"; "RS,SAO LOURENCO DO SUL,-31.3564,-51.9715";
    "RS,SAO LUIZ GONZAGA,-28.412,-54.9559"; "RS,SAO MARCOS,-28.9677,-51.0696";
    "RS,SAO MARTINHO,-27.7112,-53.9699"; "RS,SAO MIGUEL DAS MISSOES,-28.556,-54.5559";
    "RS,SAO NICOLAU,-28.1834,-55.2654"; "RS,SAO PEDRO DA SERRA,-29.4193,-51.5134";
    "RS,SAO PEDRO DAS MISSOES,-27.7706,-53.2513";
    "RS,SAO PEDRO DO BUTIA,-28.1243,-54.8926"; "RS,SAO PEDRO DO SUL,-29.6202,-54.1855";
    "RS,SAO SEPE,-30.1643,-53.5603"; "RS,SAO VENDELINO,-29.3729,-51.3675";
    "RS,SAPIRANGA,-29.6349,-51.0064"; "RS,SAPUCAIA DO SUL,-29.8276,-51.145";
    "RS,SARANDI,-27.942,-52.9231"; "RS,SEBERI,-27.4829,-53.4026";
    "RS,SEDE NOVA,-27.6367,-53.9493"; "RS,SELBACH,-28.6294,-52.9498";
    "RS,SENTINELA DO SUL,-30.6107,-51.5862"; "RS,SERAFINA CORREA,-28.7126,-51.9352";
    "RS,SERTAO,-27.9798,-52.2588"; "RS,SERTAO DE SANTANA,-30.4958,-51.5833";
    "RS,SERTAO SANTANA,-30.4562,-51.6017"; "RS,SEVERIANO DE ALMEIDA,-27.4362,-52.1217";
    "RS,SINIMBU,-29.5357,-52.5304"; "RS,SOLEDADE,-28.8306,-52.5131";
    "RS,TAPEJARA,-28.0652,-52.0097"; "RS,TAPERA,-28.6277,-52.8613";
    "RS,TAPES,-30.6683,-51.3991"; "RS,TAQUARA,-29.6505,-50.7753";
    "RS,TAQUARI,-29.7943,-51.8653"; "RS,TAQUARUCU DO SUL,-27.4005,-53.4702";
    "RS,TAVARES,-31.2843,-51.088"; "RS,TENENTE PORTELA,-27.3711,-53.7585";
    "RS,TERRA DE AREIA,-29.5788,-50.0644"; "RS,TEUTONIA,-29.4482,-51.8044";
    "RS,TIO HUGO,-28.5712,-52.5955"; "RS,TIRADENTES DO SUL,-27.4022,-54.0814";
    "RS,TORRES,-29.3334,-49.7333"; "RS,TRAMANDAI,-29.9841,-50.1322";
    "RS,TRAVESSEIRO,-29.2977,-52.0532"; "RS,TRES CACHOEIRAS,-29.4487,-49.9275";
    "RS,TRES COROAS,-29.5137,-50.7739"; "RS,TRES DE MAIO,-27.78,-54.2357";
    "RS,TRES PASSOS,-27.4555,-53.9296"; "RS,TRINDADE DO SUL,-27.5239,-52.8956";
    "RS,TRIUNFO,-29.9291,-51.7075"; "RS,TUCUNDUVA,-27.6573,-54.4439";
    "RS,TUPANCIRETA,-29.0858,-53.8445"; "RS,TUPANDI,-29.4772,-51.4174";
    "RS,TUPARENDI,-27.7598,-54.4814"; "RS,UNISTALDA,-29.04,-55.1517";
    "RS,URUGUAIANA,-29.7614,-57.0853"; "RS,VACARIA,-28.5079,-50.9418";
    "RS,VALE REAL,-29.3919,-51.2559"; "RS,VALE VERDE,-29.7864,-52.1857";
    "RS,VANINI,-28.4758,-51.8447"; "RS,VENANCIO AIRES,-29.6143,-52.1932";
    "RS,VERA CRUZ,-29.7184,-52.5152"; "RS,VERANOPOLIS,-28.9312,-51.5516";
    "RS,VIADUTOS,-27.5716,-52.0211"; "RS,VIAMAO,-30.0819,-51.0194";
    "RS,VICENTE DUTRA,-27.1607,-53.4022"; "RS,VILA FLORES,-28.8598,-51.5504";
    "RS,VILA MARIA,-28.5359,-52.1486"; "RS,VILA NOVA DO SUL,-30.3461,-53.876";
    "RS,VISTA ALEGRE,-27.3686,-53.4919"; "RS,VISTA GAUCHA,-27.2902,-53.6974";
    "RS,VITORIA DAS MISSOES,-28.3516,-54.504"; "SC,ABDON BATISTA,-27.6126,-51.0233";
    "SC,ABELARDO LUZ,-26.5716,-52.3229"; "SC,AGROLANDIA,-27.4087,-49.822";
    "SC,AGRONOMICA,-27.2662,-49.708"; "SC,AGUAS DE CHAPECO,-27.0754,-52.9808";
    "SC,ALFREDO WAGNER,-27.7001,-49.3273"; "SC,ANTONIO CARLOS,-27.5191,-48.766";
    "SC,APIUNA,-27.0375,-49.3885"; "SC,ARABUTA,-27.1587,-52.1423";
    "SC,ARAQUARI,-26.3754,-48.7188"; "SC,ARARANGUA,-28.9356,-49.4918";
    "SC,ARMAZEM,-28.2448,-49.0215"; "SC,ASCURRA,-26.9548,-49.3783";
    "SC,BALNEARIO BARRA DO SUL,-26.4597,-48.6123";
    "SC,BALNEARIO CAMBORIU,-26.9926,-48.6352"; "SC,BALNEARIO GAIVOTAS,-29.155,-49.566";
    "SC,BALNEARIO PICARRAS,-26.7639,-48.6717"; "SC,BARRA DO SUL,-26.4433,-48.6094";
    "SC,BARRA VELHA,-26.637,-48.6933"; "SC,BELA VISTA DO TOLDO,-26.2746,-50.4664";
    "SC,BIGUACU,-27.496,-48.6598"; "SC,BLUMENAU,-26.9155,-49.0709";
    "SC,BOM RETIRO,-27.799,-49.487"; "SC,BOMBINHAS,-27.1382,-48.5146";
    "SC,BOTUVERA,-27.2007,-49.0689"; "SC,BRACO DO NORTE,-28.2681,-49.1701";
    "SC,BRUSQUE,-27.0977,-48.9107"; "SC,CACADOR,-26.7757,-51.012";
    "SC,CAMBORIU,-27.0241,-48.6503"; "SC,CAMPO ALEGRE,-26.195,-49.2676";
    "SC,CAMPO BELO DO SUL,-27.8975,-50.7595"; "SC,CAMPO ERE,-26.3931,-53.0856";
    "SC,CAMPOS NOVOS,-27.4002,-51.2276"; "SC,CANELINHA,-27.2616,-48.7658";
    "SC,CANOINHAS,-26.1766,-50.395"; "SC,CAPIVARI DE BAIXO,-28.4498,-48.9631";
    "SC,CATANDUVAS,-27.069,-51.6602"; "SC,CERRO NEGRO,-27.7942,-50.8673";
    "SC,CHAPECO,-27.1004,-52.6152"; "SC,COCAL DO SUL,-28.5986,-49.3335";
    "SC,CONCORDIA,-27.2335,-52.026"; "SC,CORDILHEIRA ALTA,-26.9844,-52.6056";
    "SC,CORONEL FREITAS,-26.9057,-52.7011"; "SC,CORONEL MARTINS,-26.511,-52.6694";
    "SC,CORUPA,-26.4246,-49.246"; "SC,CRICIUMA,-28.6723,-49.3729";
    "SC,CURITIBANOS,-27.2824,-50.5816"; "SC,DIONISIO CERQUEIRA,-26.2648,-53.6351";
    "SC,DONA EMA,-27.205,-49.8869"; "SC,FLORIANOPOLIS,-27.5945,-48.5477";
    "SC,FORQUILHINHA,-28.7454,-49.4785"; "SC,FRAIBURGO,-27.0233,-50.92";
    "SC,GALVAO,-26.4549,-52.6875"; "SC,GAROPABA,-28.0275,-48.6192";
    "SC,GARUVA,-26.0292,-48.852"; "SC,GASPAR,-26.9336,-48.9534";
    "SC,GOV CELSO RAMOS,-27.3236,-48.5672";
    "SC,GOVERNADOR CELSO RAMOS,-27.3172,-48.5576"; "SC,GRAO PARA,-28.1809,-49.2252";
    "SC,GUABIRUBA,-27.0808,-48.9804"; "SC,GUARACIABA,-26.6042,-53.5243";
    "SC,GUARAMIRIM,-26.4688,-49.0026"; "SC,ICARA,-28.7132,-49.3087";
    "SC,ILHOTA,-26.9023,-48.8251"; "SC,IMBITUBA,-28.2284,-48.6659";
    "SC,IMBUIA,-27.4908,-49.4218"; "SC,INDAIAL,-26.8992,-49.2354";
    "SC,IPORA DO OESTE,-26.9854,-53.5355"; "SC,IRINEOPOLIS,-26.242,-50.7957";
    "SC,ITAIOPOLIS,-26.339,-49.9092"; "SC,ITAJAI,-26.9101,-48.6705";
    "SC,ITAPEMA,-27.0861,-48.616"; "SC,ITAPIRANGA,-27.1659,-53.7166";
    "SC,ITAPOA,-26.1158,-48.6182"; "SC,ITUPORANGA,-27.4101,-49.5963";
    "SC,JACINTO MACHADO,-28.9961,-49.7623"; "SC,JAGUARUNA,-28.6146,-49.0296";
    "SC,JARAGUA DO SUL,-26.4851,-49.0713"; "SC,JARDINOPOLIS,-26.7191,-52.8625";
    "SC,JOACABA,-27.1721,-51.5108"; "SC,JOINVILLE,-26.3045,-48.8487";
    "SC,JOSE BOITEAUX,-26.9239,-49.8839"; "SC,LAGES,-27.815,-50.3259";
    "SC,LAGUNA,-28.4843,-48.7772"; "SC,LAURO MULLER,-28.3859,-49.4035";
    "SC,LEOBERTO LEAL,-27.5081,-49.2789"; "SC,LONTRAS,-27.1684,-49.535";
    "SC,LUIS ALVES,-26.7767,-48.9767"; "SC,MAFRA,-26.1159,-49.8086";
    "SC,MARACAJA,-28.8463,-49.4605"; "SC,MARAVILHA,-26.7665,-53.1737";
    "SC,MASSARANDUBA,-26.6109,-49.0054"; "SC,MONDAI,-27.1008,-53.4032";
    "SC,MONTE CARLO,-27.2239,-50.9808"; "SC,MONTE CASTELO,-26.461,-50.2327";
    "SC,MORRO DA FUMACA,-28.6511,-49.2169"; "SC,NAVEGANTES,-26.8943,-48.6546";
    "SC,NOVA TRENTO,-27.278,-48.9298"; "SC,NOVA VENEZA,-28.6338,-49.5055";
    "SC,ORLEANS,-28.3487,-49.2986"; "SC,OTACILIO COSTA,-27.4789,-50.1231";
    "SC,PAIAL,-27.2541,-52.4975"; "SC,PALHOCA,-27.6455,-48.6697";
    "SC,PALMITOS,-27.0702,-53.1586"; "SC,PAPANDUVA,-26.3777,-50.1419";
    "SC,PASSO DE TORRES,-29.3099,-49.722"; "SC,PEDRAS GRANDES,-28.4339,-49.1949";
    "SC,PENHA,-26.7754,-48.6465"; "SC,PERITIBA,-27.3754,-51.9018";
    "SC,PINHALZINHO,-26.8495,-52.9913"; "SC,PIRATUBA,-27.4242,-51.7668";
    "SC,PLANALTO ALEGRE,-27.0704,-52.867"; "SC,POMERODE,-26.7384,-49.1785";
    "SC,PORTO BELO,-27.1586,-48.5469"; "SC,PORTO UNIAO,-26.2451,-51.0759";
    "SC,POUSO REDONDO,-27.2567,-49.9301"; "SC,PRAIA GRANDE,-29.1918,-49.9525";
    "SC,PRESIDENTE GETULIO,-27.0474,-49.6246"; "SC,QUILOMBO,-26.7264,-52.724";
    "SC,RIO DO CAMPO,-26.9452,-50.136"; "SC,RIO DO OESTE,-27.1952,-49.7989";
    "SC,RIO DO SUL,-27.2156,-49.643"; "SC,RIO FORTUNA,-28.1244,-49.1068";
    "SC,RIO NEGRINHO,-26.2591,-49.5177"; "SC,SALETE,-26.9798,-49.9988";
    "SC,SALTO VELOSO,-26.903,-51.4043"; "SC,SANTA CECILIA,-26.9592,-50.4252";
    "SC,SANTA ROSA DO SUL,-29.1313,-49.7109"; "SC,SANTA TEREZINHA,-26.7813,-50.009";
    "SC,SANTO AMARO IMPERATRIZ,-27.6769,-48.7658";
    "SC,SAO BENTO DO SUL,-26.2495,-49.3831"; "SC,SAO CARLOS,-27.0798,-53.0037";
    "SC,SAO FRANCISCO DO SUL,-26.2579,-48.6344";
    "SC,SAO JOAO BATISTA,-27.2772,-48.8474"; "SC,SAO JOAO DO OESTE,-27.0984,-53.5977";
    "SC,SAO JOAO DO SUL,-29.2154,-49.8094"; "SC,SAO JOAQUIM,-28.2887,-49.9457";
    "SC,SAO JOSE,-27.6136,-48.6366"; "SC,SAO LOURENCO DO OESTE,-26.3557,-52.8498";
    "SC,SAO LUDGERO,-28.3144,-49.1806"; "SC,SAO MARTINHO,-28.1609,-48.9867";
    "SC,SAO MIGUEL DO OESTE,-26.7242,-53.5163"; "SC,SAUDADES,-26.9317,-53.0021";
    "SC,SCHROEDER,-26.4116,-49.074"; "SC,SEARA,-27.1564,-52.299";
    "SC,SIDEROPOLIS,-28.5955,-49.4314"; "SC,SOMBRIO,-29.108,-49.6328";
    "SC,SUL BRASIL,-26.7351,-52.964"; "SC,TAIO,-27.121,-49.9942";
    "SC,TIJUCAS,-27.2354,-48.6322"; "SC,TIMBE DO SUL,-28.8287,-49.842";
    "SC,TIMBO,-26.8246,-49.269"; "SC,TRES BARRAS,-26.1056,-50.3197";
    "SC,TROMBUDO CENTRAL,-27.3033,-49.793"; "SC,TUBARAO,-28.4713,-49.0144";
    "SC,TURVO,-28.9272,-49.6831"; "SC,URUSSANGA,-28.518,-49.3238";
    "SC,VARGEAO,-26.8621,-52.1549"; "SC,VIDEIRA,-27.0086,-51.1543";
    "SC,WITMARSUM,-26.9275,-49.7947"; "SC,XANXERE,-26.8747,-52.4036";
    "SC,XAXIM,-26.9596,-52.5374"; "SP,AGUAS DE LINDOIA,-22.4733,-46.6314";
    "SP,AMERICANA,-22.7374,-47.3331"; "SP,ARACATUBA,-21.2076,-50.4401";
    "SP,ARARAS,-22.3572,-47.3842"; "SP,ARUJA,-23.3965,-46.32";
    "SP,AVARE,-23.1067,-48.9251"; "SP,BANANAL,-22.6819,-44.3281";
    "SP,BERTIOGA,-23.8486,-46.1396"; "SP,BOTUCATU,-22.8837,-48.4437";
    "SP,BRODOWSKI,-20.9845,-47.6572"; "SP,CACHOEIRA PAULISTA,-22.6665,-45.0154";
    "SP,CAMPINAS,-22.9053,-47.0659"; "SP,CAMPO LIMPO PAULISTA,-23.2078,-46.7889";
    "SP,CARAPICUIBA,-23.5235,-46.8407"; "SP,CARDOSO,-20.08,-49.9183";
    "SP,CRAVINHOS,-21.338,-47.7324"; "SP,GUARUJA,-23.9888,-46.258";
    "SP,GUARULHOS,-23.4538,-46.5333"; "SP,IBIUNA,-23.6596,-47.223";
    "SP,IRAPURU,-21.5684,-51.3472"; "SP,ITANHAEM,-24.1736,-46.788";
    "SP,JACAREI,-23.2983,-45.9658"; "SP,JAU,-22.2936,-48.5592";
    "SP,JUNDIAI,-23.1852,-46.8974"; "SP,LINDOIA,-22.5226,-46.65";
    "SP,MATAO,-21.6025,-48.364"; "SP,MOGI DAS CRUZES,-23.5208,-46.1854";
    "SP,MONTE ALEGRE DO SUL,-22.6817,-46.681"; "SP,MORRO AGUDO,-20.7288,-48.0581";
    "SP,ORLANDIA,-20.7169,-47.8852"; "SP,PALMITAL,-22.7858,-50.218";
    "SP,PIRASSUNUNGA,-21.996,-47.4257"; "SP,PRADOPOLIS,-21.3626,-48.0679";
    "SP,PRAIA GRANDE,-24.0084,-46.4121"; "SP,RIBEIRAO PIRES,-23.7067,-46.4058";
    "SP,RIBEIRAO PRETO,-21.1699,-47.8099"; "SP,SANTA ADELIA,-21.2427,-48.8063";
    "SP,SANTA BARBARA DOESTE,-22.7553,-47.4143"; "SP,SANTOS,-23.9535,-46.335";
    "SP,SAO JOSE DO BARREIRO,-22.6414,-44.5774";
    "SP,SAO JOSE DO RIO PRETO,-20.8113,-49.3758";
    "SP,SAO JOSE DOS CAMPOS,-23.1896,-45.8841"; "SP,SAO PAULO,-23.5329,-46.6395";
    "SP,SAO VICENTE,-23.9574,-46.3883"; "SP,SERRA AZUL,-21.3074,-47.5602";
    "SP,SERRA NEGRA,-22.6139,-46.7033"; "SP,SERTAOZINHO,-21.1316,-47.9875";
    "SP,SOROCABA,-23.4969,-47.4451"; "SP,SUZANO,-23.5448,-46.3112";
    "SP,TABOAO DA SERRA,-23.6019,-46.7526" ].

(** A coordinate pair [[number, number]]; [None] is [NaN]. *)
Abbreviation Coords := (option Q * option Q)%type.

(** The dictionary built on the first call of [getCityCoords], keyed
    [CITYNAME-UF]. Every row of the list has its four fields
    ([gazetteer_rows_have_four_fields] below), so the field accesses of the
    loop never meet [undefined]; a row without a name is passed over
    here. *)
Definition buildCityCoordsCache (rows : list string) : list (string * Coords) :=
  fold_left (fun cache row =>
      match splitChars (fun c => (code c =? 44)%nat) (list_ascii_of_string row) with
      | uf :: name :: rest =>
          let lat := match rest with lat :: _ => parseFloat lat | [] => None end in
          let lng := match rest with _ :: lng :: _ => parseFloat lng | _ => None end in
          let key :=
            (string_of_list_ascii (trimChars (toUpperChars name)) ++ "-"
             ++ string_of_list_ascii (trimChars (toUpperChars uf)))%string in
          assocSet key (lat, lng) cache
      | _ => cache
      end) rows [].

Definition cityCoordsCache : list (string * Coords) :=
  buildCityCoordsCache RAW_CITIES_ROWS.

(** The normalised city text of [getCityCoords]. *)
Definition cleanCity (city : string) : string :=
  string_of_list_ascii
    (trimChars (cutFrom 47 (cutFrom 45
       (stripAccents (trimChars (toUpperChars (list_ascii_of_string city))))))).

Definition cleanState (state : string) : string := trim (toUpperCase state).

(** [Object.keys(cache).find(k => k.startsWith(start))] and the value
    stored under the key found. *)
Definition findByPrefix {V} (start : string) (cache : list (string * V)) : option V :=
  match List.find (fun entry => startsWith (fst entry) start) cache with
  | Some (possibleKey, _) => assocGet possibleKey cache
  | None => None
  end.

Definition getCityCoords (city state : string) : option Coords :=
  let exact :=
    if negb (String.eqb (cleanState state) "")
    then assocGet (cleanCity city ++ "-" ++ cleanState state)%string cityCoordsCache
    else None in
  match exact with
  | Some coords => Some coords
  | None =>
      if String.eqb (cleanState state) ""
      then findByPrefix (cleanCity city ++ "-")%string cityCoordsCache
      else None
  end.

Module GeoStats.
Record t := mk {
  city : string;
  state : string;
  lat : option Q;
  lng : option Q;
  revenue : Q;
  positivacao : Z
}.
End GeoStats.

(** [!s] and [s || fallback] on an optional text. *)
Definition isBlank (s : option string) : bool :=
  match s with
  | Some t => String.eqb t ""
  | None => true
  end.

Definition textOr (s : option string) (fallback : string) : string :=
  match s with
  | Some t => if String.eqb t "" then fallback else t
  | None => fallback
  end.

(** [r.city.toUpperCase().split('-')[0].trim()] *)
Definition finalCityName (city : string) : string :=
  match splitChars (fun c => (code c =? 45)%nat)
          (toUpperChars (list_ascii_of_string city)) with
  | first :: _ => string_of_list_ascii (trimChars first)
  | [] => ""
  end.

(** One round of the loop of [getGeoStats]. *)
Definition geoStep (cityStats : list (string * GeoStats.t)) (r : SaleRecord)
  : list (string * GeoStats.t) :=
  if isBlank (city r) then cityStats
  else
    match getCityCoords (textOr (city r) "") (textOr (state r) "") with
    | Some coords =>
        let state' := textOr (state r) "BR" in
        let name := finalCityName (textOr (city r) "") in
        let key := (name ++ "-" ++ state')%string in
        let entry :=
          match assocGet key cityStats with
          | Some e => e
          | None => GeoStats.mk name state' (fst coords) (snd coords) 0 0
          end in
        let val := amount r in
        assocSet key
          (GeoStats.mk (GeoStats.city entry) (GeoStats.state entry)
             (GeoStats.lat entry) (GeoStats.lng entry)
             (GeoStats.revenue entry + val)%Q
             (if Qgtb val 0 then GeoStats.positivacao entry + 1
              else GeoStats.positivacao entry)%Z)
          cityStats
    | None => cityStats
    end.

Definition cityStatsOf (data : list SaleRecord) : list (string * GeoStats.t) :=
  fold_left geoStep data [].

Definition getGeoStats (data : list SaleRecord) : list GeoStats.t :=
  sortBy (fun a b => (GeoStats.revenue b - GeoStats.revenue a)%Q)
    (List.map snd (cityStatsOf data)).

(** What ties an output entry to a row: the entry's city is the row's raw
    city text in upper case up to its first dash, its state is the row's
    raw state text or BR, and its coordinate is the one the row resolves
    to. *)
Definition entryOfRow (e : GeoStats.t) (r : SaleRecord) : Prop :=
  isBlank (city r) = false
  ∧ GeoStats.city e = finalCityName (textOr (city r) "")
  ∧ GeoStats.state e = textOr (state r) "BR"
  ∧ getCityCoords (textOr (city r) "") (textOr (state r) "")
    = Some (GeoStats.lat e, GeoStats.lng e).

(** ** Sample rows *)

(** A row of which only the fields read by the KPI calculator vary. *)
Definition sampleRow (client product : string) (value : Q) (order : string)
    (op : OperClass) (terms day : string) : SaleRecord :=
  mkSale "ROW-0" day "SUL" "D1" "S1" "REP" RC "F1" client "CLIENTE" product
    "PRODUTO" value 1 order op terms "Independente" None None.

(** A row of which only the fields read by the geo resolver vary. *)
Definition geoRow (cityText stateText : string) (value : Q) : SaleRecord :=
  mkSale "ROW-0" "2025-11-03" "SUL" "D1" "S1" "REP" RC "F1" "C1" "CLIENTE" "P1"
    "PRODUTO" value 1 "1" OpVD "30" "Independente" (Some cityText) (Some stateText).

(** ** Further definitions for the properties of the code *)

(** The filter state with its date-month range replaced, as in
    [{ ...filters, startMonth, endMonth }]. *)
Definition withRange (startMonth endMonth : string) (f : FilterState.t)
  : FilterState.t :=
  FilterState.mk (FilterState.division f) (FilterState.region f)
    (FilterState.sector f) (FilterState.salesRep f) (FilterState.channel f)
    (FilterState.supplier f) startMonth endMonth.

(** The client and order texts of a row, empty when the row has none. *)
Definition clientText (row : Row) : string :=
  firstOf [row !! "CNPJ"; row !! "Cliente"] "".

Definition orderText (row : Row) : string :=
  firstOf [row !! "Num. Pedido"; row !! "Pedido"] "".



(** *** The header cards ([App.tsx]) *)

(** [currentMonthData]: the rows of November 2025 under the other filters. *)
Definition currentMonthData (allData : list SaleRecord) (filters : FilterState.t)
  : list SaleRecord :=
  let novFilter := withRange "2025-11" "2025-11" filters in
  filterData allData novFilter.

(** [avgHistoryKPIs]: each indicator averaged over the three closed months,
    every month filtered on its own. *)
Definition avgHistoryKPIs (allData : list SaleRecord) (filters : FilterState.t)
  : KPIStats.t :=
  let statsByMonth :=
    List.map (fun month =>
        let monthFilter := withRange month month filters in
        let d := filterData allData monthFilter in
        calculateKPIs d) ["2025-08"; "2025-09"; "2025-10"] in
  let avg (k : KPIKey) : Q :=
    let sum := fold_left (fun acc curr => (acc + getKey k curr)%Q) statsByMonth 0%Q in
    (sum / 3)%Q in
  KPIStats.mk (avg KTotalRevenue) (avg KPositivacao) (avg KTotalOrders)
    (avg KAverageTicket) (avg KSkuPerPdv) (avg KAvgInstallments) (avg KAvgTerm).

(** [calcTrend]: the change of an indicator against its average, in per
    cent. *)
Definition calcTrend (current avg : Q) : Q :=
  if Qeq_bool avg 0 then (if Qgtb current 0 then 100%Q else 0%Q)
  else (((current - avg) / avg) * 100)%Q.


(** *** Selections, filters and pages ([App.tsx]) *)

(** [toggleOption] of the multi-select: the selection handed to
    [onChange]. *)
Definition toggleOption (selected : list string) (option : string) : list string :=
  if includes selected option
  then List.filter (fun item => negb (String.eqb item option)) selected
  else selected ++ [option].

(** [toggleAll] of the multi-select. *)
Definition toggleAll (selected options : list string) : list string :=
  if (length selected =? length options)%nat then [] else options.

Definition availableChannels (allData : list SaleRecord) : list string :=
  sortStrings
    (arrayFromSet
       (filterBoolean (List.map (fun r => channelText (channel r)) allData))).

Definition availableRegions (allData : list SaleRecord)
    (selectedChannels : list string) : list string :=
  let data :=
    if (0 <? length selectedChannels)%nat
    then List.filter (fun r => includes selectedChannels (channelText (channel r)))
           allData
    else allData in
  sortStrings (arrayFromSet (filterBoolean (List.map region data))).

Definition availableDivisions (allData : list SaleRecord)
    (selectedRegions selectedChannels : list string) : list string :=
  let data :=
    if (0 <? length selectedChannels)%nat
    then List.filter (fun r => includes selectedChannels (channelText (channel r)))
           allData
    else allData in
  if (0 <? length selectedRegions)%nat then
    let data := List.filter (fun r => includes selectedRegions (region r)) data in
    sortStrings (arrayFromSet (filterBoolean (List.map division data)))
  else [].

(** [handleFilterChange] on one of the list-valued keys of the filter
    state. *)
Definition handleFilterChange (key : Dimension) (value : string)
    (prev : FilterState.t) : FilterState.t :=
  withValues key (if String.eqb value "all" then [] else [value]) prev.

Definition clearFilters (prev : FilterState.t) : FilterState.t :=
  FilterState.mk (FilterState.division prev) (FilterState.region prev) [] []
    (FilterState.channel prev) [] (FilterState.startMonth prev)
    (FilterState.endMonth prev).

Definition ITEMS_PER_PAGE : nat := 30.

(** [arr.slice(start, end)] for indices that are not negative. *)
Definition slice {A} (start finish : nat) (arr : list A) : list A :=
  take (finish - start) (drop start arr).

(** [Math.ceil(currentData.length / ITEMS_PER_PAGE)] *)
Definition totalPages {A} (currentData : list A) : nat :=
  Z.to_nat (Qceiling (ofNat (length currentData) / ofNat ITEMS_PER_PAGE)).

(** The page shown; [currentPage] starts at 1 and the buttons keep it
    there or above. *)
Definition paginatedData {A} (currentData : list A) (currentPage : nat) : list A :=
  slice ((currentPage - 1) * ITEMS_PER_PAGE) (currentPage * ITEMS_PER_PAGE)
    currentData.

(** ** Entity aggregators *)

(** The names that every object inherits from [Object.prototype]: read on
    a dictionary that never stored them they give a function or an object,
    not [undefined]. *)
Definition objectPrototypeKeys : list string :=
  ["constructor"; "__defineGetter__"; "__defineSetter__"; "hasOwnProperty";
   "__lookupGetter__"; "__lookupSetter__"; "isPrototypeOf";
   "propertyIsEnumerable"; "toString"; "valueOf"; "__proto__"; "toLocaleString"].

(** The array index that a property name denotes: the canonical numeral of a
    whole number up to 2^32 - 2. *)
Definition arrayIndex (key : string) : option Z :=
  let chars := list_ascii_of_string key in
  match chars with
  | [] => None
  | c :: rest =>
      if forallb isDigit chars
         && (negb (code c =? 48)%nat || (length rest =? 0)%nat)
         && (length chars <=? 10)%nat
      then
        let n := digitsVal chars in
        if (n <=? 4294967294)%Z then Some n else None
      else None
  end.

(** [Object.entries(obj)]: the keys that are array indices in ascending
    numeric order, then the other keys in the order of their insertion. *)
Definition objectEntries {V} (obj : list (string * V)) : list (string * V) :=
  let indexOf (entry : string * V) : Z :=
    match arrayIndex (fst entry) with Some n => n | None => 0%Z end in
  let isIndex (entry : string * V) : bool :=
    match arrayIndex (fst entry) with Some _ => true | None => false end in
  sortBy (fun a b => inject_Z (indexOf a - indexOf b)) (List.filter isIndex obj)
  ++ List.filter (fun entry => negb (isIndex entry)) obj.

Module Group.
Record t := mk {
  records : list SaleRecord;
  name : string;
  region : string;
  sector : string
}.
End Group.

Module EntityStats.
Record t := mk {
  id : string;
  name : string;
  revenue : Q;
  averagePastRevenue : Q;
  revenueTrend : Q;
  currentRevenue : Q;
  orders : Q;
  skuPerPdv : Q;
  avgTicket : Q;
  avgInstallments : Q;
  avgTerm : Q;
  region : string;
  sector : string
}.
End EntityStats.

(** [!key || key === 'N/A' || key === 'undefined'] *)
Definition excludedKey (key : string) : bool :=
  String.eqb key "" || String.eqb key "N/A" || String.eqb key "undefined".

(** One round of the grouping loop. [None] is a [TypeError]: for a key that
    [Object.prototype] defines, [groups[key]] is found without having been
    set and has no [records] to push to. *)
Definition groupStep (groupKeyFn : SaleRecord → string)
    (groups : list (string * Group.t)) (r : SaleRecord)
  : option (list (string * Group.t)) :=
  let key := groupKeyFn r in
  if excludedKey key then Some groups
  else if includes objectPrototypeKeys key then None
  else
    let group :=
      match assocGet key groups with
      | Some group => group
      | None => Group.mk [] key (region r) (sector r)
      end in
    let group :=
      Group.mk (Group.records group ++ [r]) (Group.name group)
        (Group.region group) (Group.sector group) in
    let group :=
      if negb (String.eqb (companyName r) "") && String.eqb key (cnpj r)
      then Group.mk (Group.records group) (companyName r)
             (Group.region group) (Group.sector group)
      else group in
    Some (assocSet key group groups).

Fixpoint groupsOf (groupKeyFn : SaleRecord → string) (data : list SaleRecord)
    (groups : list (string * Group.t)) : option (list (string * Group.t)) :=
  match data with
  | [] => Some groups
  | r :: rest =>
      match groupStep groupKeyFn groups r with
      | Some groups' => groupsOf groupKeyFn rest groups'
      | None => None
      end
  end.

(** The revenue trend of an entity: November against the average of the
    three closed months. *)
Definition revenueTrendOf (currentRevenue avgPastRevenue : Q) : Q :=
  if Qgtb avgPastRevenue 0
  then (((currentRevenue - avgPastRevenue) / avgPastRevenue) * 100)%Q
  else if Qgtb currentRevenue 0 then 100%Q else 0%Q.

(** The entity computed from one entry of [groups]. *)
Definition entityOf (id : string) (group : Group.t) : EntityStats.t :=
  let novRecords :=
    List.filter (fun r => startsWith (date r) "2025-11") (Group.records group) in
  let novStats := calculateStatsInternal novRecords in
  let augRev :=
    KPIStats.totalRevenue
      (calculateStatsInternal
         (List.filter (fun r => startsWith (date r) "2025-08") (Group.records group))) in
  let sepRev :=
    KPIStats.totalRevenue
      (calculateStatsInternal
         (List.filter (fun r => startsWith (date r) "2025-09") (Group.records group))) in
  let octRev :=
    KPIStats.totalRevenue
      (calculateStatsInternal
         (List.filter (fun r => startsWith (date r) "2025-10") (Group.records group))) in
  let avgPastRevenue := ((augRev + sepRev + octRev) / 3)%Q in
  let currentRevenue := KPIStats.totalRevenue novStats in
  let revenueTrend := revenueTrendOf currentRevenue avgPastRevenue in
  EntityStats.mk id (Group.name group) currentRevenue avgPastRevenue revenueTrend
    currentRevenue (KPIStats.totalOrders novStats) (KPIStats.skuPerPdv novStats)
    (KPIStats.averageTicket novStats) (KPIStats.avgInstallments novStats)
    (KPIStats.avgTerm novStats) (Group.region group) (Group.sector group).

(** [None] when the grouping loop throws. *)
Definition getStatsByGroup (data : list SaleRecord)
    (groupKeyFn : SaleRecord → string) : option (list EntityStats.t) :=
  match groupsOf groupKeyFn data [] with
  | Some groups =>
      Some (sortBy (fun a b => (EntityStats.revenue b - EntityStats.revenue a)%Q)
              (List.map (fun '(id, group) => entityOf id group)
                 (objectEntries groups)))
  | None => None
  end.

Definition getNetworkStats (data : list SaleRecord) : option (list EntityStats.t) :=
  getStatsByGroup data networkName.

Definition getClientStats (data : list SaleRecord) : option (list EntityStats.t) :=
  getStatsByGroup data cnpj.

Definition getRepStats (data : list SaleRecord) : option (list EntityStats.t) :=
  getStatsByGroup data salesRep.

(** [SupplierStats extends EntityStats] *)
Module SupplierStats.
Record t := mk {
  base : EntityStats.t;
  skuCount : nat
}.
End SupplierStats.

(** The [skuCount] of a supplier: the distinct products of its SALE rows of
    November. *)
Definition supplierSkuCount (data : list SaleRecord) (id : string) : nat :=
  let suppRecords :=
    List.filter (fun r =>
        String.eqb (supplier r) id && bool_decide (operClass r = OpVD)
        && startsWith (date r) "2025-11") data in
  size (list_to_set (C := gset string) (List.map productCode suppRecords)).

Definition getSupplierStats (data : list SaleRecord) : option (list SupplierStats.t) :=
  match getStatsByGroup data supplier with
  | Some stats =>
      Some (sortBy (fun a b =>
                (EntityStats.revenue (SupplierStats.base b)
                 - EntityStats.revenue (SupplierStats.base a))%Q)
              (List.map (fun s =>
                   SupplierStats.mk s (supplierSkuCount data (EntityStats.id s)))
                 stats))
  | None => None
  end.

(** The rows of a group, its name and the group itself as the grouping loop
    leaves them: the name is the company name of the last row that has one
    and whose client is the key, else the key; region and sector are those
    of the first row. *)
Definition groupRecords (groupKeyFn : SaleRecord → string) (key : string)
    (data : list SaleRecord) : list SaleRecord :=
  List.filter (fun r => String.eqb (groupKeyFn r) key) data.

Definition groupName (key : string) (records : list SaleRecord) : string :=
  fold_left (fun name r =>
      if negb (String.eqb (companyName r) "") && String.eqb key (cnpj r)
      then companyName r else name) records key.

Definition groupOf (groupKeyFn : SaleRecord → string) (key : string)
    (data : list SaleRecord) : option Group.t :=
  match groupRecords groupKeyFn key data with
  | [] => None
  | first :: rest =>
      if excludedKey key then None
      else Some (Group.mk (first :: rest) (groupName key (first :: rest))
                   (region first) (sector first))
  end.

(** *** Product aggregator *)

(** An entry of [map], which is also what the caller receives: the two sets
    stay in the objects returned. *)
Module ProductStats.
Record t := mk {
  code : string;
  desc : string;
  revenue : Q;
  quantity : Z;
  supplier : string;
  division : string;
  uniqueClients : gset string;
  uniqueOrders : gset string;
  clientCount : nat;
  orderCount : nat
}.
End ProductStats.









(** ** Properties *)

(** C9. The filter engine is idempotent: filtering the result of
    [filterData data F] again with the same filter state [F] gives back
    exactly the same list of records. *)
Theorem filterData_idempotent (data : list SaleRecord) (F : FilterState.t) :
  filterData (filterData data F) F = filterData data F.
Proof.
  unfold filterData.
  induction data as [|r data IH]; simpl; [reflexivity|].
  destruct (filterPred F r) eqn:Hr; simpl.
  - rewrite Hr. f_equal. exact IH.
  - exact IH.
Qed.

(** ** Strings and arrays: basic facts *)

Lemma strLt_not_strLe (a b : string) : strLt a b = negb (strLe b a).
Proof.
  unfold strLt, strLe, String.ltb, String.leb.
  rewrite (String.compare_antisym b a).
  destruct (String.compare a b); reflexivity.
Qed.

Lemma includes_elem_of (arr : list string) (v : string) :
  includes arr v = true ↔ v ∈ arr.
Proof.
  unfold includes. rewrite existsb_exists. split.
  - intros (x & Hin & Heq). apply String.eqb_eq in Heq. subst x.
    by apply list_elem_of_In.
  - intros Hin. exists v. split; [by apply list_elem_of_In | apply String.eqb_refl].
Qed.

Lemma elem_of_List_filter {A} (p : A → bool) (l : list A) (x : A) :
  x ∈ List.filter p l ↔ x ∈ l ∧ p x = true.
Proof. rewrite !list_elem_of_In. apply filter_In. Qed.

Lemma elem_of_arrayFromSet (arr : list string) (v : string) :
  v ∈ arrayFromSet arr ↔ v ∈ arr.
Proof.
  induction arr as [|x rest IH]; simpl; [reflexivity|].
  rewrite !elem_of_cons, elem_of_List_filter, IH.
  destruct (String.eqb_spec v x) as [->|Hne]; simpl; [tauto|].
  split; [intros [?|[? _]]; auto | intros [?|?]; auto].
Qed.

Lemma NoDup_List_filter {A} (p : A → bool) (l : list A) :
  NoDup l → NoDup (List.filter p l).
Proof.
  induction 1 as [|x l Hx Hl IH]; simpl; [constructor|].
  destruct (p x); [|exact IH].
  constructor; [|exact IH]. rewrite elem_of_List_filter. tauto.
Qed.

Lemma NoDup_arrayFromSet (arr : list string) : NoDup (arrayFromSet arr).
Proof.
  induction arr as [|x rest IH]; simpl; constructor.
  - rewrite elem_of_List_filter, String.eqb_refl. simpl. intros [_ ?]. discriminate.
  - by apply NoDup_List_filter.
Qed.

Lemma elem_of_filterBoolean (arr : list string) (v : string) :
  v ∈ filterBoolean arr ↔ v ∈ arr ∧ v ≠ "".
Proof.
  unfold filterBoolean. rewrite elem_of_List_filter.
  destruct (String.eqb_spec v ""); simpl; split; intros [? ?]; split;
    congruence || done.
Qed.

Lemma elem_of_sortStrings (arr : list string) (v : string) :
  v ∈ sortStrings arr ↔ v ∈ arr.
Proof. unfold sortStrings. by rewrite merge_sort_Permutation. Qed.

(** A duplicate-free list sorted for [<=] is strictly ascending. *)
Lemma StronglySorted_strict (l : list string) :
  StronglySorted String.le l → NoDup l →
  StronglySorted (λ a b, strLt a b = true) l.
Proof.
  induction 1 as [|x l Hl IH Hx]; intros Hnd; [constructor|].
  apply NoDup_cons in Hnd as [Hnotin Hnd].
  constructor; [by apply IH|].
  rewrite Forall_forall in Hx |- *. intros y Hy.
  specialize (Hx y Hy). unfold String.le in Hx.
  rewrite strLt_not_strLe. unfold strLe.
  destruct (String.leb y x) eqn:Hyx; [|reflexivity].
  exfalso. apply Hnotin.
  assert (x = y) as ->; [|done].
  apply String.leb_antisym; [by apply Is_true_true|done].
Qed.

Lemma sortStrings_strict (arr : list string) :
  NoDup arr → StronglySorted (λ a b, strLt a b = true) (sortStrings arr).
Proof.
  intros Hnd. apply StronglySorted_strict.
  - unfold sortStrings. apply StronglySorted_merge_sort; apply _.
  - unfold sortStrings. by rewrite merge_sort_Permutation.
Qed.

(** ** Cascading options *)

Lemma rejects_matches (l : list string) (v : string) :
  rejects (Some l) v = negb (matches v l).
Proof.
  unfold rejects, matches.
  destruct l as [|x l]; [reflexivity|].
  change (length (x :: l) =? 0)%nat with false.
  change (0 <? length (x :: l))%nat with true.
  rewrite andb_true_r, orb_false_l.
  destruct (includes (x :: l) "all"); reflexivity.
Qed.

Lemma optionsOf_getCascadingOptions data F key :
  optionsOf key (getCascadingOptions data F)
  = getOptionsFor data F key (restWithout key F).
Proof. destruct key; reflexivity. Qed.

(** The predicate of the [subset] filter of [getOptionsFor], called with the
    rest object of [key], is the specification's [passesOthers]. *)
Lemma subset_passesOthers F key r :
  (let recordMonth := monthOf (date r) in
   if strLt recordMonth (FilterState.startMonth F)
      || strGt recordMonth (FilterState.endMonth F) then false
   else if rejects (PartialFilter.division (restWithout key F)) (division r) then false
   else if rejects (PartialFilter.region (restWithout key F)) (region r) then false
   else if rejects (PartialFilter.sector (restWithout key F)) (sector r) then false
   else if rejects (PartialFilter.salesRep (restWithout key F)) (salesRep r) then false
   else if rejects (PartialFilter.channel (restWithout key F))
             (channelText (channel r)) then false
   else if rejects (PartialFilter.supplier (restWithout key F)) (supplier r) then false
   else true) = true
  ↔ passesOthers F key r.
Proof.
  unfold passesOthers. cbv zeta.
  unfold strGt. rewrite !strLt_not_strLe. unfold strGe.
  set (m := monthOf (date r)).
  destruct (strLe (FilterState.startMonth F) m) eqn:Hs; simpl;
    [|split; [discriminate | intros [Hs' _]; unfold strLe in Hs; congruence]].
  destruct (strLe m (FilterState.endMonth F)) eqn:He; simpl;
    [|split; [discriminate | intros (_ & He' & _); congruence]].
  assert (Hrej : ∀ k v l,
    rejects (if decide (k = key) then None else Some l) v = false
    ↔ (k ≠ key → matches v l = true)).
  { intros k v l. destruct (decide (k = key)) as [->|Hne]; [simpl; tauto|].
    rewrite rejects_matches. destruct (matches v l); simpl; split; auto.
    intros H. discriminate (H Hne). }
  unfold restWithout; simpl.
  split.
  - intros H. split; [done|]. split; [done|]. intros other Hother.
    repeat match type of H with
    | (if ?b then false else _) = true => destruct b eqn:?; [discriminate|]
    end.
    destruct other; simpl; eapply Hrej; eassumption.
  - intros (_ & _ & H).
    pose proof (proj2 (Hrej DDivision (division r) _) (H DDivision)) as H1.
    pose proof (proj2 (Hrej DRegion (region r) _) (H DRegion)) as H2.
    pose proof (proj2 (Hrej DSector (sector r) _) (H DSector)) as H3.
    pose proof (proj2 (Hrej DSalesRep (salesRep r) _) (H DSalesRep)) as H4.
    pose proof (proj2 (Hrej DChannel (channelText (channel r)) _) (H DChannel)) as H5.
    pose proof (proj2 (Hrej DSupplier (supplier r) _) (H DSupplier)) as H6.
    simpl in H1, H2, H3, H4, H5, H6.
    rewrite H1, H2, H3, H4, H5, H6. reflexivity.
Qed.

(** The filter engine with the accepted values of one dimension replaced:
    the other dimensions and the date range as before, and the new values
    for the dimension itself. *)
Lemma filterPred_withValues F key values r :
  filterPred (withValues key values F) r = true
  ↔ passesOthers F key r ∧ matches (fieldOf key r) values = true.
Proof.
  unfold passesOthers, filterPred, withValues.
  cbn [FilterState.division FilterState.region FilterState.sector
       FilterState.salesRep FilterState.channel FilterState.supplier
       FilterState.startMonth FilterState.endMonth]. cbv zeta.
  rewrite !andb_true_iff. split.
  - intros ((((((H1 & H2) & H3) & H4) & H5) & H6) & Hs & He).
    split; [split; [done|split; [done|]]|].
    + intros other Hother.
      destruct other; simpl;
        [clear - H1 Hother | clear - H2 Hother | clear - H3 Hother
        | clear - H4 Hother | clear - H5 Hother | clear - H6 Hother];
        by destruct (decide (_ = key)).
    + destruct key; simpl; assumption.
  - intros [(Hs & He & H) Hown].
    assert (Hk : ∀ k, matches (fieldOf k r)
                        (if decide (k = key) then values else filterOf k F) = true).
    { intros k. destruct (decide (k = key)) as [->|Hne]; [done|by apply H]. }
    repeat split; try done;
      [apply (Hk DDivision) | apply (Hk DRegion) | apply (Hk DSector)
      | apply (Hk DSalesRep) | apply (Hk DChannel) | apply (Hk DSupplier)].
Qed.

(** Passing the filters of the other dimensions is passing the filter engine
    once the dimension's own accepted values are emptied. *)
Lemma passesOthers_filterPred F key r :
  passesOthers F key r ↔ filterPred (unconstrain key F) r = true.
Proof.
  unfold unconstrain. rewrite filterPred_withValues.
  split; [by intros ?; split | by intros [? _]].
Qed.

Lemma matches_singleton (v : string) : matches v [v] = true.
Proof.
  unfold matches, includes. cbn [length Nat.eqb existsb orb].
  rewrite String.eqb_refl. by destruct (String.eqb "all" v).
Qed.

(** C7. For every record collection, filter state and dimension, the
    cascading options of the dimension are strictly ascending in the
    lexicographic order of strings (hence sorted and free of duplicates),
    and a value is among them exactly when it is non-empty and is the
    dimension's value in some record that lies in the date-month range and
    passes the active filter of every other dimension; the dimension's own
    filter plays no part. These records are the output of the filter engine
    once the dimension's own accepted values are emptied, and selecting any
    one of the options leaves the filter engine with at least one record. *)
Theorem cascading_options_exact (data : list SaleRecord) (F : FilterState.t)
    (key : Dimension) :
  let opts := optionsOf key (getCascadingOptions data F) in
  StronglySorted (λ a b, strLt a b = true) opts
  ∧ (∀ v : string,
       v ∈ opts ↔
       v ≠ "" ∧ ∃ r, r ∈ data ∧ passesOthers F key r ∧ fieldOf key r = v)
  ∧ (∀ r : SaleRecord,
       r ∈ filterData data (unconstrain key F) ↔ r ∈ data ∧ passesOthers F key r)
  ∧ (∀ v : string, v ∈ opts → filterData data (selectOnly key v F) ≠ []).
Proof.
  cbv zeta. rewrite optionsOf_getCascadingOptions. unfold getOptionsFor.
  assert (Hmem : ∀ v : string,
    v ∈ sortStrings (filterBoolean (arrayFromSet (List.map (fieldOf key)
          (List.filter (fun record =>
             let recordMonth := monthOf (date record) in
             if strLt recordMonth (FilterState.startMonth F)
                || strGt recordMonth (FilterState.endMonth F) then false
             else if rejects (PartialFilter.division (restWithout key F))
                       (division record) then false
             else if rejects (PartialFilter.region (restWithout key F))
                       (region record) then false
             else if rejects (PartialFilter.sector (restWithout key F))
                       (sector record) then false
             else if rejects (PartialFilter.salesRep (restWithout key F))
                       (salesRep record) then false
             else if rejects (PartialFilter.channel (restWithout key F))
                       (channelText (channel record)) then false
             else if rejects (PartialFilter.supplier (restWithout key F))
                       (supplier record) then false
             else true) data))))
    ↔ v ≠ "" ∧ ∃ r, r ∈ data ∧ passesOthers F key r ∧ fieldOf key r = v).
  { intros v.
    rewrite elem_of_sortStrings, elem_of_filterBoolean, elem_of_arrayFromSet.
    rewrite list_elem_of_In, in_map_iff.
    split.
    + intros [(r & Hv & Hr) Hne]. split; [done|].
      apply list_elem_of_In, elem_of_List_filter in Hr as [Hr Hp].
      exists r. split; [done|]. split; [|done].
      by apply subset_passesOthers.
    + intros [Hne (r & Hr & Hp & Hv)]. split; [|done].
      exists r. split; [done|].
      apply list_elem_of_In, elem_of_List_filter. split; [done|].
      by apply subset_passesOthers. }
  split; [|split; [exact Hmem|split]].
  - apply sortStrings_strict. unfold filterBoolean.
    apply NoDup_List_filter, NoDup_arrayFromSet.
  - intros r. unfold filterData.
    by rewrite elem_of_List_filter, passesOthers_filterPred.
  - intros v Hv. apply Hmem in Hv as [_ (r & Hr & Hp & Hfield)].
    assert (Hin : r ∈ filterData data (selectOnly key v F)).
    { unfold filterData, selectOnly. apply elem_of_List_filter. split; [done|].
      apply filterPred_withValues. split; [done|].
      rewrite Hfield. apply matches_singleton. }
    intros Hnil. rewrite Hnil in Hin. by apply elem_of_nil in Hin.
Qed.

(** ** KPI calculator: positivacao *)

Lemma Qgtb_0_lt (q : Q) : Qgtb q 0 = true ↔ (0 < q)%Q.
Proof.
  unfold Qgtb. rewrite negb_true_iff, <- not_true_iff_false, Qle_bool_iff.
  split; [apply Qnot_le_lt | apply Qlt_not_le].
Qed.

Lemma existsb_cnpj (client : string) (data : list SaleRecord) :
  existsb (fun r => String.eqb (cnpj r) client) data = true
  ↔ client ∈ List.map cnpj data.
Proof.
  rewrite existsb_exists, list_elem_of_In, in_map_iff.
  split; intros (r & H1 & H2).
  - apply String.eqb_eq in H2. eauto.
  - exists r. split; [done|]. by apply String.eqb_eq.
Qed.

Lemma sumFor_absent (client : string) (init : Q) (data : list SaleRecord) :
  existsb (fun r => String.eqb (cnpj r) client) data = false →
  sumFor client init data = init.
Proof.
  revert init. induction data as [|r data IH]; intros init; simpl; [done|].
  intros [Hr Hdata]%orb_false_iff. rewrite Hr. by apply IH.
Qed.

(** The dictionary built by the loop holds, for every client of the list,
    the sum of its amounts in row order, and nothing else. *)
Lemma clientNetRevenue_fold (data : list SaleRecord) (m : gmap string Q)
    (client : string) :
  fold_left (fun m r => <[cnpj r := (default 0 (m !! cnpj r) + amount r)%Q]> m)
    data m !! client
  = if existsb (fun r => String.eqb (cnpj r) client) data
    then Some (sumFor client (default 0%Q (m !! client)) data)
    else m !! client.
Proof.
  revert m. induction data as [|r data IH]; intros m; simpl; [done|].
  rewrite IH. destruct (String.eqb_spec (cnpj r) client) as [->|Hne]; simpl.
  - rewrite lookup_insert_eq. simpl.
    destruct (existsb _ data) eqn:Hex; [done|].
    by rewrite sumFor_absent.
  - by rewrite lookup_insert_ne.
Qed.

Lemma clientNetRevenue_lookup (data : list SaleRecord) (client : string) :
  clientNetRevenue data !! client
  = if existsb (fun r => String.eqb (cnpj r) client) data
    then Some (clientSum client data) else None.
Proof. unfold clientNetRevenue. by rewrite clientNetRevenue_fold, lookup_empty. Qed.

Lemma NoDup_map_fst_filter {A B} (p : A * B → bool) (l : list (A * B)) :
  NoDup (List.map fst l) → NoDup (List.map fst (List.filter p l)).
Proof.
  induction l as [|x l IH]; simpl; [done|].
  intros [Hx Hl]%NoDup_cons. destruct (p x); simpl; [|by apply IH].
  constructor; [|by apply IH].
  intros Hin. apply Hx.
  apply list_elem_of_In, in_map_iff in Hin as (y & Hy & Hin).
  apply list_elem_of_In, in_map_iff. exists y. split; [done|].
  apply list_elem_of_In. apply list_elem_of_In in Hin.
  by apply elem_of_List_filter in Hin as [? _].
Qed.

Lemma NoDup_activeClients (data : list SaleRecord) : NoDup (activeClients data).
Proof.
  unfold activeClients. apply NoDup_map_fst_filter.
  apply (NoDup_fst_map_to_list (clientNetRevenue data)).
Qed.

Lemma elem_of_activeClients (data : list SaleRecord) (client : string) :
  client ∈ activeClients data
  ↔ client ∈ List.map cnpj data ∧ (0 < clientSum client data)%Q.
Proof.
  unfold activeClients. rewrite list_elem_of_In, in_map_iff. split.
  - intros ([c v] & Hc & Hin). simpl in Hc. subst c.
    apply list_elem_of_In, elem_of_List_filter in Hin as [Hin Hpos].
    apply elem_of_map_to_list in Hin. rewrite clientNetRevenue_lookup in Hin.
    destruct (existsb _ data) eqn:Hex; [|discriminate].
    injection Hin as <-. split; [by apply existsb_cnpj | by apply Qgtb_0_lt].
  - intros [Hin Hpos]. exists (client, clientSum client data). split; [done|].
    apply list_elem_of_In, elem_of_List_filter. split; [|by apply Qgtb_0_lt].
    apply elem_of_map_to_list. rewrite clientNetRevenue_lookup.
    apply existsb_cnpj in Hin. by rewrite Hin.
Qed.

Lemma elem_of_positivated (data : list SaleRecord) (client : string) :
  client ∈ positivated data
  ↔ client ∈ List.map cnpj data ∧ (0 < clientSum client data)%Q.
Proof.
  unfold positivated. rewrite elem_of_list_to_set, elem_of_List_filter.
  by rewrite Qgtb_0_lt.
Qed.

Lemma activeClients_elements (data : list SaleRecord) :
  activeClients data ≡ₚ elements (positivated data).
Proof.
  apply NoDup_Permutation.
  - apply NoDup_activeClients.
  - apply NoDup_elements.
  - intros c. by rewrite elem_of_elements, elem_of_activeClients, elem_of_positivated.
Qed.

Lemma positivacao_size (data : list SaleRecord) :
  positivacao data = size (positivated data).
Proof.
  unfold positivacao, size, set_size. simpl.
  apply Permutation_length, activeClients_elements.
Qed.


(** ** KPI calculator: orders *)

Lemma size_list_to_set_distinct (l : list string) :
  size (list_to_set l : gset string) = countDistinct l.
Proof.
  unfold countDistinct.
  rewrite <- (size_list_to_set (C := gset string) (remove_dups l))
    by apply NoDup_remove_dups.
  f_equal. apply set_eq. intros x.
  by rewrite !elem_of_list_to_set, elem_of_remove_dups.
Qed.

(** C3. For every record list, totalOrders is the number of distinct order
    identifiers among the SALE rows minus the number of distinct order
    identifiers among the RETURN rows, floored at 0: it is never negative,
    and it is 0 whenever the RETURN orders are at least as many as the SALE
    orders. *)
Theorem totalOrders_net_floored (data : list SaleRecord) :
  totalOrders data
  = Z.max 0 (Z.of_nat (countDistinct (orderIdsOf OpVD data))
             - Z.of_nat (countDistinct (orderIdsOf OpDV data)))
  ∧ (0 <= totalOrders data)%Z
  ∧ ((countDistinct (orderIdsOf OpVD data) <= countDistinct (orderIdsOf OpDV data))%nat
     → totalOrders data = 0%Z).
Proof.
  assert (Heq : totalOrders data
    = Z.max 0 (Z.of_nat (countDistinct (orderIdsOf OpVD data))
               - Z.of_nat (countDistinct (orderIdsOf OpDV data)))).
  { unfold totalOrders, distinctOrdersVD, distinctOrdersDV, sales, returns.
    by rewrite !size_list_to_set_distinct. }
  rewrite Heq. split; [done|]. split; lia.
Qed.

(** ** KPI calculator: SKU x PDV *)

Lemma sumZ_from (l : list Z) (a : Z) : fold_left Z.add l a = (a + sumZ l)%Z.
Proof.
  unfold sumZ. revert a. induction l as [|x l IH]; intros a; simpl; [lia|].
  rewrite (IH (a + x)%Z), (IH (0 + x)%Z). lia.
Qed.

Lemma sumZ_cons (x : Z) (l : list Z) : sumZ (x :: l) = (x + sumZ l)%Z.
Proof. unfold sumZ at 1. simpl. by rewrite sumZ_from. Qed.

Lemma sumZ_Permutation (l k : list Z) : l ≡ₚ k → sumZ l = sumZ k.
Proof.
  induction 1 as [|x l k _ IH|x y l|l k j _ IH1 _ IH2];
    rewrite ?sumZ_cons; lia.
Qed.

Lemma List_map_Permutation {A B} (f : A → B) (l k : list A) :
  l ≡ₚ k → List.map f l ≡ₚ List.map f k.
Proof. apply Permutation_map. Qed.

(** The entry of a client in [clientSkuMap]: the product codes of its SALE
    rows and of its RETURN rows, on top of what the dictionary held. *)
Lemma clientSkuMap_fold (data : list SaleRecord) (m : gmap string SkuSets.t)
    (client : string) :
  fold_left (fun m r =>
      let m1 :=
        match m !! cnpj r with
        | None => <[cnpj r := SkuSets.mk ∅ ∅]> m
        | Some _ => m
        end in
      match operClass r with
      | OpVD =>
          alter (fun e => SkuSets.mk ({[productCode r]} ∪ SkuSets.vd e) (SkuSets.dv e))
                (cnpj r) m1
      | OpDV =>
          alter (fun e => SkuSets.mk (SkuSets.vd e) ({[productCode r]} ∪ SkuSets.dv e))
                (cnpj r) m1
      end) data m !! client
  = if existsb (fun r => String.eqb (cnpj r) client) data || bool_decide (is_Some (m !! client))
    then let e0 := default (SkuSets.mk ∅ ∅) (m !! client) in
         Some (SkuSets.mk
                 (list_to_set (productCodesOf client OpVD data) ∪ SkuSets.vd e0)
                 (list_to_set (productCodesOf client OpDV data) ∪ SkuSets.dv e0))
    else None.
Proof.
  revert m. induction data as [|r data IH]; intros m.
  - simpl. destruct (m !! client) as [[vd dv]|] eqn:Hm; simpl; [|done].
    by rewrite !(left_id_L ∅ (∪)).
  - cbn [fold_left]. rewrite IH. clear IH.
    unfold productCodesOf. cbn [List.filter existsb].
    destruct (String.eqb_spec (cnpj r) client) as [Hc|Hne].
    + subst client. cbn [orb andb].
      assert (Hsome : ∀ f, alter f (cnpj r)
                (match m !! cnpj r with
                 | None => <[cnpj r := SkuSets.mk ∅ ∅]> m
                 | Some _ => m end) !! cnpj r
              = Some (f (default (SkuSets.mk ∅ ∅) (m !! cnpj r)))).
      { intros f. rewrite lookup_alter_eq.
        destruct (m !! cnpj r) eqn:Hm; [by rewrite Hm|by rewrite lookup_insert_eq]. }
      assert (Hvd : bool_decide (OpVD = OpVD) = true) by done.
      assert (Hdv : bool_decide (OpDV = OpDV) = true) by done.
      assert (Hvd' : bool_decide (OpVD = OpDV) = false) by done.
      assert (Hdv' : bool_decide (OpDV = OpVD) = false) by done.
      destruct (operClass r) eqn:Hop; rewrite Hsome;
        rewrite bool_decide_true by eauto; rewrite orb_true_r;
        rewrite ?Hvd, ?Hdv, ?Hvd', ?Hdv';
        cbn [default List.map list_to_set SkuSets.vd SkuSets.dv]; cbv zeta;
        unfold id; cbn [SkuSets.vd SkuSets.dv];
        f_equal; f_equal; try reflexivity;
        apply set_eq; intros x; rewrite !elem_of_union; tauto.
    + cbn [orb andb].
      assert (Hsame : ∀ f, alter f (cnpj r)
                (match m !! cnpj r with
                 | None => <[cnpj r := SkuSets.mk ∅ ∅]> m
                 | Some _ => m end) !! client = m !! client).
      { intros f. rewrite lookup_alter_ne by done.
        destruct (m !! cnpj r); [done|by rewrite lookup_insert_ne]. }
      destruct (operClass r); by rewrite Hsame.
Qed.

Lemma clientSkuMap_lookup (data : list SaleRecord) (client : string) :
  client ∈ List.map cnpj data →
  clientSkuMap data !! client
  = Some (SkuSets.mk (list_to_set (productCodesOf client OpVD data))
                     (list_to_set (productCodesOf client OpDV data))).
Proof.
  intros Hin. apply existsb_cnpj in Hin.
  unfold clientSkuMap. rewrite clientSkuMap_fold, Hin, lookup_empty. simpl.
  by rewrite !(right_id_L ∅ (∪)).
Qed.

Lemma netSkus_clientNetSkus (data : list SaleRecord) (client : string) :
  netSkus (SkuSets.mk (list_to_set (productCodesOf client OpVD data))
                      (list_to_set (productCodesOf client OpDV data)))
  = clientNetSkus client data.
Proof.
  unfold netSkus, clientNetSkus. simpl. by rewrite !size_list_to_set_distinct.
Qed.

(** The loop over [activeClients] adds up the floored net SKU count of
    each positivated client. *)
Lemma totalNetSkus_sum (data : list SaleRecord) :
  totalNetSkus data
  = sumZ (List.map (fun c => clientNetSkus c data) (activeClients data)).
Proof.
  unfold totalNetSkus.
  assert (Hall : ∀ c, c ∈ activeClients data → c ∈ List.map cnpj data).
  { intros c Hc. by apply elem_of_activeClients in Hc as [? _]. }
  revert Hall. generalize (activeClients data) as l.
  intros l Hall.
  assert (Hgen : ∀ a,
    fold_left (fun total client =>
        match clientSkuMap data !! client with
        | Some e => (total + netSkus e)%Z
        | None => total
        end) l a
    = (a + sumZ (List.map (fun c => clientNetSkus c data) l))%Z).
  { induction l as [|c l IH]; intros a; simpl.
    - unfold sumZ. simpl. lia.
    - rewrite sumZ_cons, IH by (intros; apply Hall; by right).
      rewrite clientSkuMap_lookup by (apply Hall; by left).
      rewrite netSkus_clientNetSkus. lia. }
  rewrite Hgen. lia.
Qed.

Lemma skuPerPdv_formula (data : list SaleRecord) :
  skuPerPdv data
  = if (size (positivated data) =? 0)%nat then 0%Q
    else (inject_Z (sumZ (List.map (fun c => clientNetSkus c data)
                            (elements (positivated data))))
          / ofNat (size (positivated data)))%Q.
Proof.
  unfold skuPerPdv.
  rewrite positivacao_size.
  rewrite totalNetSkus_sum.
  rewrite (sumZ_Permutation _ _
             (List_map_Permutation _ _ _ (activeClients_elements data))).
  destruct (size (positivated data)); reflexivity.
Qed.






(** ** KPI calculator: average term *)

Lemma sales_app (pre post : list SaleRecord) :
  sales (pre ++ post) = sales pre ++ sales post.
Proof. unfold sales. apply List.filter_app. Qed.

(** Processing one more SALE row is one more round of the loop. *)
Lemma termTotals_snoc (pre : list SaleRecord) (r : SaleRecord) :
  operClass r = OpVD →
  termTotals (pre ++ [r]) = termStep (termTotals pre) r.
Proof.
  intros Hop. unfold termTotals. rewrite sales_app, fold_left_app.
  unfold sales at 1. simpl. by rewrite Hop.
Qed.

Lemma termStep_eligible (st : TermAcc.t) (r : SaleRecord) :
  paymentTerms r ≠ "" → date r ≠ "" →
  termStep st r
  = let days := avgDaysForOrder (TermAcc.orderTermCache st) r in
    let cache :=
      match TermAcc.orderTermCache st !! orderId r with
      | Some _ => TermAcc.orderTermCache st
      | None => <[orderId r := days]> (TermAcc.orderTermCache st)
      end in
    match days with
    | Some d =>
        if Qgeb d 0
        then TermAcc.mk (TermAcc.totalWeightedDays st + d * amount r)%Q
                        (TermAcc.totalSalesForTerm st + amount r)%Q cache
        else TermAcc.mk (TermAcc.totalWeightedDays st) (TermAcc.totalSalesForTerm st) cache
    | None =>
        TermAcc.mk (TermAcc.totalWeightedDays st) (TermAcc.totalSalesForTerm st) cache
    end.
Proof.
  intros Ht Hd. unfold termStep.
  destruct (String.eqb_spec (paymentTerms r) ""); [done|].
  destruct (String.eqb_spec (date r) ""); [done|]. reflexivity.
Qed.

Lemma computeOrderTerm_unparseable (r : SaleRecord) :
  dateTokens (paymentTerms r) = [] → validDays (paymentTerms r) = [] →
  computeOrderTerm r = Some 0%Q.
Proof. intros Hd Hv. unfold computeOrderTerm. by rewrite Hd, Hv. Qed.

Lemma Qgeb_0_neg (d : Q) : (d < 0)%Q → Qgeb d 0 = false.
Proof.
  intros Hlt. unfold Qgeb. apply not_true_iff_false.
  rewrite Qle_bool_iff. by apply Qlt_not_le.
Qed.

(** C1 (as the code has it). In the loop that computes avgTerm, take a SALE
    row with non-empty payment terms and a date, processed after the rows
    [pre]. If its order is not yet in the cache and its terms hold neither a
    due-date token nor a day offset in (0, 2000), the order's average is 0
    days and the row stays in the weighted average: its amount is added to
    the revenue denominator and 0 times its amount to the weighted-days
    numerator. If the order's average is negative or not a number, the row
    is excluded: both totals are unchanged. Any average of at least 0 days
    is counted with the row's amount as weight, and the average is then
    held in the cache under the row's order. *)
Theorem avgTerm_unparseable_counts_as_zero (pre : list SaleRecord)
    (r : SaleRecord) :
  operClass r = OpVD → paymentTerms r ≠ "" → date r ≠ "" →
  let st := termTotals pre in
  let st' := termTotals (pre ++ [r]) in
  let days := avgDaysForOrder (TermAcc.orderTermCache st) r in
  (TermAcc.orderTermCache st !! orderId r = None →
   dateTokens (paymentTerms r) = [] → validDays (paymentTerms r) = [] →
   days = Some 0%Q
   ∧ TermAcc.totalWeightedDays st' = (TermAcc.totalWeightedDays st + 0 * amount r)%Q
   ∧ TermAcc.totalSalesForTerm st' = (TermAcc.totalSalesForTerm st + amount r)%Q)
  ∧ ((days = None ∨ ∃ d, days = Some d ∧ (d < 0)%Q) →
     TermAcc.totalWeightedDays st' = TermAcc.totalWeightedDays st
     ∧ TermAcc.totalSalesForTerm st' = TermAcc.totalSalesForTerm st)
  ∧ (∀ d, days = Some d → (0 <= d)%Q →
     TermAcc.totalWeightedDays st' = (TermAcc.totalWeightedDays st + d * amount r)%Q
     ∧ TermAcc.totalSalesForTerm st' = (TermAcc.totalSalesForTerm st + amount r)%Q)
  ∧ TermAcc.orderTermCache st' !! orderId r = Some days.
Proof.
  intros Hop Ht Hd. cbv zeta.
  rewrite (termTotals_snoc _ _ Hop), (termStep_eligible _ _ Ht Hd). cbv zeta.
  split; [|split; [|split]].
  - intros Hmiss Hdates Hvalid.
    assert (Hdays : avgDaysForOrder (TermAcc.orderTermCache (termTotals pre)) r
                    = Some 0%Q).
    { unfold avgDaysForOrder. rewrite Hmiss.
      by apply computeOrderTerm_unparseable. }
    rewrite Hdays. by simpl.
  - intros [Hnan|(d & Hdays & Hneg)].
    + by rewrite Hnan.
    + rewrite Hdays, (Qgeb_0_neg _ Hneg). by simpl.
  - intros d Hdays Hpos. rewrite Hdays.
    assert (Hge : Qgeb d 0 = true) by by apply Qle_bool_iff.
    rewrite Hge. by simpl.
  - assert (Hcache :
      match TermAcc.orderTermCache (termTotals pre) !! orderId r with
      | Some _ => TermAcc.orderTermCache (termTotals pre)
      | None => <[orderId r := avgDaysForOrder
                                 (TermAcc.orderTermCache (termTotals pre)) r]>
                  (TermAcc.orderTermCache (termTotals pre))
      end !! orderId r
      = Some (avgDaysForOrder (TermAcc.orderTermCache (termTotals pre)) r)).
    { unfold avgDaysForOrder.
      destruct (TermAcc.orderTermCache (termTotals pre) !! orderId r) eqn:Hc;
        [done | by rewrite lookup_insert_eq]. }
    destruct (avgDaysForOrder _ r) as [d|]; [destruct (Qgeb d 0)|]; exact Hcache.
Qed.

(** Two SALE rows after an empty prefix: one with terms "A VISTA", which
    is counted with 0 days, and one due nine days before its invoice, which
    is left out. *)
Lemma avgTerm_unparseable_counts_as_zero_witness :
  (let r := sampleRow "A" "P1" 100 "2" OpVD "A VISTA" "2025-11-01" in
   TermAcc.totalWeightedDays (termTotals ([] ++ [r])) = (0 + 0 * 100)%Q
   ∧ TermAcc.totalSalesForTerm (termTotals ([] ++ [r])) = (0 + 100)%Q)
  ∧ (let r := sampleRow "A" "P1" 100 "3" OpVD "01/11/2025" "2025-11-10" in
     computeOrderTerm r = Some (-9)%Q
     ∧ TermAcc.totalWeightedDays (termTotals ([] ++ [r])) = 0%Q
     ∧ TermAcc.totalSalesForTerm (termTotals ([] ++ [r])) = 0%Q).
Proof.
  cbv zeta. split.
  - pose proof (avgTerm_unparseable_counts_as_zero []
                  (sampleRow "A" "P1" 100 "2" OpVD "A VISTA" "2025-11-01")
                  eq_refl ltac:(discriminate) ltac:(discriminate)) as [H _].
    destruct (H eq_refl eq_refl eq_refl) as (_ & Hnum & Hden).
    split; [exact Hnum | exact Hden].
  - pose proof (avgTerm_unparseable_counts_as_zero []
                  (sampleRow "A" "P1" 100 "3" OpVD "01/11/2025" "2025-11-10")
                  eq_refl ltac:(discriminate) ltac:(discriminate)) as [_ H].
    split; [reflexivity|].
    apply H. right. exists (-9)%Q. split; reflexivity.
Defined.

(** C1, the claim as stated, fails: an order with terms "A VISTA" (no
    due-date token, no day offset) is not excluded. Its amount of 100 enters
    the revenue denominator, and next to an order of 100 at 30 days it
    lowers the average term from 30 to 15 days. *)
Lemma avgTerm_unparseable_not_excluded :
  dateTokens "A VISTA" = []
  ∧ validDays "A VISTA" = []
  ∧ (TermAcc.totalSalesForTerm
       (termTotals [sampleRow "A" "P1" 100 "2" OpVD "A VISTA" "2025-11-01"])
     == 100)%Q
  ∧ (avgTerm [sampleRow "A" "P1" 100 "1" OpVD "30" "2025-11-01"] == 30)%Q
  ∧ (avgTerm [sampleRow "A" "P1" 100 "1" OpVD "30" "2025-11-01";
              sampleRow "A" "P1" 100 "2" OpVD "A VISTA" "2025-11-01"] == 15)%Q.
Proof. repeat split; vm_compute; reflexivity. Qed.

(** ** Record normalizer *)

Lemma string_of_list_ascii_app (a b : list ascii) :
  string_of_list_ascii (a ++ b)
  = (string_of_list_ascii a ++ string_of_list_ascii b)%string.
Proof. induction a as [|c a IH]; simpl; [done|]. by rewrite IH. Qed.

Lemma list_ascii_of_string_app (a b : string) :
  list_ascii_of_string (a ++ b)%string
  = list_ascii_of_string a ++ list_ascii_of_string b.
Proof. induction a as [|c a IH]; simpl; [done|]. by rewrite IH. Qed.

Lemma length_splitChars (sep : ascii → bool) (s : list ascii) :
  length (splitChars sep s) = S (length (List.filter sep s)).
Proof.
  induction s as [|c s IH]; simpl; [done|].
  destruct (sep c); simpl; [by rewrite IH|].
  destruct (splitChars sep s); simpl in *; [discriminate|done].
Qed.

(** Splitting at the first separator. *)
Lemma splitChars_app (sep : ascii → bool) (a rest : list ascii) (c : ascii) :
  List.filter sep a = [] → sep c = true →
  splitChars sep (a ++ c :: rest) = a :: splitChars sep rest.
Proof.
  intros Ha Hc. induction a as [|x a IH]; simpl.
  - by rewrite Hc.
  - simpl in Ha. destruct (sep x); [discriminate|].
    by rewrite (IH Ha).
Qed.

Lemma splitChars_none (sep : ascii → bool) (a : list ascii) :
  List.filter sep a = [] → splitChars sep a = [a].
Proof.
  induction a as [|x a IH]; simpl; [done|].
  destruct (sep x); [discriminate|]. intros Ha. by rewrite (IH Ha).
Qed.

Lemma isDigit_code (c : ascii) :
  isDigit c = true → (code c =? 47)%nat = false ∧ (code c =? 45)%nat = false.
Proof.
  unfold isDigit. intros [H1 H2]%andb_true_iff.
  apply Nat.leb_le in H1. split; apply Nat.eqb_neq; lia.
Qed.

(** A text of the shape [YYYY-MM-DD] holds no slash. *)
Lemma isIsoDate_slashCount (val : string) :
  isIsoDate val = true → slashCount val = 0%nat.
Proof.
  unfold isIsoDate, slashCount.
  destruct (list_ascii_of_string val) as
    [|y1 [|y2 [|y3 [|y4 [|s1 [|m1 [|m2 [|s2 [|d1 [|d2 [|? ?]]]]]]]]]]];
    try discriminate.
  cbn [forallb]. rewrite !andb_true_iff.
  intros [[(Hy1 & Hy2 & Hy3 & Hy4 & Hm1 & Hm2 & Hd1 & Hd2 & _) Hs1] Hs2].
  apply Nat.eqb_eq in Hs1, Hs2. cbn [List.filter].
  rewrite Hs1, Hs2.
  rewrite (proj1 (isDigit_code _ Hy1)), (proj1 (isDigit_code _ Hy2)),
    (proj1 (isDigit_code _ Hy3)), (proj1 (isDigit_code _ Hy4)),
    (proj1 (isDigit_code _ Hm1)), (proj1 (isDigit_code _ Hm2)),
    (proj1 (isDigit_code _ Hd1)), (proj1 (isDigit_code _ Hd2)).
  reflexivity.
Qed.

Lemma append_dash_nonempty (a b : string) : (a ++ "-" ++ b)%string ≠ "".
Proof. destruct a; discriminate. Qed.

(** The normalised date is empty exactly for the texts that are neither of
    the shape [YYYY-MM-DD] nor made of three parts separated by slashes. *)
Lemma parseDate_empty_iff (val : string) :
  parseDate val = "" ↔ isIsoDate val = false ∧ slashCount val ≠ 2%nat.
Proof.
  unfold parseDate.
  destruct (String.eqb_spec val "") as [->|Hne]; [by split|].
  destruct (isIsoDate val) eqn:Hiso.
  { split; [done | intros [? _]; discriminate]. }
  unfold slashCount.
  pose proof (length_splitChars (fun c => (code c =? 47)%nat)
                (list_ascii_of_string val)) as Hlen.
  destruct (splitChars _ (list_ascii_of_string val)) as [|p0 [|p1 [|p2 [|p3 ps]]]];
    simpl in Hlen; simpl.
  - discriminate.
  - split; [intros _; split; [done|lia] | done].
  - split; [intros _; split; [done|lia] | done].
  - split.
    + intros H. by apply append_dash_nonempty in H.
    + intros [_ H]. lia.
  - split; [intros _; split; [done|lia] | done].
Qed.

(** Three parts free of slashes are swapped around, whatever they hold. *)
Lemma parseDate_three_parts (p0 p1 p2 : string) :
  noSlash p0 → noSlash p1 → noSlash p2 →
  parseDate (p0 ++ "/" ++ p1 ++ "/" ++ p2) = (p2 ++ "-" ++ p1 ++ "-" ++ p0)%string.
Proof.
  unfold noSlash, slashCount. intros H0 H1 H2.
  apply length_zero_iff_nil in H0, H1, H2.
  set (val := (p0 ++ "/" ++ p1 ++ "/" ++ p2)%string).
  assert (Hsplit : splitChars (fun c => (code c =? 47)%nat) (list_ascii_of_string val)
                   = [list_ascii_of_string p0; list_ascii_of_string p1;
                      list_ascii_of_string p2]).
  { unfold val. rewrite !list_ascii_of_string_app. simpl.
    rewrite splitChars_app by done. rewrite splitChars_app by done.
    by rewrite splitChars_none. }
  assert (Hcount : slashCount val = 2%nat).
  { unfold slashCount.
    pose proof (length_splitChars (fun c => (code c =? 47)%nat)
                  (list_ascii_of_string val)) as Hlen.
    rewrite Hsplit in Hlen. simpl in Hlen. lia. }
  unfold parseDate.
  destruct (String.eqb_spec val "") as [Hval|_].
  { destruct p0; discriminate. }
  destruct (isIsoDate val) eqn:Hiso.
  { apply isIsoDate_slashCount in Hiso. lia. }
  rewrite Hsplit. simpl. by rewrite !string_of_list_ascii_of_string.
Qed.

Lemma code_inj (c : ascii) (n : nat) :
  (code c =? n)%nat = true → c = ascii_of_nat n.
Proof.
  intros H%Nat.eqb_eq. unfold code in H. subst n.
  symmetry. apply ascii_nat_embedding.
Qed.

(** A text of the shape [DD/MM/YYYY] is rewritten to [YYYY-MM-DD]. *)
Lemma parseDate_isBrDate (val : string) :
  isBrDate val = true →
  parseDate val
  = (String.substring 6 4 val ++ "-" ++ String.substring 3 2 val ++ "-"
     ++ String.substring 0 2 val)%string
  ∧ isIsoDate (parseDate val) = true.
Proof.
  unfold isBrDate.
  destruct val as [|d1 [|d2 [|s1 [|m1 [|m2 [|s2 [|y1 [|y2 [|y3 [|y4 [|? ?]]]]]]]]]]];
    try discriminate.
  cbn [list_ascii_of_string forallb]. rewrite !andb_true_iff.
  intros [[(Hd1 & Hd2 & Hm1 & Hm2 & Hy1 & Hy2 & Hy3 & Hy4 & _) Hs1] Hs2].
  apply code_inj in Hs1, Hs2. subst s1 s2.
  assert (Hno : ∀ a b, isDigit a = true → isDigit b = true →
                       noSlash (String a (String b ""))).
  { intros a b Ha Hb. unfold noSlash, slashCount. simpl.
    by rewrite (proj1 (isDigit_code _ Ha)), (proj1 (isDigit_code _ Hb)). }
  assert (Hno4 : noSlash (String y1 (String y2 (String y3 (String y4 ""))))).
  { unfold noSlash, slashCount. simpl.
    by rewrite (proj1 (isDigit_code _ Hy1)), (proj1 (isDigit_code _ Hy2)),
      (proj1 (isDigit_code _ Hy3)), (proj1 (isDigit_code _ Hy4)). }
  pose proof (parseDate_three_parts _ _ _ (Hno d1 d2 Hd1 Hd2) (Hno m1 m2 Hm1 Hm2) Hno4)
    as Hparse.
  change (ascii_of_nat 47) with "/"%char.
  change (String d1 (String d2 (String "/" (String m1 (String m2 (String "/"
            (String y1 (String y2 (String y3 (String y4 ""))))))))))
    with (String d1 (String d2 "") ++ "/" ++ String m1 (String m2 "") ++ "/"
          ++ String y1 (String y2 (String y3 (String y4 ""))))%string.
  rewrite Hparse. split; [reflexivity|].
  cbv [isIsoDate String.append list_ascii_of_string forallb].
  rewrite Hd1, Hd2, Hm1, Hm2, Hy1, Hy2, Hy3, Hy4. reflexivity.
Qed.

Lemma to_uint_nonnil (n : nat) : Nat.to_uint n ≠ Decimal.Nil.
Proof.
  intros Hnil.
  pose proof (DecimalNat.Unsigned.to_of (Nat.to_uint n)) as H.
  rewrite DecimalNat.Unsigned.of_to, Hnil in H. discriminate H.
Qed.

Lemma indexText_inj (i j : nat) : indexText i = indexText j → i = j.
Proof.
  unfold indexText. intros H.
  apply (f_equal NilZero.uint_of_string) in H.
  rewrite !NilZero.usu in H by apply to_uint_nonnil.
  injection H as H. by apply DecimalNat.Unsigned.to_uint_inj.
Qed.

Lemma parseRow_None_iff (index : nat) (row : Row) :
  parseRow index row = None ↔ parseDate (rawDate row) = "".
Proof.
  unfold parseRow, rawDate. cbv zeta.
  destruct (String.eqb_spec (parseDate (firstOf [row !! "Data NFE"; row !! "Data"] "")) "")
    as [Heq|Hne]; simpl; [done|]. split; [discriminate|done].
Qed.

Lemma parseRow_Some (index : nat) (row : Row) (record : SaleRecord) :
  parseRow index row = Some record →
  rowId record = ("ROW-" ++ indexText index)%string
  ∧ date record = parseDate (rawDate row)
  ∧ date record ≠ "".
Proof.
  unfold parseRow, rawDate. cbv zeta.
  destruct (String.eqb_spec (parseDate (firstOf [row !! "Data NFE"; row !! "Data"] "")) "")
    as [Heq|Hne]; simpl; [discriminate|].
  intros [= <-]. simpl. done.
Qed.

(** The records of the output are those of the rows that yield one. *)
Lemma elem_of_parseRowsFrom (start : nat) (rows : list Row) (record : SaleRecord) :
  record ∈ parseRowsFrom start rows
  ↔ ∃ i row, rows !! i = Some row ∧ parseRow (start + i) row = Some record.
Proof.
  revert start. induction rows as [|row rows IH]; intros start; simpl.
  - rewrite elem_of_nil. split; [done|]. by intros (i & r & H & _).
  - assert (Hrest : (∃ i r, rows !! i = Some r ∧ parseRow (S start + i) r = Some record)
                    ↔ (∃ i r, (row :: rows) !! S i = Some r
                              ∧ parseRow (start + S i) r = Some record)).
    { split; intros (i & r & H1 & H2); exists i, r; split; try done;
        by replace (start + S i)%nat with (S start + i)%nat in * by lia. }
    destruct (parseRow start row) as [rec0|] eqn:Hrow.
    + rewrite elem_of_cons, IH, Hrest. split.
      * intros [->|(i & r & H1 & H2)].
        -- exists 0%nat, row. by rewrite Nat.add_0_r.
        -- by exists (S i), r.
      * intros ([|i] & r & H1 & H2).
        -- simpl in H1. injection H1 as <-. rewrite Nat.add_0_r in H2.
           left. congruence.
        -- right. by exists i, r.
    + rewrite IH, Hrest. split.
      * intros (i & r & H1 & H2). by exists (S i), r.
      * intros ([|i] & r & H1 & H2).
        -- simpl in H1. injection H1 as <-. rewrite Nat.add_0_r in H2. congruence.
        -- by exists i, r.
Qed.

Lemma length_parseRowsFrom (start : nat) (rows : list Row) :
  length (parseRowsFrom start rows)
  = length (List.filter (fun row => negb (String.eqb (parseDate (rawDate row)) "")) rows).
Proof.
  revert start. induction rows as [|row rows IH]; intros start; simpl; [done|].
  destruct (parseRow start row) as [rec0|] eqn:Hrow.
  - apply parseRow_Some in Hrow as (_ & Hd & Hne). rewrite <- Hd.
    destruct (String.eqb_spec (date rec0) ""); [done|]. simpl. by rewrite IH.
  - apply parseRow_None_iff in Hrow. rewrite Hrow. simpl. apply IH.
Qed.

(** A row whose normalised date is empty contributes no record. *)
Lemma parseCSV_drops_empty_date (rows : list Row) (i : nat) (row : Row)
    (record : SaleRecord) :
  rows !! i = Some row → parseDate (rawDate row) = "" →
  record ∈ parseCSV rows → rowId record ≠ ("ROW-" ++ indexText i)%string.
Proof.
  intros Hrow Hdate Hin Hid.
  apply elem_of_parseRowsFrom in Hin as (j & row' & Hrow' & Hparse).
  simpl in Hparse.
  pose proof (parseRow_Some _ _ _ Hparse) as (Hid' & _ & _).
  rewrite Hid in Hid'. apply (inj (String.app "ROW-")) in Hid'.
  apply indexText_inj in Hid'. subst j.
  assert (row' = row) as -> by congruence.
  apply (parseRow_None_iff i) in Hdate. rewrite Hdate in Hparse. discriminate.
Qed.

(** C6 (as the code has it). A text of the shape YYYY-MM-DD is returned
    unchanged and a text of the shape DD/MM/YYYY is rewritten to YYYY-MM-DD.
    Any text made of three parts separated by slashes is rewritten in the
    same way, whatever the parts hold, and the result is empty exactly for
    the texts that are neither of the shape YYYY-MM-DD nor have exactly two
    slashes. A row whose normalised date is empty yields no record: no
    output record carries its row number, every output record has a
    non-empty date, and the output has as many records as there are rows
    with a non-empty normalised date. *)
Theorem parseDate_shapes_and_dropped_rows :
  (∀ val : string, isIsoDate val = true → parseDate val = val)
  ∧ (∀ val : string, isBrDate val = true →
       parseDate val
       = (String.substring 6 4 val ++ "-" ++ String.substring 3 2 val ++ "-"
          ++ String.substring 0 2 val)%string
       ∧ isIsoDate (parseDate val) = true)
  ∧ (∀ p0 p1 p2 : string, noSlash p0 → noSlash p1 → noSlash p2 →
       parseDate (p0 ++ "/" ++ p1 ++ "/" ++ p2) = (p2 ++ "-" ++ p1 ++ "-" ++ p0)%string)
  ∧ (∀ val : string,
       parseDate val = "" ↔ isIsoDate val = false ∧ slashCount val ≠ 2%nat)
  ∧ (∀ (rows : list Row) (i : nat) (row : Row) (record : SaleRecord),
       rows !! i = Some row → parseDate (rawDate row) = "" →
       record ∈ parseCSV rows → rowId record ≠ ("ROW-" ++ indexText i)%string)
  ∧ (∀ (rows : list Row) (record : SaleRecord),
       record ∈ parseCSV rows → date record ≠ "")
  ∧ (∀ rows : list Row,
       length (parseCSV rows)
       = length (List.filter
                   (fun row => negb (String.eqb (parseDate (rawDate row)) "")) rows)).
Proof.
  split; [|split; [|split; [|split; [|split; [|split]]]]].
  - intros val Hiso. unfold parseDate. rewrite Hiso.
    by destruct (String.eqb_spec val "") as [->|_].
  - apply parseDate_isBrDate.
  - apply parseDate_three_parts.
  - apply parseDate_empty_iff.
  - apply parseCSV_drops_empty_date.
  - intros rows record Hin.
    apply elem_of_parseRowsFrom in Hin as (j & row & _ & Hparse).
    by apply parseRow_Some in Hparse as (_ & _ & ?).
  - intros rows. apply length_parseRowsFrom.
Qed.

(** C6, the claim as stated, fails: "5/11/2025" is neither of the shape
    YYYY-MM-DD nor of the shape DD/MM/YYYY, yet it is not mapped to the
    empty string: it becomes "2025-11-5", and the row that carries it is
    kept. *)
Lemma parseDate_other_shape_not_empty :
  isIsoDate "5/11/2025" = false
  ∧ isBrDate "5/11/2025" = false
  ∧ parseDate "5/11/2025" = "2025-11-5"
  ∧ List.map date (parseCSV [<["Data" := "5/11/2025"]> (∅ : Row)]) = ["2025-11-5"].
Proof. repeat split; vm_compute; reflexivity. Qed.

(** ** Pivot table: column totals *)

Lemma insertBy_Permutation {A} (compare : A → A → Q) (x : A) (l : list A) :
  insertBy compare x l ≡ₚ x :: l.
Proof.
  induction l as [|y l IH]; simpl; [done|].
  destruct (Qgtb (compare x y) 0); [|done].
  rewrite IH. apply perm_swap.
Qed.

Lemma sortBy_Permutation {A} (compare : A → A → Q) (l : list A) :
  sortBy compare l ≡ₚ l.
Proof.
  induction l as [|x l IH]; simpl; [done|].
  by rewrite insertBy_Permutation, IH.
Qed.

Lemma sumQ_from (l : list Q) (a : Q) : (fold_left Qplus l a == a + sumQ l)%Q.
Proof.
  unfold sumQ. revert a. induction l as [|x l IH]; intros a; simpl.
  - ring.
  - rewrite (IH (a + x)%Q), (IH (0 + x)%Q). ring.
Qed.

Lemma sumQ_cons (x : Q) (l : list Q) : (sumQ (x :: l) == x + sumQ l)%Q.
Proof. unfold sumQ at 1. simpl. rewrite sumQ_from. ring. Qed.

Lemma sumQ_Permutation (l k : list Q) : l ≡ₚ k → (sumQ l == sumQ k)%Q.
Proof.
  induction 1 as [|x l k _ IH|x y l|l k j _ IH1 _ IH2].
  - reflexivity.
  - by rewrite !sumQ_cons, IH.
  - rewrite !sumQ_cons. ring.
  - by rewrite IH1.
Qed.

(** Sums of values that agree up to [==], list position by position. *)
Lemma sumQ_Forall2 (l k : list Q) : Forall2 Qeq l k → (sumQ l == sumQ k)%Q.
Proof.
  induction 1 as [|x y l k Hxy _ IH]; [reflexivity|].
  by rewrite !sumQ_cons, Hxy, IH.
Qed.

Lemma orZero_eq (x : Q) : (orZero x == x)%Q.
Proof.
  unfold orZero. destruct (Qeq_bool x 0) eqn:H; [|reflexivity].
  apply Qeq_bool_iff in H. by rewrite H.
Qed.

Lemma statsByMonth_fold (months : list string) (records : list SaleRecord)
    (acc : gmap string KPIStats.t) (m : string) :
  fold_left (fun acc m =>
      <[m := calculateStatsInternal
               (List.filter (fun r => startsWith (date r) m) records)]> acc)
    months acc !! m
  = if bool_decide (m ∈ months)
    then Some (calculateStatsInternal
                 (List.filter (fun r => startsWith (date r) m) records))
    else acc !! m.
Proof.
  revert acc. induction months as [|m0 months IH]; intros acc; simpl; [done|].
  rewrite IH. destruct (decide (m ∈ months)) as [Hin|Hnin].
  - rewrite !bool_decide_true; [done | by right | done].
  - rewrite (bool_decide_false _ Hnin).
    destruct (decide (m0 = m)) as [->|Hne].
    + rewrite lookup_insert_eq, bool_decide_true; [done | by left].
    + rewrite lookup_insert_ne by done.
      rewrite bool_decide_false; [done|].
      intros [?|?]%elem_of_cons; congruence.
Qed.

Lemma statsByMonth_lookup (months : list string) (records : list SaleRecord)
    (m : string) :
  statsByMonth months records !! m
  = if bool_decide (m ∈ months)
    then Some (calculateStatsInternal
                 (List.filter (fun r => startsWith (date r) m) records))
    else None.
Proof. unfold statsByMonth. by rewrite statsByMonth_fold, lookup_empty. Qed.

(** The rows handed to the table, up to their order: one per sector. *)
Lemma sortedRows_Permutation (data : list SaleRecord) (dataKey : KPIKey) :
  sortedRows (getSectorPivotData data) dataKey
  ≡ₚ List.map (fun sector' =>
        let sectorRecords := List.filter (fun r => String.eqb (sector r) sector') data in
        let months :=
          sortStrings (arrayFromSet (List.map (fun r => monthOf (date r)) data)) in
        let monthStats := statsByMonth months sectorRecords in
        PivotRow.mk sector' monthStats (calculateAverageOfMonths monthStats))
      (pivotSectors data).
Proof.
  unfold sortedRows, getSectorPivotData. cbn [PivotData.rows].
  by rewrite !sortBy_Permutation.
Qed.

Lemma cellValue_sectorMonthValue (data : list SaleRecord) (dataKey : KPIKey)
    (mKey sector' : string) :
  let sectorRecords := List.filter (fun r => String.eqb (sector r) sector') data in
  let months :=
    sortStrings (arrayFromSet (List.map (fun r => monthOf (date r)) data)) in
  let monthStats := statsByMonth months sectorRecords in
  (cellValue dataKey mKey
     (PivotRow.mk sector' monthStats (calculateAverageOfMonths monthStats))
   == sectorMonthValue data dataKey mKey sector')%Q.
Proof.
  cbv zeta. unfold cellValue, sectorMonthValue. cbn [PivotRow.months].
  rewrite statsByMonth_lookup.
  destruct (decide (mKey ∈ List.map (fun r => monthOf (date r)) data)) as [Hin|Hnin].
  - rewrite !bool_decide_true;
      [apply orZero_eq | done | by rewrite elem_of_sortStrings, elem_of_arrayFromSet].
  - rewrite !bool_decide_false;
      [reflexivity | done | by rewrite elem_of_sortStrings, elem_of_arrayFromSet].
Qed.

(** The sum of a column of the displayed rows is the sum of the metric over
    the sectors. *)
Lemma column_sum (data : list SaleRecord) (dataKey : KPIKey) (mKey : string) :
  (sumQ (List.map (cellValue dataKey mKey)
           (sortedRows (getSectorPivotData data) dataKey))
   == sumQ (List.map (sectorMonthValue data dataKey mKey) (pivotSectors data)))%Q.
Proof.
  rewrite (sumQ_Permutation _ _
             (Permutation_map _ (sortedRows_Permutation data dataKey))).
  rewrite List.map_map. apply sumQ_Forall2.
  induction (pivotSectors data) as [|s l IH]; simpl; constructor; [|exact IH].
  apply cellValue_sectorMonthValue.
Qed.

Lemma length_sortedRows (data : list SaleRecord) (dataKey : KPIKey) :
  length (sortedRows (getSectorPivotData data) dataKey) = length (pivotSectors data).
Proof.
  rewrite (Permutation_length (sortedRows_Permutation data dataKey)).
  apply length_map.
Qed.

Lemma calculateStatsInternal_nil :
  calculateStatsInternal [] = KPIStats.mk 0 0 0 0 0 0 0.
Proof. vm_compute. reflexivity. Qed.

Lemma sectorMonthValue_missing (data : list SaleRecord) (dataKey : KPIKey)
    (mKey sector' : string) :
  List.filter (fun r => startsWith (date r) mKey)
    (List.filter (fun r => String.eqb (sector r) sector') data) = [] →
  (sectorMonthValue data dataKey mKey sector' == 0)%Q.
Proof.
  intros Hnone. unfold sectorMonthValue. rewrite Hnone, calculateStatsInternal_nil.
  destruct (bool_decide _); [|reflexivity]. by destruct dataKey.
Qed.

(** C5. In the sector pivot table, for every month key, the column total of
    a ratio metric (averageTicket, skuPerPdv, avgTerm, avgInstallments) is
    the arithmetic mean, over the displayed sector rows, of the metric of
    the sector in that month, and for an additive metric (totalRevenue,
    positivacao, totalOrders) it is the sum over the displayed rows; with
    no row at all the total is 0. A sector without any record in the month
    enters with the value 0. *)
Theorem column_total_mean_or_sum (data : list SaleRecord) (dataKey : KPIKey)
    (mKey : string) :
  let values :=
    List.map (sectorMonthValue data dataKey mKey) (pivotSectors data) in
  (calculateColumnTotal (getSectorPivotData data) dataKey mKey
   == if isRatioMetric dataKey
      then match pivotSectors data with
           | [] => 0
           | _ => sumQ values / ofNat (length (pivotSectors data))
           end
      else sumQ values)%Q
  ∧ ∀ sector' : string,
      List.filter (fun r => startsWith (date r) mKey)
        (List.filter (fun r => String.eqb (sector r) sector') data) = [] →
      (sectorMonthValue data dataKey mKey sector' == 0)%Q.
Proof.
  cbv zeta. split; [|intros s; apply sectorMonthValue_missing].
  unfold calculateColumnTotal. cbv zeta.
  rewrite length_sortedRows.
  destruct (pivotSectors data) as [|s l] eqn:Hsec.
  - simpl. destruct (isRatioMetric dataKey); reflexivity.
  - change (length (s :: l) =? 0)%nat with false. cbv iota.
    rewrite <- Hsec.
    destruct (isRatioMetric dataKey).
    + by rewrite column_sum.
    + apply column_sum.
Qed.

(** Two sectors with an average ticket of 100 and of 300 in 2025-11: the
    column total of the ratio metric is their mean, 200, and the column
    total of the revenue is the sum, 400. *)
Example column_total_two_sectors :
  let row s value :=
    mkSale "ROW-0" "2025-11-03" "SUL" "D1" s "REP" RC "F1" s "CLIENTE" "P1"
      "PRODUTO" value 1 s OpVD "30" "Independente" None None in
  let data := [row "S1" 100%Q; row "S2" 300%Q] in
  (calculateColumnTotal (getSectorPivotData data) KAverageTicket "2025-11" == 200)%Q
  ∧ (calculateColumnTotal (getSectorPivotData data) KTotalRevenue "2025-11" == 400)%Q.
Proof. split; vm_compute; reflexivity. Qed.

(** ** Geo resolver *)

(** Every row of the coordinate list has exactly four fields. *)
Lemma gazetteer_rows_have_four_fields :
  forallb (fun row =>
      (length (splitChars (fun c => (code c =? 44)%nat) (list_ascii_of_string row))
       =? 4)%nat) RAW_CITIES_ROWS = true.
Proof. vm_compute. reflexivity. Qed.

(** The key found by prefix is the first entry with that prefix, and the
    value read under it is the value of that entry. *)
Lemma findByPrefix_first {V} (start : string) (cache : list (string * V)) :
  findByPrefix start cache
  = option_map snd (List.find (fun entry => startsWith (fst entry) start) cache).
Proof.
  unfold findByPrefix.
  destruct (List.find _ cache) as [[k v]|] eqn:Hfind; [|done]. simpl.
  induction cache as [|[k0 v0] cache IH]; simpl in *; [discriminate|].
  destruct (startsWith k0 start) eqn:Hk0.
  - injection Hfind as -> ->. by rewrite String.eqb_refl.
  - destruct (String.eqb_spec k0 k) as [->|Hne]; [|by apply IH].
    apply find_some in Hfind as [_ Hk]. simpl in Hk. congruence.
Qed.

Lemma code_lt (c : ascii) : code c < 256.
Proof. apply nat_ascii_bounded. Qed.

Lemma code_ascii_of_nat (n : nat) : n < 256 → code (ascii_of_nat n) = n.
Proof. apply nat_ascii_embedding. Qed.

(** A byte that is neither a lower-case letter nor the lead byte C2 or C3
    is copied. *)
Lemma toUpperChars_plain (c : ascii) (s : list ascii) :
  ((97 <=? code c)%nat && (code c <=? 122)%nat) = false →
  code c ≠ 195 → code c ≠ 194 →
  toUpperChars (c :: s) = c :: toUpperChars s.
Proof.
  intros Hlow H195 H194. cbn [toUpperChars]. cbv zeta. rewrite Hlow.
  destruct s as [|d s]; [done|].
  apply Nat.eqb_neq in H195, H194. by rewrite H195, H194.
Qed.

(** The first byte of an upper-cased text. *)
Lemma toUpperChars_head (d : ascii) (r : list ascii) :
  ∃ h t, toUpperChars (d :: r) = h :: t
         ∧ (h = d ∨ code h < 159 ∨ 191 < code h).
Proof.
  cbn [toUpperChars]. cbv zeta.
  pose proof (code_lt d) as Hd.
  destruct ((97 <=? code d)%nat && (code d <=? 122)%nat) eqn:Hlow.
  { eexists _, _. split; [done|]. right. left.
    apply andb_true_iff in Hlow as [H1%Nat.leb_le H2%Nat.leb_le].
    rewrite code_ascii_of_nat by lia. lia. }
  destruct r as [|e r]; [by eexists _, _; split; [done|left]|].
  repeat match goal with
  | |- context [if ?b then _ else _] => destruct b
  end; eexists _, _; (split; [done|]); try (by left);
    right; unfold code; first [left; vm_compute; lia | right; vm_compute; lia].
Qed.

Lemma toUpperChars_unmatched (c d : ascii) (s : list ascii) :
  ((97 <=? code c)%nat && (code c <=? 122)%nat) = false →
  upperPair (code c) (code d) = false →
  toUpperChars (c :: d :: s) = c :: toUpperChars (d :: s).
Proof.
  intros Hlow Hpair. unfold upperPair in Hpair.
  apply orb_false_iff in Hpair as [Hpair H4].
  apply orb_false_iff in Hpair as [Hpair H3].
  apply orb_false_iff in Hpair as [H1 H2].
  cbn [toUpperChars]. cbv zeta. by rewrite Hlow, H1, H2, H3, H4.
Qed.

Lemma upperPair_outside (n k : nat) : k < 159 ∨ 191 < k → upperPair n k = false.
Proof.
  intros Hk. unfold upperPair.
  destruct (Nat.leb_spec 160 k), (Nat.leb_spec k 190), (Nat.eqb_spec k 183),
    (Nat.eqb_spec k 159), (Nat.eqb_spec k 191), (Nat.eqb_spec k 181);
    try lia; by rewrite ?andb_false_r.
Qed.

Lemma toUpperChars_idem (s : list ascii) :
  toUpperChars (toUpperChars s) = toUpperChars s.
Proof.
  remember (length s) as n eqn:Hn. revert s Hn.
  induction n as [n IH] using lt_wf_ind. intros s Hn.
  destruct s as [|c s]; [done|].
  pose proof (code_lt c) as Hc.
  assert (Hplain : ∀ m t, m < 256 → (m < 97 ∨ 122 < m) → m ≠ 195 → m ≠ 194 →
            toUpperChars (ascii_of_nat m :: t) = ascii_of_nat m :: toUpperChars t).
  { intros m t Hm Hout H195 H194. apply toUpperChars_plain;
      rewrite code_ascii_of_nat by done; [|done..].
    destruct (Nat.leb_spec 97 m), (Nat.leb_spec m 122); try done; lia. }
  assert (IHs : ∀ t, length t < n → toUpperChars (toUpperChars t) = toUpperChars t).
  { intros t Ht. by apply (IH (length t)). }
  cbn [toUpperChars]. cbv zeta.
  destruct ((97 <=? code c)%nat && (code c <=? 122)%nat) eqn:Hlow.
  { apply andb_true_iff in Hlow as [H1%Nat.leb_le H2%Nat.leb_le].
    rewrite Hplain by lia. f_equal. apply IHs. simpl in Hn. lia. }
  destruct s as [|d s].
  { cbn [toUpperChars]. cbv zeta. by rewrite Hlow. }
  pose proof (code_lt d) as Hd. simpl in Hn.
  destruct ((code c =? 195)%nat && (160 <=? code d)%nat && (code d <=? 190)%nat
            && negb (code d =? 183)%nat) eqn:H1.
  { apply andb_true_iff in H1 as [H1 _].
    apply andb_true_iff in H1 as [H1 Hle%Nat.leb_le].
    apply andb_true_iff in H1 as [_ Hge%Nat.leb_le].
    rewrite toUpperChars_unmatched;
      [|done|apply upperPair_outside; rewrite code_ascii_of_nat by lia; lia].
    rewrite Hplain by lia. do 2 f_equal. apply IHs. lia. }
  destruct ((code c =? 195)%nat && (code d =? 159)%nat) eqn:H2.
  { change "S"%char with (ascii_of_nat 83).
    rewrite !Hplain by lia. do 2 f_equal. apply IHs. lia. }
  destruct ((code c =? 195)%nat && (code d =? 191)%nat) eqn:H3.
  { rewrite !Hplain by lia. do 2 f_equal. apply IHs. lia. }
  destruct ((code c =? 194)%nat && (code d =? 181)%nat) eqn:H4.
  { rewrite !Hplain by lia. do 2 f_equal. apply IHs. lia. }
  destruct (toUpperChars_head d s) as (h & t & Hht & Hh).
  rewrite Hht. rewrite toUpperChars_unmatched; [|done|].
  - f_equal. rewrite <- Hht. apply IHs. simpl. lia.
  - destruct Hh as [->|Hh]; [|by apply upperPair_outside].
    unfold upperPair. by rewrite H1, H2, H3, H4.
Qed.

(** Upper-casing the city and state texts beforehand changes nothing. *)
Lemma getCityCoords_upper (cityText stateText : string) :
  getCityCoords (toUpperCase cityText) (toUpperCase stateText)
  = getCityCoords cityText stateText.
Proof.
  assert (Hcity : cleanCity (toUpperCase cityText) = cleanCity cityText).
  { unfold cleanCity, toUpperCase.
    by rewrite list_ascii_of_string_of_list_ascii, toUpperChars_idem. }
  assert (Hstate : cleanState (toUpperCase stateText) = cleanState stateText).
  { unfold cleanState. f_equal. unfold toUpperCase.
    by rewrite list_ascii_of_string_of_list_ascii, toUpperChars_idem. }
  unfold getCityCoords. by rewrite Hcity, Hstate.
Qed.

(** C8. Geo resolution does not depend on case, diacritics or a missing
    state: city "São Paulo" with a blank state resolves to the coordinate
    of the gazetteer row SP,SAO PAULO, the same as city "SAO PAULO" with
    state "SP" (and as lower-case "são paulo" with state "sp"). With a blank
    state the result is the value of the first gazetteer entry, in the order
    of the list, whose key starts with the normalised city text followed by
    a dash, whatever its state. In general the result depends on the two
    texts only through their normalised forms, and upper-casing them
    beforehand changes nothing. *)
Theorem geo_resolution_state_optional :
  getCityCoords "São Paulo" "" = Some (Some (-23.5329)%Q, Some (-46.6395)%Q)
  ∧ getCityCoords "SAO PAULO" "SP" = getCityCoords "São Paulo" ""
  ∧ getCityCoords "são paulo" "sp" = getCityCoords "São Paulo" ""
  ∧ cleanCity "São Paulo" = "SAO PAULO"
  ∧ List.find (fun entry => startsWith (fst entry) "SAO PAULO-") cityCoordsCache
    = Some ("SAO PAULO-SP", (Some (-23.5329)%Q, Some (-46.6395)%Q))
  ∧ (∀ cityText stateText : string,
       cleanState stateText = "" →
       getCityCoords cityText stateText
       = option_map snd
           (List.find (fun entry => startsWith (fst entry) (cleanCity cityText ++ "-"))
              cityCoordsCache))
  ∧ (∀ cityText cityText' stateText stateText' : string,
       cleanCity cityText = cleanCity cityText' →
       cleanState stateText = cleanState stateText' →
       getCityCoords cityText stateText = getCityCoords cityText' stateText')
  ∧ (∀ cityText stateText : string,
       getCityCoords (toUpperCase cityText) (toUpperCase stateText)
       = getCityCoords cityText stateText).
Proof.
  split; [vm_compute; reflexivity|].
  split; [vm_compute; reflexivity|].
  split; [vm_compute; reflexivity|].
  split; [vm_compute; reflexivity|].
  split; [vm_compute; reflexivity|].
  split; [|split].
  - intros cityText stateText Hblank. unfold getCityCoords. rewrite Hblank.
    change (String.eqb "" "") with true. cbn [negb].
    apply findByPrefix_first.
  - intros cityText cityText' stateText stateText' Hcity Hstate.
    unfold getCityCoords. by rewrite Hcity, Hstate.
  - apply getCityCoords_upper.
Qed.

Lemma elem_of_assocSet {V} (key : string) (value : V) (obj : list (string * V))
    (x : string * V) :
  x ∈ assocSet key value obj → x = (key, value) ∨ x ∈ obj.
Proof.
  induction obj as [|[k v] obj IH]; simpl.
  - intros ->%list_elem_of_singleton. by left.
  - destruct (String.eqb k key).
    + intros [->|Hin]%elem_of_cons; [by left | right; by right].
    + intros [->|Hin]%elem_of_cons; [right; by left|].
      destruct (IH Hin) as [->|?]; [by left | right; by right].
Qed.

Lemma assocGet_elem_of {V} (key : string) (obj : list (string * V)) (value : V) :
  assocGet key obj = Some value → (key, value) ∈ obj.
Proof.
  induction obj as [|[k v] obj IH]; simpl; [discriminate|].
  destruct (String.eqb_spec k key) as [->|Hne].
  - intros [= ->]. by left.
  - intros H. right. by apply IH.
Qed.

Lemma geoStep_invariant (all : list SaleRecord) (cityStats : list (string * GeoStats.t))
    (r : SaleRecord) :
  r ∈ all →
  (∀ key e, (key, e) ∈ cityStats →
     key = (GeoStats.city e ++ "-" ++ GeoStats.state e)%string
     ∧ ∃ r0, r0 ∈ all ∧ entryOfRow e r0) →
  ∀ key e, (key, e) ∈ geoStep cityStats r →
     key = (GeoStats.city e ++ "-" ++ GeoStats.state e)%string
     ∧ ∃ r0, r0 ∈ all ∧ entryOfRow e r0.
Proof.
  intros Hr Hinv key e. unfold geoStep.
  destruct (isBlank (city r)) eqn:Hblank; [apply Hinv|].
  destruct (getCityCoords _ _) as [coords|] eqn:Hcoords; [|apply Hinv].
  cbv zeta. intros [Heq|Hin]%elem_of_assocSet; [|by apply Hinv].
  injection Heq as -> ->. cbn [GeoStats.city GeoStats.state GeoStats.lat GeoStats.lng].
  destruct (assocGet _ cityStats) as [e0|] eqn:Hget.
  - apply assocGet_elem_of, Hinv in Hget as [Hkey (r0 & Hr0 & Hrow)].
    split; [done|]. exists r0. split; [done|]. exact Hrow.
  - cbn [GeoStats.city GeoStats.state GeoStats.lat GeoStats.lng].
    split; [done|]. exists r. split; [done|].
    unfold entryOfRow. cbn [GeoStats.city GeoStats.state GeoStats.lat GeoStats.lng].
    by destruct coords.
Qed.

Lemma cityStatsOf_invariant (data : list SaleRecord) :
  ∀ key e, (key, e) ∈ cityStatsOf data →
     key = (GeoStats.city e ++ "-" ++ GeoStats.state e)%string
     ∧ ∃ r0, r0 ∈ data ∧ entryOfRow e r0.
Proof.
  unfold cityStatsOf.
  assert (Hgen : ∀ rows acc,
    (∀ r, r ∈ rows → r ∈ data) →
    (∀ key e, (key, e) ∈ acc →
       key = (GeoStats.city e ++ "-" ++ GeoStats.state e)%string
       ∧ ∃ r0, r0 ∈ data ∧ entryOfRow e r0) →
    ∀ key e, (key, e) ∈ fold_left geoStep rows acc →
       key = (GeoStats.city e ++ "-" ++ GeoStats.state e)%string
       ∧ ∃ r0, r0 ∈ data ∧ entryOfRow e r0).
  { induction rows as [|r rows IH]; intros acc Hsub Hacc; simpl; [done|].
    apply IH.
    - intros r' Hr'. apply Hsub. by right.
    - apply geoStep_invariant; [apply Hsub; by left | done]. }
  apply Hgen; [done|]. intros key e Hin. by apply elem_of_nil in Hin.
Qed.

(** C10. Geo aggregation keys its output by the raw text of the record, not
    by the gazetteer entry it resolves to: every output entry carries the
    upper-cased city text of some row up to its first dash and that row's
    state text, or BR when it is blank, with the coordinate the row
    resolves to. So a row for SAO PAULO with a blank state and a row for
    SAO PAULO with state SP, which resolve to the same coordinate, give two
    entries (states BR and SP) with identical latitude and longitude. *)
Theorem geo_stats_keyed_by_raw_text :
  (let data := [geoRow "SAO PAULO" "" 100; geoRow "SAO PAULO" "SP" 50] in
   getCityCoords "SAO PAULO" "" = getCityCoords "SAO PAULO" "SP"
   ∧ getGeoStats data
     = [GeoStats.mk "SAO PAULO" "BR" (Some (-23.5329)%Q) (Some (-46.6395)%Q) 100 1;
        GeoStats.mk "SAO PAULO" "SP" (Some (-23.5329)%Q) (Some (-46.6395)%Q) 50 1])
  ∧ ∀ (data : list SaleRecord) (e : GeoStats.t),
      e ∈ getGeoStats data → ∃ r, r ∈ data ∧ entryOfRow e r.
Proof.
  split.
  - cbv zeta. split; vm_compute; reflexivity.
  - intros data e. unfold getGeoStats. rewrite sortBy_Permutation.
    intros Hin. apply list_elem_of_In, in_map_iff in Hin as ([key e'] & He & Hin).
    simpl in He. subst e'. apply list_elem_of_In in Hin.
    by apply cityStatsOf_invariant in Hin as [_ ?].
Qed.

(** ** Worked examples *)

(** One sale of 100 on terms 30-60-90 and its return of -100 under the same
    order: no revenue, no positivated client, no net order; the instalment
    and term averages come from the SALE row alone (3 instalments, 60
    days). *)
Example kpis_sale_and_return :
  let data :=
    [sampleRow "A" "P1" 100 "1" OpVD "30-60-90" "2025-11-01";
     sampleRow "A" "P1" (-100) "1" OpDV "" "2025-11-02"] in
  (KPIStats.totalRevenue (calculateKPIs data) == 0)%Q
  ∧ positivacao data = 0%nat
  ∧ totalOrders data = 0%Z
  ∧ (KPIStats.averageTicket (calculateKPIs data) == 0)%Q
  ∧ (KPIStats.avgInstallments (calculateKPIs data) == 3)%Q
  ∧ (KPIStats.avgTerm (calculateKPIs data) == 60)%Q.
Proof. repeat split; vm_compute; reflexivity. Qed.

(** Two clients, one with a net amount of 500 over three distinct product
    codes and one with a net amount of -20: one positivated client and
    three SKUs per point of sale. *)
Example kpis_two_clients :
  let data :=
    [sampleRow "A" "P1" 200 "1" OpVD "30" "2025-11-01";
     sampleRow "A" "P2" 200 "1" OpVD "30" "2025-11-01";
     sampleRow "A" "P3" 100 "2" OpVD "30" "2025-11-01";
     sampleRow "B" "P9" (-20) "3" OpDV "" "2025-11-02"] in
  positivacao data = 1%nat ∧ (skuPerPdv data == 3)%Q.
Proof. split; vm_compute; reflexivity. Qed.

(** More RETURN orders than SALE orders: the order count stays at 0. *)
Example totalOrders_more_returns :
  totalOrders
    [sampleRow "A" "P1" 100 "1" OpVD "30" "2025-11-01";
     sampleRow "A" "P1" (-10) "2" OpDV "" "2025-11-02";
     sampleRow "A" "P1" (-10) "3" OpDV "" "2025-11-03"] = 0%Z.
Proof. vm_compute. reflexivity. Qed.

(** With the region filter set to NORTE, the region options still list
    both regions, while the division options only list the division sold
    in NORTE. *)
Example cascading_options_two_regions :
  let row reg div :=
    mkSale "ROW-0" "2025-11-03" reg div "S1" "REP" RC "F1" "C1" "CLIENTE" "P1"
      "PRODUTO" 10 1 "1" OpVD "30" "Independente" None None in
  let data := [row "SUL" "D2"; row "NORTE" "D1"; row "SUL" "D2"] in
  let filters := FilterState.mk [] ["NORTE"] [] [] [] [] "2025-01" "2025-12" in
  CascadingOptions.regions (getCascadingOptions data filters) = ["NORTE"; "SUL"]
  ∧ CascadingOptions.divisions (getCascadingOptions data filters) = ["D1"]
  ∧ List.map division (filterData data filters) = ["D1"].
Proof. repeat split; vm_compute; reflexivity. Qed.

(** The three outcomes of the date normalisation, and a row without a
    usable date disappearing from the output. *)
Example parseDate_and_dropped_row :
  parseDate "2025-11-05" = "2025-11-05"
  ∧ parseDate "05/11/2025" = "2025-11-05"
  ∧ parseDate "hoje" = ""
  ∧ List.map rowId
      (parseCSV [<["Data NFE" := "05/11/2025"]> (∅ : Row);
                 <["Data" := "hoje"]> (∅ : Row);
                 <["Data" := "2025-11-07"]> (∅ : Row)])
    = ["ROW-0"; "ROW-2"].
Proof. repeat split; vm_compute; reflexivity. Qed.

(** The product codes of a client that is not positivated play no part:
    client B, with a net amount of -20, may return any products. *)
Example skuPerPdv_ignores_other_clients :
  let base :=
    [sampleRow "A" "P1" 200 "1" OpVD "30" "2025-11-01";
     sampleRow "A" "P2" 300 "1" OpVD "30" "2025-11-01"] in
  (skuPerPdv (base ++ [sampleRow "B" "P1" (-20) "3" OpDV "" "2025-11-02"]) == 2)%Q
  ∧ (skuPerPdv (base ++ [sampleRow "B" "P7" (-20) "3" OpDV "" "2025-11-02"]) == 2)%Q.
Proof. split; vm_compute; reflexivity. Qed.

(** Due dates given in full: 30 and 60 days after the invoice average to 45
    days; an order due before its invoice is left out. *)
Example avgTerm_explicit_due_dates :
  (avgTerm [sampleRow "A" "P1" 100 "1" OpVD "10/12/2025 e 09/01/2026" "2025-11-10";
            sampleRow "A" "P1" 100 "2" OpVD "01/11/2025" "2025-11-10"] == 45)%Q.
Proof. vm_compute. reflexivity. Qed.

(** * Further properties of the code *)

(** ** Filter engine *)

Lemma List_filter_comm {A} (p q : A → bool) (l : list A) :
  List.filter p (List.filter q l) = List.filter q (List.filter p l).
Proof.
  induction l as [|x l IH]; simpl; [done|].
  destruct (q x) eqn:Hq, (p x) eqn:Hp; simpl; rewrite ?Hq, ?Hp, IH; done.
Qed.

(** X1. Two filter states can be applied in either order: filtering with
    [F] and then with [G] gives the same records, in the same order, as
    filtering with [G] and then with [F]. *)
Theorem filterData_commutes (data : list SaleRecord) (F G : FilterState.t) :
  filterData (filterData data F) G = filterData (filterData data G) F.
Proof. unfold filterData. apply List_filter_comm. Qed.

Lemma matches_all (v : string) (values : list string) :
  includes values "all" = true → matches v values = true.
Proof. intros H. unfold matches. by rewrite H, orb_true_r. Qed.

Lemma includes_app_all (pre post : list string) :
  includes (pre ++ "all" :: post) "all" = true.
Proof.
  apply includes_elem_of, elem_of_app. right. by left.
Qed.

(** X2. The sentinel "all" anywhere among the accepted values of a dimension
    switches that dimension off, whatever other values stand beside it: the
    result is that of the filter state with the dimension left empty. *)
Theorem filterData_all_disables (data : list SaleRecord) (F : FilterState.t)
    (key : Dimension) (pre post : list string) :
  filterData data (withValues key (pre ++ "all" :: post) F)
  = filterData data (unconstrain key F).
Proof.
  unfold filterData. apply filter_ext. intros r.
  apply eq_true_iff_eq. unfold unconstrain. rewrite !filterPred_withValues.
  split; intros [Hp _]; (split; [done|]).
  - reflexivity.
  - apply matches_all, includes_app_all.
Qed.

Lemma strLe_refl (a : string) : strLe a a = true.
Proof.
  unfold strLe. pose proof (String.leb_total a a) as [H|H]; exact H.
Qed.

Lemma passesAll_filterPred (F : FilterState.t) (r : SaleRecord) :
  filterPred F r = true
  ↔ strGe (monthOf (date r)) (FilterState.startMonth F) = true
    ∧ strLe (monthOf (date r)) (FilterState.endMonth F) = true
    ∧ ∀ k : Dimension, matches (fieldOf k r) (filterOf k F) = true.
Proof.
  unfold filterPred. cbv zeta. rewrite !andb_true_iff. split.
  - intros ((((((H1 & H2) & H3) & H4) & H5) & H6) & Hs & He).
    split; [done|]. split; [done|]. by intros [].
  - intros (Hs & He & H).
    repeat split; try done;
      [apply (H DDivision) | apply (H DRegion) | apply (H DSector)
      | apply (H DSalesRep) | apply (H DChannel) | apply (H DSupplier)].
Qed.

(** X3. A range whose start and end are the same month selects exactly the
    records of that month: a record is in the output if and only if it is in
    the input, the first seven characters of its date are that month, and
    it passes every dimension's filter. *)
Theorem filterData_single_month (data : list SaleRecord) (F : FilterState.t)
    (month : string) (r : SaleRecord) :
  r ∈ filterData data (withRange month month F)
  ↔ r ∈ data ∧ monthOf (date r) = month
    ∧ ∀ k : Dimension, matches (fieldOf k r) (filterOf k F) = true.
Proof.
  unfold filterData. rewrite elem_of_List_filter, passesAll_filterPred.
  unfold withRange, strGe, strLe. cbn [FilterState.startMonth FilterState.endMonth].
  split.
  - intros (Hin & Hs & He & Hk). split; [done|]. split.
    + by apply String.leb_antisym.
    + intros k. specialize (Hk k). by destruct k.
  - intros (Hin & <- & Hk). split; [done|].
    split; [apply strLe_refl|]. split; [apply strLe_refl|].
    intros k. specialize (Hk k). by destruct k.
Qed.

(** ** Record normalizer *)

Lemma span_fst_forallb (p : ascii → bool) (s : list ascii) :
  forallb p (fst (span p s)) = true.
Proof.
  induction s as [|c s IH]; simpl; [done|].
  destruct (p c) eqn:Hc; [|done].
  destruct (span p s) as [a b]. simpl in *. by rewrite Hc, IH.
Qed.

Lemma digitVal_nonneg (c : ascii) : isDigit c = true → (0 <= digitVal c)%Z.
Proof.
  unfold isDigit, digitVal. intros [H1%Nat.leb_le _]%andb_true_iff. lia.
Qed.

Lemma digitsVal_nonneg (ds : list ascii) :
  forallb isDigit ds = true → (0 <= digitsVal ds)%Z.
Proof.
  unfold digitsVal.
  assert (Hgen : ∀ acc, (0 <= acc)%Z → forallb isDigit ds = true →
            (0 <= fold_left (fun acc c => 10 * acc + digitVal c) ds acc)%Z).
  { induction ds as [|c ds IH]; intros acc Hacc Hall; simpl; [done|].
    simpl in Hall. apply andb_true_iff in Hall as [Hc Hds].
    apply IH; [|done]. pose proof (digitVal_nonneg c Hc). lia. }
  by apply Hgen.
Qed.

Lemma pow10_pos (e : Z) : (0 <= e)%Z → (0 < pow10 e)%Q.
Proof.
  intros He. assert (0 < 10 ^ e)%Z by (apply Z.pow_pos_nonneg; lia).
  unfold pow10, Qlt. simpl. lia.
Qed.

Lemma parseFloatClean_nonneg (s : list ascii) (q : Q) :
  parseFloatClean s = Some q → (0 <= q)%Q.
Proof.
  unfold parseFloatClean.
  pose proof (span_fst_forallb isDigit s) as Hint.
  destruct (span isDigit s) as [intDigits rest]. simpl in Hint.
  set (fracDigits := match rest with
                     | c :: r => if (code c =? 46)%nat then fst (span isDigit r) else []
                     | [] => []
                     end).
  assert (Hfrac : forallb isDigit fracDigits = true).
  { unfold fracDigits. destruct rest as [|c r]; [done|].
    destruct (code c =? 46)%nat; [apply span_fst_forallb|done]. }
  destruct (intDigits ++ fracDigits) as [|d ds] eqn:Hds; [discriminate|].
  intros [= <-]. rewrite <- Hds.
  apply Qle_shift_div_l; [apply pow10_pos; lia|].
  rewrite Qmult_0_l.
  assert (0 <= digitsVal (intDigits ++ fracDigits))%Z
    by (apply digitsVal_nonneg; by rewrite forallb_app, Hint, Hfrac).
  unfold Qle. simpl. lia.
Qed.

(** Removing white space neither adds nor removes a character that is not
    a white space byte. *)
Lemma stripPrefix_hasChar (n : nat) (pat : list nat) (s rest : list ascii) :
  n ∉ pat → stripPrefix pat s = Some rest → hasChar n s = hasChar n rest.
Proof.
  revert s. induction pat as [|m pat IH]; intros s Hn; simpl.
  - by intros [= ->].
  - destruct s as [|c s]; [discriminate|].
    destruct (Nat.eqb_spec (code c) m) as [Hc|Hc]; [|discriminate].
    intros Hrest. simpl.
    rewrite (IH s); [|intros ?; apply Hn; by right|done].
    destruct (Nat.eqb_spec (code c) n) as [Hcn|?]; [|done].
    exfalso. apply Hn, elem_of_cons. left. congruence.
Qed.

Lemma stripAny_hasChar (n : nat) (pats : list (list nat)) (s rest : list ascii) :
  Forall (λ pat, n ∉ pat) pats →
  stripAny pats s = Some rest → hasChar n s = hasChar n rest.
Proof.
  induction 1 as [|pat pats Hpat _ IH]; simpl; [discriminate|].
  destruct (stripPrefix pat s) as [r|] eqn:Hstrip.
  - intros [= ->]. by apply (stripPrefix_hasChar n pat).
  - exact IH.
Qed.

Lemma stripAll_hasChar (n fuel : nat) (pats : list (list nat)) (s : list ascii) :
  Forall (λ pat, n ∉ pat) pats →
  hasChar n (stripAll fuel pats s) = hasChar n s.
Proof.
  intros Hpats. revert s. induction fuel as [|fuel IH]; intros s; simpl; [done|].
  destruct (stripAny pats s) as [rest|] eqn:Hstrip; [|done].
  rewrite IH. symmetry. by apply (stripAny_hasChar n pats).
Qed.

Lemma hasChar_rev (n : nat) (s : list ascii) : hasChar n (rev s) = hasChar n s.
Proof.
  unfold hasChar. apply eq_true_iff_eq. rewrite !existsb_exists.
  split; intros (c & Hin & Hc); exists c; (split; [|done]).
  - by apply in_rev.
  - by apply in_rev in Hin.
Qed.

Lemma trimChars_hasDash (s : list ascii) : hasChar 45 (trimChars s) = hasChar 45 s.
Proof.
  unfold trimChars, trimEnd, trimStart.
  rewrite hasChar_rev, stripAll_hasChar, hasChar_rev, stripAll_hasChar; [done| |];
    apply (bool_decide_unpack _); vm_compute; exact I.
Qed.

(** X4. The sign of a parsed amount is decided by the minus sign alone: a
    text that holds a [-] anywhere yields an amount that is at most 0, and a
    text without any yields an amount that is at least 0 (0 when nothing
    can be parsed). *)
Theorem parseAmount_sign (val : string) :
  (hasChar 45 (list_ascii_of_string val) = true → (parseAmount val <= 0)%Q)
  ∧ (hasChar 45 (list_ascii_of_string val) = false → (0 <= parseAmount val)%Q).
Proof.
  unfold parseAmount.
  destruct (String.eqb val ""); [by split|].
  rewrite trimChars_hasDash. cbv zeta.
  match goal with
  | |- context [parseFloatClean ?c] => destruct (parseFloatClean c) as [num|] eqn:Hp
  end; [|by split].
  pose proof (parseFloatClean_nonneg _ _ Hp) as Hnum.
  split; intros Hdash; rewrite Hdash; [|done].
  rewrite Qabs_pos by done.
  apply Qopp_le_compat in Hnum. exact Hnum.
Qed.

Lemma parseRowsFrom_index (start : nat) (rows : list Row) (record : SaleRecord) :
  record ∈ parseRowsFrom start rows →
  ∃ i, start <= i ∧ rowId record = ("ROW-" ++ indexText i)%string.
Proof.
  intros Hin. apply elem_of_parseRowsFrom in Hin as (i & row & _ & Hparse).
  exists (start + i). split; [lia|]. by apply parseRow_Some in Hparse as (? & _).
Qed.

Lemma NoDup_parseRowsFrom (start : nat) (rows : list Row) :
  NoDup (List.map rowId (parseRowsFrom start rows)).
Proof.
  revert start. induction rows as [|row rows IH]; intros start; simpl; [constructor|].
  destruct (parseRow start row) as [rec0|] eqn:Hrow; [|apply IH].
  simpl. constructor; [|apply IH].
  intros Hin. apply list_elem_of_In, in_map_iff in Hin as (rec1 & Hid & Hin).
  apply list_elem_of_In, parseRowsFrom_index in Hin as (i & Hi & Hid1).
  apply parseRow_Some in Hrow as (Hid0 & _).
  rewrite Hid0, Hid1 in Hid. apply (inj (String.app "ROW-")) in Hid.
  apply indexText_inj in Hid. lia.
Qed.

(** X5. The identifiers of the records produced from a list of rows are
    pairwise distinct. *)
Theorem parseCSV_ids_unique (rows : list Row) :
  NoDup (List.map rowId (parseCSV rows)).
Proof. apply NoDup_parseRowsFrom. Qed.

Lemma firstOf_fallback (candidates : list (option string)) (fallback : string) :
  firstOf candidates "" = "" → firstOf candidates fallback = fallback.
Proof.
  induction candidates as [|[s|] rest IH]; simpl; [done| |exact IH].
  destruct (String.eqb_spec s ""); [exact IH|]. intros; congruence.
Qed.

Lemma parseRow_ids (index : nat) (row : Row) (record : SaleRecord) :
  parseRow index row = Some record →
  cnpj record = firstOf [row !! "CNPJ"; row !! "Cliente"] ("UNKNOWN-" ++ indexText index)
  ∧ orderId record
    = firstOf [row !! "Num. Pedido"; row !! "Pedido"] ("UNK-" ++ indexText index).
Proof.
  unfold parseRow. cbv zeta.
  destruct (negb _); [|discriminate]. by intros [= <-].
Qed.

(** X6. Rows without a client text get client identifiers of their own, and
    rows without an order text get order identifiers of their own: two
    different rows that both lack the text never share the synthetic
    identifier, so they are never grouped together. *)
Theorem parseRow_synthetic_ids_distinct (i j : nat) (row row' : Row)
    (record record' : SaleRecord) :
  parseRow i row = Some record → parseRow j row' = Some record' → i ≠ j →
  (clientText row = "" → clientText row' = "" → cnpj record ≠ cnpj record')
  ∧ (orderText row = "" → orderText row' = "" → orderId record ≠ orderId record').
Proof.
  intros Hrow Hrow' Hij.
  apply parseRow_ids in Hrow as [Hc Ho]. apply parseRow_ids in Hrow' as [Hc' Ho'].
  unfold clientText, orderText. split; intros Hb Hb' Heq.
  - rewrite Hc, Hc', !firstOf_fallback in Heq by done.
    apply (inj (String.app "UNKNOWN-")), indexText_inj in Heq. done.
  - rewrite Ho, Ho', !firstOf_fallback in Heq by done.
    apply (inj (String.app "UNK-")), indexText_inj in Heq. done.
Qed.

(** Two rows with a date and nothing else. *)
Lemma parseRow_synthetic_ids_distinct_witness :
  match parseRow 0 (<["Data" := "2025-11-03"]> (∅ : Row)),
        parseRow 1 (<["Data" := "2025-11-04"]> (∅ : Row)) with
  | Some record, Some record' =>
      cnpj record ≠ cnpj record' ∧ orderId record ≠ orderId record'
  | _, _ => False
  end.
Proof.
  destruct (parseRow 0 (<["Data" := "2025-11-03"]> (∅ : Row))) as [a|] eqn:Ha;
    [|vm_compute in Ha; discriminate Ha].
  destruct (parseRow 1 (<["Data" := "2025-11-04"]> (∅ : Row))) as [b|] eqn:Hb;
    [|vm_compute in Hb; discriminate Hb].
  destruct (parseRow_synthetic_ids_distinct 0 1 _ _ a b Ha Hb ltac:(lia)) as [Hc Ho].
  split; [apply Hc | apply Ho]; vm_compute; reflexivity.
Defined.

(** ** KPI calculator *)






Lemma List_filter_idem {A} (p : A → bool) (l : list A) :
  List.filter p (List.filter p l) = List.filter p l.
Proof.
  induction l as [|x l IH]; simpl; [done|].
  destruct (p x) eqn:Hp; simpl; rewrite ?Hp, IH; done.
Qed.

(** X8. RETURN rows never enter the instalment and term averages: both are
    the same on the whole list as on its SALE rows alone. *)
Theorem term_averages_ignore_returns (data : list SaleRecord) :
  avgInstallments data = avgInstallments (sales data)
  ∧ avgTerm data = avgTerm (sales data).
Proof.
  assert (Hsales : sales (sales data) = sales data)
    by (unfold sales; apply List_filter_idem).
  unfold avgInstallments, installmentTotals, avgTerm, termTotals.
  by rewrite Hsales.
Qed.




Lemma validDays_range (terms : string) :
  Forall (λ d, 0 < d < 2000)%Z (validDays terms).
Proof.
  apply Forall_forall. intros d Hd. unfold validDays in Hd.
  apply list_elem_of_omap in Hd as (piece & _ & Hd).
  destruct (parseInt10 piece) as [day|]; [|discriminate].
  destruct ((0 <? day)%Z && (day <? 2000)%Z) eqn:Hr; [|discriminate].
  injection Hd as <-. apply andb_true_iff in Hr as [H1%Z.ltb_lt H2%Z.ltb_lt]. lia.
Qed.

Lemma sumZ_range (l : list Z) :
  Forall (λ d, 0 < d < 2000)%Z l →
  (Z.of_nat (length l) <= sumZ l <= 1999 * Z.of_nat (length l))%Z.
Proof.
  induction 1 as [|d l Hd _ IH].
  - unfold sumZ. simpl. lia.
  - rewrite sumZ_cons. cbn [length]. lia.
Qed.

Lemma ofNat_pos (n : nat) : (0 < n)%nat → (0 < ofNat n)%Q.
Proof. intros Hn. unfold ofNat, Qlt. simpl. lia. Qed.

(** X10. When the payment terms hold no due date, the term of the order is
    the plain mean of the day offsets that lie strictly between 0 and 2000,
    so it is 0 (no such offset) or lies strictly between 0 and 2000; it is
    never negative and never [NaN]. *)
Theorem computeOrderTerm_offsets_bounded (r : SaleRecord) :
  dateTokens (paymentTerms r) = [] →
  ∃ d : Q, computeOrderTerm r = Some d ∧ (0 <= d)%Q ∧ (d < 2000)%Q
           ∧ ((d == 0)%Q ↔ validDays (paymentTerms r) = []).
Proof.
  intros Hdates. unfold computeOrderTerm. rewrite Hdates. cbn [length Nat.ltb Nat.leb].
  cbv zeta.
  pose proof (sumZ_range _ (validDays_range (paymentTerms r))) as Hsum.
  destruct (validDays (paymentTerms r)) as [|d0 l] eqn:Hvalid.
  - exists 0%Q. cbn [length Nat.ltb Nat.leb]. repeat split; done.
  - set (valid := d0 :: l) in *.
    change (0 <? length valid)%nat with true. cbv iota.
    assert (Hlen : (0 < length valid)%nat) by (unfold valid; simpl; lia).
    pose proof (ofNat_pos _ Hlen) as Hpos.
    eexists. split; [reflexivity|].
    assert (Hlow : (0 < inject_Z (sumZ valid) / ofNat (length valid))%Q).
    { apply Qlt_shift_div_l; [done|]. rewrite Qmult_0_l.
      unfold Qlt. simpl. lia. }
    split; [by apply Qlt_le_weak|]. split.
    + apply Qlt_shift_div_r; [done|].
      unfold ofNat, Qlt, Qmult. cbn [Qnum Qden inject_Z].
      change (1 * 1)%positive with 1%positive. lia.
    + split; [|discriminate]. intros Heq. rewrite Heq in Hlow.
      by apply Qlt_irrefl in Hlow.
Qed.

(** Terms "30-60-90": the mean of the three offsets. *)
Lemma computeOrderTerm_offsets_bounded_witness :
  ∃ d : Q,
    computeOrderTerm (sampleRow "A" "P1" 100 "1" OpVD "30-60-90" "2025-11-01") = Some d
    ∧ (d == 60)%Q ∧ (0 <= d)%Q ∧ (d < 2000)%Q.
Proof.
  destruct (computeOrderTerm_offsets_bounded
              (sampleRow "A" "P1" 100 "1" OpVD "30-60-90" "2025-11-01") eq_refl)
    as (d & Hd & Hlow & Hhigh & _).
  exists d. split; [exact Hd|]. split; [|split; [exact Hlow|exact Hhigh]].
  vm_compute in Hd. injection Hd as <-. reflexivity.
Defined.

Lemma termStep_nonneg (st : TermAcc.t) (r : SaleRecord) :
  (0 <= amount r)%Q → (0 <= TermAcc.totalWeightedDays st)%Q →
  (0 <= TermAcc.totalWeightedDays (termStep st r))%Q.
Proof.
  intros Hr Hst. unfold termStep.
  destruct (_ && _); [|done].
  destruct (avgDaysForOrder _ r) as [d|]; [|done].
  destruct (Qgeb d 0) eqn:Hd; [|done].
  cbn [TermAcc.totalWeightedDays].
  apply Qle_bool_iff in Hd.
  rewrite <- (Qplus_0_r 0). apply Qplus_le_compat; [done|].
  by apply Qmult_le_0_compat.
Qed.

Lemma termTotals_nonneg (data : list SaleRecord) :
  (∀ r, r ∈ data → operClass r = OpVD → (0 <= amount r)%Q) →
  (0 <= TermAcc.totalWeightedDays (termTotals data))%Q.
Proof.
  intros Hdata. unfold termTotals.
  assert (Hsales : ∀ r, r ∈ sales data → (0 <= amount r)%Q).
  { intros r [Hin Hop]%elem_of_List_filter. apply Hdata; [done|].
    by apply bool_decide_eq_true in Hop. }
  revert Hsales. generalize (sales data) as l. intros l.
  assert (Hgen : ∀ st, (0 <= TermAcc.totalWeightedDays st)%Q →
            (∀ r, r ∈ l → (0 <= amount r)%Q) →
            (0 <= TermAcc.totalWeightedDays (fold_left termStep l st))%Q).
  { induction l as [|r l IH]; intros st Hst Hl; simpl; [done|].
    apply IH.
    - apply termStep_nonneg; [apply Hl; by left | done].
    - intros r' Hr'. apply Hl. by right. }
  apply Hgen. done.
Qed.

Lemma installmentTotals_nonneg (data : list SaleRecord) :
  (∀ r, r ∈ data → operClass r = OpVD → (0 <= amount r)%Q) →
  (0 <= fst (installmentTotals data))%Q.
Proof.
  intros Hdata. unfold installmentTotals.
  assert (Hsales : ∀ r, r ∈ sales data → (0 <= amount r)%Q).
  { intros r [Hin Hop]%elem_of_List_filter. apply Hdata; [done|].
    by apply bool_decide_eq_true in Hop. }
  revert Hsales. generalize (sales data) as l. intros l.
  assert (Hgen : ∀ acc : Q * Q, (0 <= fst acc)%Q →
            (∀ r, r ∈ l → (0 <= amount r)%Q) →
            (0 <= fst (fold_left
               (fun '(totalWeightedInstallments, totalSalesForInstallments) r =>
                  if negb (String.eqb (paymentTerms r) "") then
                    let count := installmentCount (paymentTerms r) in
                    if (0 <? count)%nat
                    then ((totalWeightedInstallments + ofNat count * amount r)%Q,
                          (totalSalesForInstallments + amount r)%Q)
                    else (totalWeightedInstallments, totalSalesForInstallments)
                  else (totalWeightedInstallments, totalSalesForInstallments))
               l acc))%Q).
  { induction l as [|r l IH]; intros [tw ts] Hacc Hl; simpl; [done|].
    apply IH; [|intros r' Hr'; apply Hl; by right].
    destruct (negb _); [|done]. destruct (0 <? _)%nat; [|done]. simpl in *.
    rewrite <- (Qplus_0_r 0). apply Qplus_le_compat; [done|].
    apply Qmult_le_0_compat; [|apply Hl; by left].
    unfold ofNat, Qle. simpl. lia. }
  apply Hgen; done.
Qed.

(** X11. When no SALE row has a negative amount, neither the average term
    nor the average number of instalments is negative. *)
Theorem term_averages_nonneg (data : list SaleRecord) :
  (∀ r, r ∈ data → operClass r = OpVD → (0 <= amount r)%Q) →
  (0 <= avgTerm data)%Q ∧ (0 <= avgInstallments data)%Q.
Proof.
  intros Hdata. split.
  - unfold avgTerm. cbv zeta.
    destruct (Qgtb (TermAcc.totalSalesForTerm (termTotals data)) 0) eqn:Hts; [|done].
    apply Qgtb_0_lt in Hts.
    apply Qle_shift_div_l; [done|]. rewrite Qmult_0_l.
    by apply termTotals_nonneg.
  - unfold avgInstallments.
    pose proof (installmentTotals_nonneg data Hdata) as Htw.
    destruct (installmentTotals data) as [tw ts]. simpl in Htw.
    destruct (Qgtb ts 0) eqn:Hts; [|done].
    apply Qgtb_0_lt in Hts.
    apply Qle_shift_div_l; [done|]. by rewrite Qmult_0_l.
Qed.

(** One sale of 100 at 30 days and one return. *)
Lemma term_averages_nonneg_witness :
  let data :=
    [sampleRow "A" "P1" 100 "1" OpVD "30" "2025-11-01";
     sampleRow "A" "P1" (-100) "1" OpDV "" "2025-11-02"] in
  (0 <= avgTerm data)%Q ∧ (0 <= avgInstallments data)%Q.
Proof.
  cbv zeta. apply term_averages_nonneg.
  intros r Hr Hop.
  apply elem_of_cons in Hr as [->|Hr]; [by vm_compute|].
  apply elem_of_cons in Hr as [->|Hr]; [discriminate Hop|].
  by apply elem_of_nil in Hr.
Defined.

Lemma countDistinct_subseteq (l k : list string) :
  (∀ x, x ∈ l → x ∈ k) → (countDistinct l <= countDistinct k)%nat.
Proof.
  intros Hsub. rewrite <- !size_list_to_set_distinct.
  apply subseteq_size. intros x. rewrite !elem_of_list_to_set. apply Hsub.
Qed.

Lemma countDistinct_length (l : list string) : (countDistinct l <= length l)%nat.
Proof.
  unfold countDistinct. induction l as [|x l IH]; simpl; [done|].
  destruct (decide_rel _ x l); simpl; lia.
Qed.

(** X12. Positivacao never exceeds the number of distinct clients of the
    list, which never exceeds the number of rows. *)
Theorem positivacao_bounded (data : list SaleRecord) :
  (positivacao data <= countDistinct (List.map cnpj data))%nat
  ∧ (countDistinct (List.map cnpj data) <= length data)%nat.
Proof.
  split.
  - rewrite positivacao_size, <- size_list_to_set_distinct.
    apply subseteq_size. intros c Hc.
    apply elem_of_positivated in Hc as [Hc _]. by apply elem_of_list_to_set.
  - etrans; [apply countDistinct_length|]. by rewrite length_map.
Qed.

Lemma sumZ_map_bounds {A} (f : A → Z) (bound : Z) (l : list A) :
  (∀ x, x ∈ l → 0 <= f x <= bound)%Z →
  (0 <= sumZ (List.map f l) <= bound * Z.of_nat (length l))%Z.
Proof.
  induction l as [|x l IH]; intros Hall.
  - unfold sumZ. simpl. lia.
  - cbn [List.map length]. rewrite sumZ_cons.
    pose proof (Hall x ltac:(by left)).
    pose proof (IH ltac:(intros y Hy; apply Hall; by right)). lia.
Qed.

(** X13. SKU x PDV is never negative and never exceeds the number of
    distinct product codes sold in the list. *)
Theorem skuPerPdv_bounded (data : list SaleRecord) :
  (0 <= skuPerPdv data)%Q
  ∧ (skuPerPdv data <= ofNat (countDistinct (List.map productCode (sales data))))%Q.
Proof.
  rewrite skuPerPdv_formula.
  set (K := countDistinct (List.map productCode (sales data))).
  assert (HK : (0 <= ofNat K)%Q) by (unfold ofNat, Qle; simpl; lia).
  destruct (size (positivated data)) as [|n] eqn:Hsize; [by split|].
  cbn [Nat.eqb]. rewrite <- Hsize.
  assert (Hpos : (0 < ofNat (size (positivated data)))%Q)
    by (apply ofNat_pos; lia).
  pose proof (sumZ_map_bounds (fun c => clientNetSkus c data) (Z.of_nat K)
                (elements (positivated data))) as Hsum.
  assert (Hlen : length (elements (positivated data)) = size (positivated data))
    by reflexivity.
  rewrite Hlen in Hsum.
  destruct Hsum as [Hlow Hhigh].
  { intros c _. unfold clientNetSkus.
    assert (countDistinct (productCodesOf c OpVD data) <= K)%nat; [|lia].
    apply countDistinct_subseteq. intros x Hx.
    unfold productCodesOf in Hx. unfold sales.
    apply list_elem_of_In, in_map_iff in Hx as (r & <- & Hr).
    apply list_elem_of_In, in_map_iff. exists r. split; [done|].
    apply filter_In in Hr as [Hr Hp]. apply filter_In. split; [done|].
    by apply andb_true_iff in Hp as [_ ?]. }
  split.
  - apply Qle_shift_div_l; [done|]. rewrite Qmult_0_l.
    unfold Qle. simpl. lia.
  - apply Qle_shift_div_r; [done|].
    unfold ofNat, Qle, Qmult. simpl. lia.
Qed.

(** ** Sorting with a comparator *)

Section SortByKey.
Context {A : Type} (f : A → Q).

(** Descending order of [f]: no element is followed by a larger one. *)
Definition descBy (a b : A) : Prop := (f b <= f a)%Q.

Lemma insertBy_HdRel (a x : A) (l : list A) :
  HdRel descBy a l → descBy a x →
  HdRel descBy a (insertBy (fun a b => (f b - f a)%Q) x l).
Proof.
  intros Hl Hx. destruct l as [|y l]; simpl; [by constructor|].
  destruct (Qgtb (f y - f x) 0); constructor; [|done].
  by inversion Hl.
Qed.

Lemma insertBy_Sorted (x : A) (l : list A) :
  Sorted descBy l → Sorted descBy (insertBy (fun a b => (f b - f a)%Q) x l).
Proof.
  induction 1 as [|y l Hl IH Hy]; simpl; [by repeat constructor|].
  destruct (Qgtb (f y - f x) 0) eqn:Hcmp.
  - constructor; [exact IH|]. apply insertBy_HdRel; [done|].
    apply Qgtb_0_lt in Hcmp. unfold descBy, Qminus in *.
    apply Qlt_le_weak. by rewrite <- Qlt_minus_iff in Hcmp.
  - constructor; [by constructor|]. constructor. unfold descBy.
    apply Qnot_lt_le. intros Hlt. rewrite Qlt_minus_iff in Hlt.
    apply Qgtb_0_lt in Hlt. unfold Qminus in Hcmp. congruence.
Qed.

(** The sort leaves its output in descending order of [f]. *)
Lemma sortBy_Sorted (l : list A) :
  Sorted descBy (sortBy (fun a b => (f b - f a)%Q) l).
Proof.
  induction l as [|x l IH]; simpl; [constructor|]. by apply insertBy_Sorted.
Qed.

(** Being stable, the sort leaves a list alone that is already in
    descending order. *)
Lemma sortBy_sorted_id (l : list A) :
  Sorted descBy l → sortBy (fun a b => (f b - f a)%Q) l = l.
Proof.
  induction 1 as [|x l Hl IH Hx]; simpl; [done|].
  rewrite IH. destruct Hx as [|y l Hxy]; simpl; [done|].
  assert (Hcmp : Qgtb (f y - f x) 0 = false); [|by rewrite Hcmp].
  apply not_true_iff_false. rewrite Qgtb_0_lt. unfold Qminus.
  rewrite <- Qlt_minus_iff. by apply Qle_not_lt.
Qed.
End SortByKey.

(** ** Pivot builder *)

Lemma NoDup_sortStrings_arrayFromSet (l : list string) :
  NoDup (sortStrings (arrayFromSet l)).
Proof.
  unfold sortStrings. rewrite merge_sort_Permutation. apply NoDup_arrayFromSet.
Qed.

Lemma elem_of_pivotSectors (data : list SaleRecord) (s : string) :
  s ∈ pivotSectors data ↔ s ∈ List.map sector data.
Proof. unfold pivotSectors. by rewrite elem_of_sortStrings, elem_of_arrayFromSet. Qed.

(** X14. The pivot has exactly one row for each distinct sector of the
    collection, the rows come in descending order of their averaged
    revenue, and its month keys are the distinct year-month prefixes of the
    dates, in strictly ascending order. *)
Theorem pivot_rows_one_per_sector (data : list SaleRecord) :
  let pivot := getSectorPivotData data in
  NoDup (List.map PivotRow.sector (PivotData.rows pivot))
  ∧ (∀ s : string,
       s ∈ List.map PivotRow.sector (PivotData.rows pivot) ↔ s ∈ List.map sector data)
  ∧ Sorted (λ a b, (KPIStats.totalRevenue (PivotRow.total b)
                    <= KPIStats.totalRevenue (PivotRow.total a))%Q)
      (PivotData.rows pivot)
  ∧ StronglySorted (λ a b, strLt a b = true) (PivotData.months pivot)
  ∧ (∀ m : string,
       m ∈ PivotData.months pivot ↔ m ∈ List.map (fun r => monthOf (date r)) data).
Proof.
  cbv zeta. unfold getSectorPivotData. cbv zeta.
  cbn [PivotData.rows PivotData.months].
  assert (Hsec : List.map PivotRow.sector
            (sortBy (fun a b => (KPIStats.totalRevenue (PivotRow.total b)
                                 - KPIStats.totalRevenue (PivotRow.total a))%Q)
               (List.map (fun sector' =>
                  PivotRow.mk sector'
                    (statsByMonth
                       (sortStrings (arrayFromSet
                          (List.map (fun r => monthOf (date r)) data)))
                       (List.filter (fun r => String.eqb (sector r) sector') data))
                    (calculateAverageOfMonths
                       (statsByMonth
                          (sortStrings (arrayFromSet
                             (List.map (fun r => monthOf (date r)) data)))
                          (List.filter (fun r => String.eqb (sector r) sector') data))))
                  (sortStrings (arrayFromSet (List.map sector data)))))
          ≡ₚ pivotSectors data).
  { rewrite (Permutation_map _ (sortBy_Permutation _ _)).
    rewrite List.map_map. simpl. by rewrite List.map_id. }
  split; [|split; [|split; [|split]]].
  - rewrite Hsec. apply NoDup_sortStrings_arrayFromSet.
  - intros s. rewrite Hsec. apply elem_of_pivotSectors.
  - apply (sortBy_Sorted (fun row => KPIStats.totalRevenue (PivotRow.total row))).
  - apply sortStrings_strict, NoDup_arrayFromSet.
  - intros m. by rewrite elem_of_sortStrings, elem_of_arrayFromSet.
Qed.

(** ** Pivot builder: averages and totals *)

Lemma getKey_zero (key : KPIKey) : getKey key (KPIStats.mk 0 0 0 0 0 0 0) = 0%Q.
Proof. by destruct key. Qed.

Lemma getKey_average (key : KPIKey) (monthDataMap : gmap string KPIStats.t) :
  getKey key (calculateAverageOfMonths monthDataMap)
  = (fold_left (fun sum m =>
         match monthDataMap !! m with
         | Some stats => (sum + getKey key stats)%Q
         | None => sum
         end) closedMonths 0%Q / 3)%Q.
Proof. by destruct key. Qed.

Lemma bool_decide_months (data : list SaleRecord) (m : string) :
  bool_decide (m ∈ sortStrings (arrayFromSet (List.map (fun r => monthOf (date r)) data)))
  = bool_decide (m ∈ List.map (fun r => monthOf (date r)) data).
Proof. apply bool_decide_ext. by rewrite elem_of_sortStrings, elem_of_arrayFromSet. Qed.

Lemma rowAverage_sectorMonthValue (data : list SaleRecord) (key : KPIKey)
    (sector' : string) :
  let sectorRecords := List.filter (fun r => String.eqb (sector r) sector') data in
  let months :=
    sortStrings (arrayFromSet (List.map (fun r => monthOf (date r)) data)) in
  (getKey key (calculateAverageOfMonths (statsByMonth months sectorRecords))
   == (sectorMonthValue data key "2025-08" sector'
       + sectorMonthValue data key "2025-09" sector'
       + sectorMonthValue data key "2025-10" sector') / 3)%Q.
Proof.
  cbv zeta. rewrite getKey_average. unfold closedMonths. cbn [fold_left].
  rewrite !statsByMonth_lookup, !bool_decide_months. unfold sectorMonthValue.
  destruct (bool_decide ("2025-08" ∈ _)), (bool_decide ("2025-09" ∈ _)),
    (bool_decide ("2025-10" ∈ _)); field.
Qed.

(** X15. The total of every pivot row is, for each indicator, one third of
    the sum of the sector's values in August, September and October 2025: a
    month in which the collection has no row counts as 0, the divisor is 3
    whatever the number of months present, and November never enters. *)
Theorem pivot_row_total_thirds (data : list SaleRecord) (key : KPIKey) :
  Forall (fun row =>
      getKey key (PivotRow.total row)
      == (sectorMonthValue data key "2025-08" (PivotRow.sector row)
          + sectorMonthValue data key "2025-09" (PivotRow.sector row)
          + sectorMonthValue data key "2025-10" (PivotRow.sector row)) / 3)%Q
    (PivotData.rows (getSectorPivotData data)).
Proof.
  apply Forall_forall. intros row Hrow.
  unfold getSectorPivotData in Hrow. cbv zeta in Hrow. cbn [PivotData.rows] in Hrow.
  rewrite sortBy_Permutation in Hrow.
  apply list_elem_of_fmap in Hrow as (sector' & -> & _).
  cbn [PivotRow.total PivotRow.sector]. apply rowAverage_sectorMonthValue.
Qed.













(** ** Months: buckets and the header cards *)



(** For a month key of seven characters, [startsWith] and the comparison of
    the year-month prefix select the same rows. *)
Lemma startsWith_month (s m : string) :
  String.length m = 7 → startsWith s m = String.eqb (monthOf s) m.
Proof.
  intros Hm. apply eq_true_iff_eq. unfold startsWith, monthOf.
  by rewrite String.prefix_correct, String.eqb_eq, Hm.
Qed.

Lemma filter_month_eq (data : list SaleRecord) (m : string) :
  String.length m = 7 →
  List.filter (fun r => startsWith (date r) m) data
  = List.filter (fun r => String.eqb (monthOf (date r)) m) data.
Proof. intros Hm. apply List.filter_ext. intros r. by apply startsWith_month. Qed.

Lemma filter_month_nil (data : list SaleRecord) (m : string) :
  String.length m = 7 → m ∉ List.map (fun r => monthOf (date r)) data →
  List.filter (fun r => startsWith (date r) m) data = [].
Proof.
  intros Hm Hnin. rewrite filter_month_eq by done.
  induction data as [|r data IH]; [done|]. cbn [List.filter].
  destruct (String.eqb_spec (monthOf (date r)) m) as [Heq|_].
  - exfalso. apply Hnin. cbn [List.map]. rewrite <- Heq. by left.
  - apply IH. intros Hin. apply Hnin. cbn [List.map]. by right.
Qed.



Lemma strLe_trans (a b c : string) :
  strLe a b = true → strLe b c = true → strLe a c = true.
Proof.
  unfold strLe. intros Hab Hbc. apply Is_true_true.
  apply Is_true_true in Hab, Hbc.
  exact (transitivity (R := String.le) Hab Hbc).
Qed.

(** Filtering one month out of a filtered collection is filtering the
    collection with the range narrowed to the month, as long as the month
    lies in the range. *)
Lemma filterPred_month (F : FilterState.t) (m : string) (r : SaleRecord) :
  String.length m = 7 →
  strLe (FilterState.startMonth F) m = true →
  strLe m (FilterState.endMonth F) = true →
  filterPred (withRange m m F) r = filterPred F r && startsWith (date r) m.
Proof.
  intros Hm Hstart Hend. rewrite startsWith_month by done.
  unfold filterPred, withRange. cbv zeta.
  cbn [FilterState.division FilterState.region FilterState.sector
       FilterState.salesRep FilterState.channel FilterState.supplier
       FilterState.startMonth FilterState.endMonth].
  rewrite <- !andb_assoc. do 6 f_equal.
  unfold strGe. fold (strLe m (monthOf (date r))).
  fold (strLe (FilterState.startMonth F) (monthOf (date r))).
  destruct (String.eqb_spec (monthOf (date r)) m) as [->|Hne].
  - by rewrite strLe_refl, Hstart, Hend.
  - rewrite !andb_false_r.
    destruct (strLe m (monthOf (date r))) eqn:H1; [|done].
    destruct (strLe (monthOf (date r)) m) eqn:H2; [|done].
    exfalso. apply Hne. by apply String.leb_antisym.
Qed.

Lemma filterData_month (allData : list SaleRecord) (F : FilterState.t) (m : string) :
  String.length m = 7 →
  strLe (FilterState.startMonth F) m = true →
  strLe m (FilterState.endMonth F) = true →
  List.filter (fun r => startsWith (date r) m) (filterData allData F)
  = filterData allData (withRange m m F).
Proof.
  intros Hm Hstart Hend. unfold filterData.
  induction allData as [|r data IH]; [done|]. cbn [List.filter].
  rewrite (filterPred_month F m r) by done.
  destruct (filterPred F r); cbn [List.filter andb]; [|exact IH].
  destruct (startsWith (date r) m); by rewrite IH.
Qed.

Lemma closedMonth_term (data : list SaleRecord) (key : KPIKey) (m : string) (sum : Q) :
  String.length m = 7 →
  (match statsByMonth
           (sortStrings (arrayFromSet (List.map (fun r => monthOf (date r)) data)))
           data !! m with
   | Some stats => sum + getKey key stats
   | None => sum
   end
   == sum + getKey key
        (calculateStatsInternal
           (List.filter (fun r => startsWith (date r) m) data)))%Q.
Proof.
  intros Hm. rewrite statsByMonth_lookup, bool_decide_months.
  destruct (decide (m ∈ List.map (fun r => monthOf (date r)) data)) as [Hin|Hnin].
  - by rewrite bool_decide_true.
  - rewrite bool_decide_false by done.
    rewrite filter_month_nil, calculateStatsInternal_nil, getKey_zero by done. ring.
Qed.

(** X19. As long as the filter range covers August to October 2025, the
    history average behind the header cards ([avgHistoryKPIs], each closed
    month filtered from all rows) is, for every indicator, the grand total
    of the pivot built from the filtered period. *)
Theorem avgHistory_is_pivot_grand_total (allData : list SaleRecord)
    (F : FilterState.t) (key : KPIKey) :
  strLe (FilterState.startMonth F) "2025-08" = true →
  strLe "2025-10" (FilterState.endMonth F) = true →
  (getKey key (avgHistoryKPIs allData F)
   == getKey key (PivotData.grandTotal (getSectorPivotData (filterData allData F))))%Q.
Proof.
  intros Hstart Hend.
  assert (H89 : strLe "2025-08" "2025-09" = true) by reflexivity.
  assert (H90 : strLe "2025-09" "2025-10" = true) by reflexivity.
  pose proof (strLe_trans _ _ _ Hstart H89) as Hstart9.
  pose proof (strLe_trans _ _ _ Hstart9 H90) as Hstart10.
  pose proof (strLe_trans _ _ _ H90 Hend) as Hend9.
  pose proof (strLe_trans _ _ _ H89 Hend9) as Hend8.
  unfold getSectorPivotData. cbv zeta. cbn [PivotData.grandTotal].
  rewrite getKey_average. unfold closedMonths. cbn [fold_left].
  rewrite (closedMonth_term _ key "2025-10") by reflexivity.
  rewrite (closedMonth_term _ key "2025-09") by reflexivity.
  rewrite (closedMonth_term _ key "2025-08") by reflexivity.
  rewrite !filterData_month by (reflexivity || assumption).
  unfold avgHistoryKPIs, calculateKPIs. cbv zeta.
  destruct key; cbn [getKey KPIStats.totalRevenue KPIStats.positivacao
    KPIStats.totalOrders KPIStats.averageTicket KPIStats.skuPerPdv
    KPIStats.avgInstallments KPIStats.avgTerm List.map fold_left]; reflexivity.
Qed.

(** The initial range of the panel, August to November 2025. *)
Lemma avgHistory_is_pivot_grand_total_witness :
  let F := FilterState.mk [] [] [] [] [] [] "2025-08" "2025-11" in
  let allData :=
    [sampleRow "A" "P1" 100 "1" OpVD "30" "2025-08-03";
     sampleRow "B" "P2" 50 "2" OpVD "30" "2025-11-05"] in
  (getKey KTotalRevenue (avgHistoryKPIs allData F)
   == getKey KTotalRevenue
        (PivotData.grandTotal (getSectorPivotData (filterData allData F))))%Q.
Proof.
  cbv zeta. apply avgHistory_is_pivot_grand_total; reflexivity.
Defined.

(** ** Selections, filters and pages *)

Lemma elem_of_toggleOption (selected : list string) (option x : string) :
  x ∈ toggleOption selected option
  ↔ if decide (x = option) then option ∉ selected else x ∈ selected.
Proof.
  unfold toggleOption. destruct (includes selected option) eqn:Hinc.
  - apply includes_elem_of in Hinc. rewrite elem_of_List_filter.
    destruct (decide (x = option)) as [->|Hne].
    + rewrite String.eqb_refl. split; [intros [_ ?]; done | done].
    + apply String.eqb_neq in Hne. rewrite Hne. tauto.
  - assert (Hnin : option ∉ selected).
    { intros Hin. apply includes_elem_of in Hin. congruence. }
    rewrite elem_of_app, list_elem_of_singleton.
    destruct (decide (x = option)) as [->|Hne]; [tauto|].
    tauto.
Qed.

(** A filter decides by membership only. *)
Lemma matches_ext (v : string) (l k : list string) :
  (∀ x, x ∈ l ↔ x ∈ k) → matches v l = matches v k.
Proof.
  intros Hext.
  assert (Hinc : ∀ x, includes l x = includes k x).
  { intros x. apply eq_true_iff_eq. by rewrite !includes_elem_of. }
  unfold matches. rewrite !Hinc.
  destruct l as [|a l], k as [|b k]; try done.
  - exfalso. apply (not_elem_of_nil b), Hext. by left.
  - exfalso. apply (not_elem_of_nil a), Hext. by left.
Qed.

Lemma filterData_withValues_ext (data : list SaleRecord) (F : FilterState.t)
    (key : Dimension) (l k : list string) :
  (∀ r, r ∈ data → matches (fieldOf key r) l = matches (fieldOf key r) k) →
  filterData data (withValues key l F) = filterData data (withValues key k F).
Proof.
  intros Hext. unfold filterData.
  induction data as [|r data IH]; [done|]. cbn [List.filter].
  rewrite IH by (intros r' Hr'; apply Hext; by right).
  assert (Hr : filterPred (withValues key l F) r = filterPred (withValues key k F) r).
  { apply eq_true_iff_eq. rewrite !filterPred_withValues.
    rewrite (Hext r) by (by left). done. }
  by rewrite Hr.
Qed.

(** X20. Toggling an option flips its membership in the selection and no
    other; toggling it twice gives a selection with the same members, so a
    filter set from it keeps the same rows. *)
Theorem toggleOption_flips_membership (selected : list string) (option : string) :
  (option ∈ toggleOption selected option ↔ option ∉ selected)
  ∧ (∀ x, x ≠ option → (x ∈ toggleOption selected option ↔ x ∈ selected))
  ∧ (∀ x, x ∈ toggleOption (toggleOption selected option) option ↔ x ∈ selected)
  ∧ (∀ data F key,
       filterData data
         (withValues key (toggleOption (toggleOption selected option) option) F)
       = filterData data (withValues key selected F)).
Proof.
  assert (Htwice : ∀ x,
    x ∈ toggleOption (toggleOption selected option) option ↔ x ∈ selected).
  { intros x. rewrite elem_of_toggleOption.
    destruct (decide (x = option)) as [->|Hne].
    - rewrite elem_of_toggleOption. rewrite decide_True by done.
      destruct (decide (option ∈ selected)); tauto.
    - rewrite elem_of_toggleOption. by rewrite decide_False. }
  split; [|split; [|split]].
  - rewrite elem_of_toggleOption. by rewrite decide_True.
  - intros x Hne. rewrite elem_of_toggleOption. by rewrite decide_False.
  - exact Htwice.
  - intros data F key. apply filterData_withValues_ext. intros r _.
    by apply matches_ext.
Qed.

Lemma channelText_nonempty (c : Channel) : String.eqb (channelText c) "" = false.
Proof. by destruct c. Qed.

Lemma channelText_not_all (c : Channel) : channelText c ≠ "all".
Proof. by destruct c. Qed.

Lemma elem_of_availableChannels (allData : list SaleRecord) (v : string) :
  v ∈ availableChannels allData
  ↔ ∃ r, r ∈ allData ∧ channelText (channel r) = v.
Proof.
  unfold availableChannels, filterBoolean.
  rewrite elem_of_sortStrings, elem_of_arrayFromSet, elem_of_List_filter,
    list_elem_of_fmap.
  split.
  - intros [(r & -> & Hr) _]. by exists r.
  - intros (r & Hr & <-). split; [by exists r|]. by rewrite channelText_nonempty.
Qed.

(** X21. Selecting every available channel restricts nothing: a filter
    whose channels are all the channels of the data keeps the rows that
    the filter without a channel keeps, and so does whatever [toggleAll]
    hands back for the channel list. *)
Theorem all_channels_is_no_filter (allData : list SaleRecord) (F : FilterState.t)
    (selected : list string) :
  filterData allData (withValues DChannel (availableChannels allData) F)
  = filterData allData (unconstrain DChannel F)
  ∧ filterData allData
      (withValues DChannel (toggleAll selected (availableChannels allData)) F)
    = filterData allData (unconstrain DChannel F).
Proof.
  assert (Hall : filterData allData (withValues DChannel (availableChannels allData) F)
                 = filterData allData (unconstrain DChannel F)).
  { apply filterData_withValues_ext. intros r Hr. cbn [fieldOf].
    unfold matches at 2. cbn [length Nat.eqb orb].
    unfold matches.
    destruct ((length (availableChannels allData) =? 0)%nat
              || includes (availableChannels allData) "all"); [done|].
    apply includes_elem_of, elem_of_availableChannels. by exists r. }
  split; [exact Hall|].
  unfold toggleAll. by destruct (_ =? _)%nat.
Qed.

Lemma matches_one (x v : string) :
  matches x (if String.eqb v "all" then [] else [v]) = true ↔ v = "all" ∨ x = v.
Proof.
  destruct (String.eqb_spec v "all") as [->|Hne]; [by split; [left|]|].
  unfold matches, includes. cbn [length Nat.eqb existsb orb].
  destruct (String.eqb_spec "all" v) as [Heq|_]; [by exfalso|].
  destruct (String.eqb_spec x v) as [->|Hx]; cbn.
  - split; [by right|done].
  - split; [done|]. by intros [?|?].
Qed.

(** X22. Choosing a value in one of the filter selects keeps the rows that
    pass the other filters and the date range and carry the value; choosing
    "all" keeps all that pass the others. *)
Theorem handleFilterChange_selects (data : list SaleRecord) (F : FilterState.t)
    (key : Dimension) (value : string) (r : SaleRecord) :
  r ∈ filterData data (handleFilterChange key value F)
  ↔ r ∈ data ∧ passesOthers F key r ∧ (value = "all" ∨ fieldOf key r = value).
Proof.
  unfold filterData, handleFilterChange.
  rewrite elem_of_List_filter, filterPred_withValues, matches_one. tauto.
Qed.

Lemma matches_nil (v : string) : matches v [] = true.
Proof. reflexivity. Qed.

Lemma filterPred_clearFilters (F : FilterState.t) (r : SaleRecord) :
  filterPred F r = true → filterPred (clearFilters F) r = true.
Proof.
  unfold filterPred, clearFilters. cbv zeta.
  cbn [FilterState.division FilterState.region FilterState.sector
       FilterState.salesRep FilterState.channel FilterState.supplier
       FilterState.startMonth FilterState.endMonth].
  rewrite !matches_nil, !andb_true_iff. tauto.
Qed.

(** Clearing the sector, representative and supplier filters only widens
    the selection: every row kept before is kept after, and filtering the
    widened selection with the former filters gives the former
    selection. *)
Lemma clearFilters_widens (data : list SaleRecord) (F : FilterState.t) :
  (∀ r, r ∈ filterData data F → r ∈ filterData data (clearFilters F))
  ∧ filterData (filterData data (clearFilters F)) F = filterData data F
  ∧ clearFilters (clearFilters F) = clearFilters F.
Proof.
  split; [|split; [|reflexivity]].
  - intros r. unfold filterData. rewrite !elem_of_List_filter.
    intros [Hr HF]. split; [done|]. by apply filterPred_clearFilters.
  - unfold filterData. induction data as [|r data IH]; [done|]. cbn [List.filter].
    destruct (filterPred (clearFilters F) r) eqn:Hc; cbn [List.filter].
    + by rewrite IH.
    + rewrite IH. destruct (filterPred F r) eqn:HF; [|done].
      apply filterPred_clearFilters in HF. congruence.
Qed.

Lemma totalPages_div {A} (currentData : list A) :
  totalPages currentData = (length currentData + 29) / 30.
Proof.
  unfold totalPages, ITEMS_PER_PAGE.
  change (ofNat 30) with (30 # 1)%Q.
  unfold ofNat, Qceiling, Qfloor, Qdiv, Qmult, Qinv, Qopp.
  cbn [Qnum Qden inject_Z Pos.mul].
  change (Z.pos (1 * 30)) with 30%Z.
  set (n := Z.of_nat (length currentData)).
  apply Nat2Z.inj. rewrite Nat2Z.inj_div, Nat2Z.inj_add. fold n.
  change (Z.of_nat 29) with 29%Z. change (Z.of_nat 30) with 30%Z.
  assert (Hn : (0 <= n)%Z) by (unfold n; lia).
  pose proof (Z.div_mod (- (n * 1)) 30 ltac:(lia)) as H1.
  pose proof (Z.mod_pos_bound (- (n * 1)) 30 ltac:(lia)) as H2.
  pose proof (Z.div_mod (n + 29) 30 ltac:(lia)) as H3.
  pose proof (Z.mod_pos_bound (n + 29) 30 ltac:(lia)) as H4.
  rewrite Z2Nat.id by lia. lia.
Qed.

Lemma pages_concat {A} (l : list A) (k : nat) :
  concat (List.map (paginatedData l) (seq 1 k)) = take (k * 30) l.
Proof.
  induction k as [|k IH]; [done|].
  rewrite seq_S, List.map_app, concat_app, IH. cbn [List.map concat Nat.add].
  rewrite app_nil_r. unfold paginatedData, slice, ITEMS_PER_PAGE.
  replace (S k - 1) with k by lia.
  replace (S k * 30 - k * 30) with 30 by lia.
  rewrite take_take_drop. f_equal. lia.
Qed.

(** X23. The pages of a table cut it without loss or overlap: laid end to
    end, pages 1 to [totalPages] give the table back; no page has more than
    30 rows, every page from 1 to [totalPages] has at least one, and a page
    beyond has none. *)
Theorem pages_cover_the_table {A} (currentData : list A) :
  concat (List.map (paginatedData currentData) (seq 1 (totalPages currentData)))
  = currentData
  ∧ (∀ page, length (paginatedData currentData page) <= ITEMS_PER_PAGE)
  ∧ (∀ page, 1 <= page <= totalPages currentData →
       paginatedData currentData page ≠ [])
  ∧ (∀ page, totalPages currentData < page → paginatedData currentData page = []).
Proof.
  pose proof (totalPages_div currentData) as Hpages.
  pose proof (Nat.div_mod (length currentData + 29) 30 ltac:(lia)) as Hdiv.
  pose proof (Nat.mod_upper_bound (length currentData + 29) 30 ltac:(lia)) as Hmod.
  rewrite <- Hpages in Hdiv.
  split; [|split; [|split]].
  - rewrite pages_concat. apply take_ge. lia.
  - intros page. unfold paginatedData, slice, ITEMS_PER_PAGE.
    rewrite length_take. lia.
  - intros page Hpage Hnil. apply (f_equal length) in Hnil.
    unfold paginatedData, slice, ITEMS_PER_PAGE in Hnil.
    rewrite length_take, length_drop in Hnil. cbn [length] in Hnil. lia.
  - intros page Hpage. apply length_zero_iff_nil.
    unfold paginatedData, slice, ITEMS_PER_PAGE.
    rewrite length_take, length_drop. lia.
Qed.

Lemma elem_of_distinct_values (f : SaleRecord → string) (data : list SaleRecord)
    (v : string) :
  v ∈ sortStrings (arrayFromSet (filterBoolean (List.map f data)))
  ↔ v ≠ "" ∧ ∃ r, r ∈ data ∧ f r = v.
Proof.
  unfold filterBoolean.
  rewrite elem_of_sortStrings, elem_of_arrayFromSet, elem_of_List_filter,
    list_elem_of_fmap, negb_true_iff, String.eqb_neq.
  split.
  - intros [(r & -> & Hr) Hne]. split; [done|]. by exists r.
  - intros [Hne (r & Hr & <-)]. split; [by exists r|done].
Qed.

(** X24. The divisions offered by the set-up screen: none as long as no
    region is selected; otherwise the non-empty divisions, in strictly
    ascending order, of the rows whose region is selected and whose channel
    is selected when any is. The regions offered are the non-empty regions
    of the rows whose channel is selected when any is. Unlike in the filter
    engine, an empty region selection offers no division and the value
    "all" has no special meaning. *)
Theorem availableDivisions_exact (allData : list SaleRecord)
    (selectedRegions selectedChannels : list string) :
  let divisions := availableDivisions allData selectedRegions selectedChannels in
  StronglySorted (λ a b, strLt a b = true) divisions
  ∧ (∀ d : string,
       d ∈ divisions ↔
       selectedRegions ≠ [] ∧ d ≠ ""
       ∧ ∃ r, r ∈ allData
              ∧ (selectedChannels = [] ∨ channelText (channel r) ∈ selectedChannels)
              ∧ region r ∈ selectedRegions ∧ division r = d)
  ∧ (∀ g : string,
       g ∈ availableRegions allData selectedChannels ↔
       g ≠ ""
       ∧ ∃ r, r ∈ allData
              ∧ (selectedChannels = [] ∨ channelText (channel r) ∈ selectedChannels)
              ∧ region r = g).
Proof.
  assert (Hregions : ∀ g : string,
       g ∈ availableRegions allData selectedChannels ↔
       g ≠ ""
       ∧ ∃ r, r ∈ allData
              ∧ (selectedChannels = [] ∨ channelText (channel r) ∈ selectedChannels)
              ∧ region r = g).
  { intros g. unfold availableRegions. cbv zeta. rewrite elem_of_distinct_values.
    destruct selectedChannels as [|ch chs]; cbn [length Nat.ltb Nat.leb].
    - split; intros [Hne (r & Hr & Hg)]; (split; [done|]); exists r; [|tauto].
      split; [done|]. split; [by left|done].
    - split.
      + intros [Hne (r & [Hr Hch%includes_elem_of]%elem_of_List_filter & Hg)].
        split; [done|]. exists r. split; [done|]. split; [by right|done].
      + intros [Hne (r & Hr & [?|Hch] & Hg)]; [done|]. split; [done|].
        exists r. split; [|done]. apply elem_of_List_filter.
        split; [done|]. by apply includes_elem_of. }
  cut (let divisions := availableDivisions allData selectedRegions selectedChannels in
       StronglySorted (λ a b, strLt a b = true) divisions
       ∧ (∀ d : string,
            d ∈ divisions ↔
            selectedRegions ≠ [] ∧ d ≠ ""
            ∧ ∃ r, r ∈ allData
                   ∧ (selectedChannels = []
                      ∨ channelText (channel r) ∈ selectedChannels)
                   ∧ region r ∈ selectedRegions ∧ division r = d)).
  { cbv zeta. intros [H1 H2]. split; [exact H1|]. split; [exact H2|exact Hregions]. }
  clear Hregions.
  cbv zeta. unfold availableDivisions. cbv zeta.
  destruct selectedRegions as [|reg regs].
  { cbn [length Nat.ltb Nat.leb]. split; [constructor|].
    intros d. split; [by intros ?%elem_of_nil | by intros [? _]]. }
  change (0 <? length (reg :: regs))%nat with true. cbv iota.
  split.
  { apply sortStrings_strict, NoDup_arrayFromSet. }
  intros d. rewrite elem_of_distinct_values.
  split.
  - intros [Hne (r & Hr & Hd)]. split; [done|]. split; [done|].
    exists r. apply elem_of_List_filter in Hr as [Hr Hreg].
    apply includes_elem_of in Hreg.
    destruct selectedChannels as [|ch chs]; cbn [length Nat.ltb Nat.leb] in Hr.
    + split; [done|]. split; [by left|done].
    + apply elem_of_List_filter in Hr as [Hr Hch%includes_elem_of].
      split; [done|]. split; [by right|done].
  - intros (_ & Hne & r & Hr & Hch & Hreg & Hd). split; [done|].
    exists r. split; [|done]. apply elem_of_List_filter.
    split; [|by apply includes_elem_of].
    destruct selectedChannels as [|ch chs]; cbn [length Nat.ltb Nat.leb]; [done|].
    apply elem_of_List_filter. split; [done|]. apply includes_elem_of.
    by destruct Hch.
Qed.

(** ** Entity aggregators *)

Lemma assocGet_assocSet {V} (key key' : string) (value : V) (obj : list (string * V)) :
  assocGet key' (assocSet key value obj)
  = if String.eqb key key' then Some value else assocGet key' obj.
Proof.
  induction obj as [|[k v] obj IH]; cbn [assocSet assocGet]; [done|].
  destruct (String.eqb_spec k key) as [->|Hne]; cbn [assocGet].
  - by destruct (String.eqb key key').
  - rewrite IH. destruct (String.eqb_spec k key') as [->|Hne']; [|done].
    by destruct (String.eqb_spec key key') as [->|_].
Qed.

Lemma assocGet_None {V} (key : string) (obj : list (string * V)) :
  assocGet key obj = None ↔ key ∉ List.map fst obj.
Proof.
  induction obj as [|[k v] obj IH]; cbn [assocGet List.map fst].
  - split; [intros _; apply not_elem_of_nil | done].
  - rewrite not_elem_of_cons.
    destruct (String.eqb_spec k key) as [->|Hne]; [split; [done|tauto]|].
    rewrite IH. split; [by split|tauto].
Qed.

Lemma assocGet_Some_NoDup {V} (key : string) (value : V) (obj : list (string * V)) :
  NoDup (List.map fst obj) → (key, value) ∈ obj → assocGet key obj = Some value.
Proof.
  induction obj as [|[k v] obj IH]; cbn [assocGet List.map fst];
    intros Hnd Hin; [by apply elem_of_nil in Hin|].
  apply NoDup_cons in Hnd as [Hk Hnd].
  apply elem_of_cons in Hin as [[= -> ->]|Hin].
  - by rewrite String.eqb_refl.
  - destruct (String.eqb_spec k key) as [->|Hne]; [|by apply IH].
    exfalso. apply Hk. apply list_elem_of_fmap. by exists (key, value).
Qed.

Lemma fst_assocSet {V} (key : string) (value : V) (obj : list (string * V)) :
  List.map fst (assocSet key value obj)
  = match assocGet key obj with
    | Some _ => List.map fst obj
    | None => List.map fst obj ++ [key]
    end.
Proof.
  induction obj as [|[k v] obj IH]; cbn [assocSet assocGet List.map fst]; [done|].
  destruct (String.eqb_spec k key) as [->|Hne]; cbn [List.map fst]; [done|].
  rewrite IH. by destruct (assocGet key obj).
Qed.

Lemma List_filter_complement {A} (p : A → bool) (l : list A) :
  List.filter p l ++ List.filter (fun x => negb (p x)) l ≡ₚ l.
Proof.
  induction l as [|x l IH]; [done|]. cbn [List.filter].
  destruct (p x); cbn [negb app].
  - by rewrite IH.
  - by rewrite <- Permutation_middle, IH.
Qed.

Lemma objectEntries_Permutation {V} (obj : list (string * V)) :
  objectEntries obj ≡ₚ obj.
Proof.
  unfold objectEntries. cbv zeta. rewrite sortBy_Permutation.
  apply List_filter_complement.
Qed.

Lemma groupName_snoc (key : string) (records : list SaleRecord) (r : SaleRecord) :
  groupName key (records ++ [r])
  = if negb (String.eqb (companyName r) "") && String.eqb key (cnpj r)
    then companyName r else groupName key records.
Proof. unfold groupName. by rewrite fold_left_app. Qed.

Lemma groupRecords_snoc (f : SaleRecord → string) (key : string)
    (data : list SaleRecord) (r : SaleRecord) :
  groupRecords f key (data ++ [r])
  = groupRecords f key data ++ (if String.eqb (f r) key then [r] else []).
Proof.
  unfold groupRecords. rewrite List.filter_app. cbn [List.filter].
  by destruct (String.eqb (f r) key).
Qed.

(** What the grouping loop holds after a prefix of the rows. *)
Definition groupsInv (f : SaleRecord → string) (prefix : list SaleRecord)
    (groups : list (string * Group.t)) : Prop :=
  NoDup (List.map fst groups)
  ∧ ∀ key, assocGet key groups = groupOf f key prefix.


Lemma groupStep_inv (f : SaleRecord → string) (prefix : list SaleRecord)
    (groups groups' : list (string * Group.t)) (r : SaleRecord) :
  groupsInv f prefix groups → groupStep f groups r = Some groups' →
  groupsInv f (prefix ++ [r]) groups'.
Proof.
  intros [Hnd Hget] Hstep. unfold groupStep in Hstep. cbv zeta in Hstep.
  destruct (excludedKey (f r)) eqn:Hex.
  { injection Hstep as <-. split; [done|]. intros key. rewrite Hget.
    unfold groupOf. rewrite groupRecords_snoc.
    destruct (String.eqb_spec (f r) key) as [<-|_]; [|by rewrite app_nil_r].
    rewrite Hex.
    destruct (groupRecords f (f r) prefix); cbn [app]; done. }
  destruct (includes objectPrototypeKeys (f r)); [discriminate|].
  injection Hstep as <-. split.
  - rewrite fst_assocSet. destruct (assocGet (f r) groups) eqn:Hg; [done|].
    apply NoDup_app. split; [done|]. split; [|apply NoDup_singleton].
    intros k Hk ->%list_elem_of_singleton. by apply assocGet_None in Hg.
  - intros key. rewrite assocGet_assocSet.
    unfold groupOf. rewrite groupRecords_snoc.
    destruct (String.eqb_spec (f r) key) as [<-|Hne].
    + rewrite Hget. unfold groupOf.
      destruct (groupRecords f (f r) prefix) as [|first rest]; cbn [app].
      * rewrite Hex. cbn [Group.records Group.name Group.region Group.sector app].
        unfold groupName. cbn [fold_left].
        by destruct (negb (String.eqb (companyName r) "") && String.eqb (f r) (cnpj r)).
      * rewrite Hex. cbn [Group.records Group.name Group.region Group.sector].
        change (first :: rest ++ [r]) with ((first :: rest) ++ [r]).
        rewrite groupName_snoc.
        by destruct (negb (String.eqb (companyName r) "") && String.eqb (f r) (cnpj r)).
    + rewrite app_nil_r. apply Hget.
Qed.

Lemma groupsOf_inv (f : SaleRecord → string) (rest prefix : list SaleRecord)
    (groups groups' : list (string * Group.t)) :
  groupsInv f prefix groups → groupsOf f rest groups = Some groups' →
  groupsInv f (prefix ++ rest) groups'.
Proof.
  revert prefix groups. induction rest as [|r rest IH]; intros prefix groups Hinv Hof.
  - injection Hof as <-. by rewrite app_nil_r.
  - cbn [groupsOf] in Hof. destruct (groupStep f groups r) as [groups1|] eqn:Hstep;
      [|discriminate].
    rewrite (cons_middle r prefix rest), app_assoc.
    apply (IH _ groups1); [|done]. by apply (groupStep_inv f prefix groups).
Qed.


Lemma groupsInv_nil (f : SaleRecord → string) : groupsInv f [] [].
Proof. split; [constructor|done]. Qed.


Lemma getStatsByGroup_sorted_aux (data : list SaleRecord)
    (groupKeyFn : SaleRecord → string) :
  match getStatsByGroup data groupKeyFn with
  | Some stats =>
      Sorted (λ a b, (EntityStats.revenue b <= EntityStats.revenue a)%Q) stats
  | None => True
  end.
Proof.
  unfold getStatsByGroup. destruct (groupsOf groupKeyFn data []); [|done].
  apply (sortBy_Sorted EntityStats.revenue).
Qed.


(** X26. Every entity is computed from all the rows of its key, in row
    order: its revenue is their net revenue of November 2025 alone, its
    past average one third of their revenue of August, September and
    October, its name the company name of the last row that has one and
    whose client is the key (else the key), its region and sector those of
    the first row. *)
Theorem getStatsByGroup_entity (data : list SaleRecord)
    (groupKeyFn : SaleRecord → string) :
  match getStatsByGroup data groupKeyFn with
  | Some stats =>
      Forall (fun e =>
          let records := groupRecords groupKeyFn (EntityStats.id e) data in
          let month m := List.filter (fun r => startsWith (date r) m) records in
          EntityStats.revenue e = totalRevenue (month "2025-11")
          ∧ EntityStats.averagePastRevenue e
            = ((totalRevenue (month "2025-08") + totalRevenue (month "2025-09")
                + totalRevenue (month "2025-10")) / 3)%Q
          ∧ EntityStats.orders e = inject_Z (totalOrders (month "2025-11"))
          ∧ EntityStats.name e = groupName (EntityStats.id e) records
          ∧ ∃ first,
              head records = Some first
              ∧ EntityStats.region e = region first
              ∧ EntityStats.sector e = sector first
              ∧ e = entityOf (EntityStats.id e)
                      (Group.mk records (groupName (EntityStats.id e) records)
                         (region first) (sector first))) stats
  | None => True
  end.
Proof.
  unfold getStatsByGroup.
  destruct (groupsOf groupKeyFn data []) as [groups|] eqn:Hgroups; [|done].
  pose proof (groupsOf_inv groupKeyFn data [] [] groups (groupsInv_nil _) Hgroups)
    as [Hnd Hget].
  cbn [app] in Hget.
  apply Forall_forall. intros e He. rewrite sortBy_Permutation in He.
  apply list_elem_of_fmap in He as ([id group] & -> & Hin).
  rewrite objectEntries_Permutation in Hin.
  apply (assocGet_Some_NoDup _ _ _ Hnd) in Hin. rewrite Hget in Hin.
  unfold groupOf in Hin. cbv zeta.
  change (EntityStats.id (entityOf id group)) with id.
  destruct (groupRecords groupKeyFn id data) as [|first rest]; [discriminate|].
  destruct (excludedKey id); [discriminate|]. injection Hin as <-.
  split; [reflexivity|]. split; [reflexivity|]. split; [reflexivity|].
  split; [reflexivity|]. exists first. by repeat split.
Qed.

(** X27. The trend of an entity against the trend of the header cards
    ([calcTrend]): the two agree whenever the past average is not negative;
    for a negative past average (net returns) the entity shows 100 or 0
    where the cards compute a percentage. *)
Theorem revenueTrend_against_calcTrend (id : string) (group : Group.t) :
  let e := entityOf id group in
  ((0 <= EntityStats.averagePastRevenue e)%Q →
   EntityStats.revenueTrend e
   = calcTrend (EntityStats.currentRevenue e) (EntityStats.averagePastRevenue e))
  ∧ ((EntityStats.averagePastRevenue e < 0)%Q →
     EntityStats.revenueTrend e
     = (if Qgtb (EntityStats.currentRevenue e) 0 then 100 else 0)%Q).
Proof.
  cbv zeta. unfold entityOf. cbv zeta.
  cbn [EntityStats.averagePastRevenue EntityStats.revenueTrend
       EntityStats.currentRevenue].
  set (current := KPIStats.totalRevenue _).
  set (past := ((_ + _ + _) / 3)%Q).
  unfold revenueTrendOf, calcTrend. split.
  - intros Hpast. destruct (Qgtb past 0) eqn:Hgt.
    + apply Qgtb_0_lt in Hgt.
      destruct (Qeq_bool past 0) eqn:Heq; [|done].
      apply Qeq_bool_iff in Heq. rewrite Heq in Hgt. by apply Qlt_irrefl in Hgt.
    + destruct (Qeq_bool past 0) eqn:Heq; [done|].
      exfalso. apply Qeq_bool_neq in Heq. apply Heq.
      apply Qle_antisym; [|done].
      apply Qnot_lt_le. intros Hlt. apply Qgtb_0_lt in Hlt. congruence.
  - intros Hpast. destruct (Qgtb past 0) eqn:Hgt; [|done].
    apply Qgtb_0_lt in Hgt. exfalso.
    apply (Qlt_irrefl 0). exact (Qlt_trans _ _ _ Hgt Hpast).
Qed.

(** X28. The supplier table is the entity table of the suppliers with the
    SKU count added: sorting it once more by revenue moves no row. *)
Theorem getSupplierStats_keeps_order (data : list SaleRecord) :
  getSupplierStats data
  = option_map
      (List.map (fun s =>
           SupplierStats.mk s (supplierSkuCount data (EntityStats.id s))))
      (getStatsByGroup data supplier).
Proof.
  unfold getSupplierStats.
  pose proof (getStatsByGroup_sorted_aux data supplier) as Hsorted.
  destruct (getStatsByGroup data supplier) as [stats|]; [|done].
  cbn [option_map]. f_equal.
  apply (sortBy_sorted_id (fun s => EntityStats.revenue (SupplierStats.base s))).
  apply (Sorted_fmap _
           (λ a b, (EntityStats.revenue b <= EntityStats.revenue a)%Q)
           (descBy (fun s => EntityStats.revenue (SupplierStats.base s))) stats);
    [|exact Hsorted].
  intros a b Hab. exact Hab.
Qed.

(** ** Product aggregator *)













(** ** Geo statistics: totals *)






